(** * parameter_driven_ipo_case_generator.py: a shallow embedding

    [ParameterDrivenIPOGenerator] turns a parameter dictionary into a dated
    task timeline.  The embedding follows the Python source line by line:

    - a [str] is a Rocq [string] holding the UTF-8 bytes of the text.  The
      source only searches for, replaces and tests prefixes with well-formed
      literals, and on well-formed UTF-8 these byte-level operations agree
      with Python's code-point-level ones; where [strptime] reads a
      decimal digit, which may be of any script, the character is decoded;
    - a [float] is a primitive binary64 float, the type CPython uses;
    - an [int] is a [Z];
    - a raised exception is the [Raise] branch of [result]; the calls sent to
      the LLM client are recorded in a log threaded through [M];
    - [datetime] values carry a calendar date only: every date of the program
      comes from [strptime] with the format [%Y-%m-%d] and is moved by whole
      weeks, so the time of day is always midnight;
    - a dictionary with a fixed set of keys is a record whose fields bear the
      keys; a dictionary used as a table is an association list in insertion
      order.

    Left out: what is printed. *)

From Stdlib Require Import ZArith List String Ascii Bool Lia.
From Stdlib Require Import PrimFloat FloatOps SpecFloat DecimalString.
From Stdlib Require Import Sorted Permutation.
Import ListNotations.

Set Warnings "-inexact-float,-register-all".

Open Scope string_scope.
Open Scope Z_scope.

(* ================================================================== *)
(** ** Python strings *)

Module PyStr.

(** [sub in s] for strings. *)
Fixpoint contains (sub s : string) : bool :=
  prefix sub s ||
  match s with
  | EmptyString => false
  | String _ s' => contains sub s'
  end.

(** [s.replace(old, new)] for a non-empty [old]: occurrences are found
    left to right and do not overlap.  [skip] counts the bytes of the
    occurrence just replaced that are still to be dropped. *)
Fixpoint replace_from (old new : string) (skip : nat) (s : string) : string :=
  match s with
  | EmptyString => EmptyString
  | String c s' =>
      match skip with
      | S k => replace_from old new k s'
      | O =>
          if prefix old s
          then new ++ replace_from old new (String.length old - 1) s'
          else String c (replace_from old new 0 s')
      end
  end.

Definition replace (old new s : string) : string := replace_from old new 0 s.

(** [s.startswith(p)]. *)
Definition startswith (s p : string) : bool := prefix p s.

(** [str(n)] for an [int]. *)
Definition str (n : Z) : string := NilZero.string_of_int (Z.to_int n).

Definition is_digit (c : ascii) : bool :=
  (48 <=? nat_of_ascii c)%nat && (nat_of_ascii c <=? 57)%nat.

Definition digit_val (c : ascii) : Z := Z.of_nat (nat_of_ascii c) - 48.

Definition byte (c : ascii) : Z := Z.of_nat (nat_of_ascii c).

(** The payload of a UTF-8 continuation byte [10xxxxxx]. *)
Definition continuation (c : ascii) : option Z :=
  if (128 <=? byte c) && (byte c <=? 191) then Some (byte c - 128) else None.

(** The first character of [s], as its code point decoded from UTF-8, and
    the text after it.  Encodings that are longer than needed, surrogates
    and values past U+10FFFF are not characters of a Python [str]. *)
Definition code_point (s : string) : option (Z * string) :=
  match s with
  | EmptyString => None
  | String c0 r0 =>
      let b0 := byte c0 in
      if b0 <? 128 then Some (b0, r0)
      else if (194 <=? b0) && (b0 <? 224) then
        match r0 with
        | String c1 r1 =>
            match continuation c1 with
            | Some x1 => Some ((b0 - 192) * 64 + x1, r1)
            | None => None
            end
        | EmptyString => None
        end
      else if (224 <=? b0) && (b0 <? 240) then
        match r0 with
        | String c1 (String c2 r2) =>
            match continuation c1, continuation c2 with
            | Some x1, Some x2 =>
                let cp := (b0 - 224) * 4096 + x1 * 64 + x2 in
                if (2048 <=? cp) && negb ((55296 <=? cp) && (cp <=? 57343))
                then Some (cp, r2) else None
            | _, _ => None
            end
        | _ => None
        end
      else if (240 <=? b0) && (b0 <? 245) then
        match r0 with
        | String c1 (String c2 (String c3 r3)) =>
            match continuation c1, continuation c2, continuation c3 with
            | Some x1, Some x2, Some x3 =>
                let cp := (b0 - 240) * 262144 + x1 * 4096 + x2 * 64 + x3 in
                if (65536 <=? cp) && (cp <=? 1114111)
                then Some (cp, r3) else None
            | _, _, _ => None
            end
        | _ => None
        end
      else None
  end.

(** The code points of the digit zero of every script: the characters of
    the category Nd (what [\d] matches in a [str] pattern and [int] reads)
    are the ten code points from each of them on.  Unicode 14.0, the
    database of CPython 3.11. *)
Definition decimal_zeros : list Z :=
  [ 48; 1632; 1776; 1984; 2406; 2534; 2662; 2790;
    2918; 3046; 3174; 3302; 3430; 3558; 3664; 3792;
    3872; 4160; 4240; 6112; 6160; 6470; 6608; 6784;
    6800; 6992; 7088; 7232; 7248; 42528; 43216; 43264;
    43472; 43504; 43600; 44016; 65296; 66720; 68912; 69734;
    69872; 69942; 70096; 70384; 70736; 70864; 71248; 71360;
    71472; 71904; 72016; 72784; 73040; 73120; 92768; 92864;
    93008; 120782; 120792; 120802; 120812; 120822; 123200; 123632;
    125264; 130032 ].

(** The value of the decimal digit with code point [cp]. *)
Definition decimal_value (cp : Z) : option Z :=
  match find (fun zero => (zero <=? cp) && (cp <=? zero + 9)) decimal_zeros with
  | Some zero => Some (cp - zero)
  | None => None
  end.

(** [\d] at the head of [s]: the value of the digit, and what follows it. *)
Definition decimal (s : string) : option (Z * string) :=
  match code_point s with
  | Some (cp, r) =>
      match decimal_value cp with
      | Some v => Some (v, r)
      | None => None
      end
  | None => None
  end.

End PyStr.

(* ================================================================== *)
(** ** Exceptions *)

Inductive exn : Type :=
| KeyError (key : string)
| ValueError
| OverflowError.

Inductive result (A : Type) : Type :=
| Ok (a : A)
| Raise (e : exn).
Arguments Ok {A} a.
Arguments Raise {A} e.

Definition rbind {A B : Type} (m : result A) (k : A -> result B) : result B :=
  match m with
  | Ok a => k a
  | Raise e => Raise e
  end.

Declare Scope result_scope.
Delimit Scope result_scope with result.
Notation "x <- m ;; k" := (rbind m (fun x => k))
  (at level 61, m at next level, right associativity) : result_scope.

(** A [for] loop that appends one value per element, stopping at the first
    exception. *)
Fixpoint for_each {A B : Type} (body : A -> result B) (l : list A)
  : result (list B) :=
  match l with
  | [] => Ok []
  | x :: l' =>
      (y <- body x ;;
       ys <- for_each body l' ;;
       Ok (y :: ys))%result
  end.

Definition is_ok {A : Type} (r : result A) : bool :=
  match r with Ok _ => true | Raise _ => false end.

(* ================================================================== *)
(** ** Python dictionaries with string keys, in insertion order *)

Module PyDict.

Definition dict (V : Type) : Type := list (string * V).

Fixpoint lookup {V : Type} (d : dict V) (k : string) : option V :=
  match d with
  | [] => None
  | (k', v) :: d' => if String.eqb k' k then Some v else lookup d' k
  end.

(** [d[k]] *)
Definition getitem {V : Type} (d : dict V) (k : string) : result V :=
  match lookup d k with
  | Some v => Ok v
  | None => Raise (KeyError k)
  end.

(** [d.get(k, default)] *)
Definition get {V : Type} (d : dict V) (k : string) (default : V) : V :=
  match lookup d k with
  | Some v => v
  | None => default
  end.

(** [d[k] = v] *)
Fixpoint setitem {V : Type} (d : dict V) (k : string) (v : V) : dict V :=
  match d with
  | [] => [(k, v)]
  | (k', v') :: d' =>
      if String.eqb k' k then (k', v) :: d' else (k', v') :: setitem d' k v
  end.

Definition keys {V : Type} (d : dict V) : list string := map fst d.

End PyDict.

(* ================================================================== *)
(** ** Python floats and their conversions *)

Module PyFloat.

(** [float(n)] for an [int]: the nearest binary64 value, ties to even;
    [OverflowError] when [n] is too large. *)
Definition of_int (n : Z) : result float :=
  let f := SF2Prim (binary_normalize prec emax n 0 false) in
  if is_infinity f then Raise OverflowError else Ok f.

(** [int(f)]: truncation towards zero; [ValueError] on NaN and
    [OverflowError] on an infinity. *)
Definition to_int (f : float) : result Z :=
  match Prim2SF f with
  | S754_zero _ => Ok 0
  | S754_infinity _ => Raise OverflowError
  | S754_nan => Raise ValueError
  | S754_finite s m e =>
      let v := if 0 <=? e then Z.pos m * 2 ^ e else Z.pos m / 2 ^ (- e) in
      Ok (if s then - v else v)
  end.

(** [n * f] with [n] an [int] and [f] a [float]. *)
Definition int_mul (n : Z) (f : float) : result float :=
  (x <- of_int n ;; Ok (x * f)%float)%result.

Definition pos (f : float) : bool := (0 <? f)%float.

End PyFloat.

(* ================================================================== *)
(** ** datetime

    The calendar arithmetic is CPython's ([Lib/_pydatetime.py]), with its
    names. *)

Record datetime : Type := mkdate { year : Z; month : Z; day : Z }.

Module Datetime.

Definition MINYEAR : Z := 1.
Definition MAXYEAR : Z := 9999.
Definition _MAXORDINAL : Z := 3652059.

Definition _is_leap (y : Z) : bool :=
  (y mod 4 =? 0) && (negb (y mod 100 =? 0) || (y mod 400 =? 0)).

Definition _days_before_year (y : Z) : Z :=
  let y := y - 1 in
  y * 365 + y / 4 - y / 100 + y / 400.

Definition _DAYS_IN_MONTH (m : Z) : Z :=
  match m with
  | 1 => 31 | 2 => 28 | 3 => 31 | 4 => 30 | 5 => 31 | 6 => 30
  | 7 => 31 | 8 => 31 | 9 => 30 | 10 => 31 | 11 => 30 | 12 => 31
  | _ => -1
  end.

Definition _DAYS_BEFORE_MONTH (m : Z) : Z :=
  match m with
  | 1 => 0 | 2 => 31 | 3 => 59 | 4 => 90 | 5 => 120 | 6 => 151
  | 7 => 181 | 8 => 212 | 9 => 243 | 10 => 273 | 11 => 304 | 12 => 334
  | _ => -1
  end.

Definition _days_in_month (y m : Z) : Z :=
  if (m =? 2) && _is_leap y then 29 else _DAYS_IN_MONTH m.

Definition _days_before_month (y m : Z) : Z :=
  _DAYS_BEFORE_MONTH m + (if (2 <? m) && _is_leap y then 1 else 0).

Definition _ymd2ord (y m d : Z) : Z :=
  _days_before_year y + _days_before_month y m + d.

Definition _DI400Y : Z := Eval vm_compute in _days_before_year 401.
Definition _DI100Y : Z := Eval vm_compute in _days_before_year 101.
Definition _DI4Y : Z := Eval vm_compute in _days_before_year 5.

Definition _ord2ymd (n : Z) : datetime :=
  let n := n - 1 in
  let n400 := n / _DI400Y in
  let n := n mod _DI400Y in
  let y := n400 * 400 + 1 in
  let n100 := n / _DI100Y in
  let n := n mod _DI100Y in
  let n4 := n / _DI4Y in
  let n := n mod _DI4Y in
  let n1 := n / 365 in
  let n := n mod 365 in
  let y := y + (n100 * 100 + n4 * 4 + n1) in
  if (n1 =? 4) || (n100 =? 4) then mkdate (y - 1) 12 31
  else
    let leapyear := (n1 =? 3) && (negb (n4 =? 24) || (n100 =? 3)) in
    let m := Z.shiftr (n + 50) 5 in
    let preceding :=
      _DAYS_BEFORE_MONTH m + (if (2 <? m) && leapyear then 1 else 0) in
    if n <? preceding then
      let m := m - 1 in
      let preceding :=
        preceding
        - (_DAYS_IN_MONTH m + (if (m =? 2) && leapyear then 1 else 0)) in
      mkdate y m (n - preceding + 1)
    else mkdate y m (n - preceding + 1).

(** The field checks of the [datetime] constructor. *)
Definition valid (d : datetime) : bool :=
  (MINYEAR <=? year d) && (year d <=? MAXYEAR) &&
  (1 <=? month d) && (month d <=? 12) &&
  (1 <=? day d) && (day d <=? _days_in_month (year d) (month d)).

Definition new (y m d : Z) : result datetime :=
  if valid (mkdate y m d) then Ok (mkdate y m d) else Raise ValueError.

Definition toordinal (d : datetime) : Z :=
  _ymd2ord (year d) (month d) (day d).

(** [a < b]: the fields compared as tuples. *)
Definition lt (a b : datetime) : bool :=
  (year a <? year b) ||
  ((year a =? year b) &&
   ((month a <? month b) ||
    ((month a =? month b) && (day a <? day b)))).

Definition eqb (a b : datetime) : bool :=
  (year a =? year b) && (month a =? month b) && (day a =? day b).

Definition le (a b : datetime) : bool := negb (lt b a).

(** [d + timedelta(weeks=w)]: [OverflowError] when the span is beyond what
    a [timedelta] holds or the sum leaves the years 1..9999. *)
Definition add_weeks (d : datetime) (w : Z) : result datetime :=
  let days := 7 * w in
  if 999999999 <? Z.abs days then Raise OverflowError
  else
    let n := toordinal d + days in
    if (0 <? n) && (n <=? _MAXORDINAL) then Ok (_ord2ymd n)
    else Raise OverflowError.

(** The year directive [%Y] at the head of [s]: [\d\d\d\d], four decimal
    digits of any script, read by [int]. *)
Definition parse_Y (s : string) : option (Z * string) :=
  match PyStr.decimal s with
  | Some (d1, s1) =>
      match PyStr.decimal s1 with
      | Some (d2, s2) =>
          match PyStr.decimal s2 with
          | Some (d3, s3) =>
              match PyStr.decimal s3 with
              | Some (d4, s4) =>
                  Some (1000 * d1 + 100 * d2 + 10 * d3 + d4, s4)
              | None => None
              end
          | None => None
          end
      | None => None
      end
  | None => None
  end.

(** The day directive [%d] at the head of [s]:
    [3[0-1]|[1-2]\d|0[1-9]|[1-9]| [1-9]], first alternative that matches.
    The classes in brackets hold ASCII digits only; the [\d] after [1] or
    [2] is a decimal digit of any script. *)
Definition parse_d (s : string) : option (Z * string) :=
  match s with
  | String a r =>
      let two :=
        if Ascii.eqb a "3" then
          match r with
          | String b r' =>
              if Ascii.eqb b "0" || Ascii.eqb b "1"
              then Some (30 + PyStr.digit_val b, r') else None
          | EmptyString => None
          end
        else if Ascii.eqb a "1" || Ascii.eqb a "2" then
          match PyStr.decimal r with
          | Some (db, r') => Some (10 * PyStr.digit_val a + db, r')
          | None => None
          end
        else if Ascii.eqb a "0" then
          match r with
          | String b r' =>
              if PyStr.is_digit b && negb (Ascii.eqb b "0")
              then Some (PyStr.digit_val b, r') else None
          | EmptyString => None
          end
        else None in
      match two with
      | Some x => Some x
      | None =>
          if PyStr.is_digit a && negb (Ascii.eqb a "0")
          then Some (PyStr.digit_val a, r)
          else
            match r with
            | String b r' =>
                if Ascii.eqb a " " && PyStr.is_digit b && negb (Ascii.eqb b "0")
                then Some (PyStr.digit_val b, r')
                else None
            | EmptyString => None
            end
      end
  | EmptyString => None
  end.

(** The month directive [%m] at the head of [s]: [1[0-2]|0[1-9]|[1-9]].
    It is followed by a literal [-], so no later alternative can succeed
    where an earlier one matched. *)
Definition parse_m (s : string) : option (Z * string) :=
  match s with
  | String a r =>
      let one :=
        if PyStr.is_digit a && negb (Ascii.eqb a "0")
        then Some (PyStr.digit_val a, r) else None in
      match r with
      | String b r' =>
          let db := PyStr.digit_val b in
          if Ascii.eqb a "1" && (Ascii.eqb b "0" || Ascii.eqb b "1" || Ascii.eqb b "2")
          then Some (10 + db, r')
          else if Ascii.eqb a "0" && PyStr.is_digit b && negb (Ascii.eqb b "0")
          then Some (db, r')
          else one
      | EmptyString => one
      end
  | EmptyString => None
  end.

(** [datetime.strptime(s, "%Y-%m-%d")]: the text must match
    [%Y-%m-%d] from its start to its end, and the fields must form a
    date. *)
Definition strptime_Ymd (s : string) : result datetime :=
  match parse_Y s with
  | Some (y, String sep r) =>
      if Ascii.eqb sep "-" then
        match parse_m r with
        | Some (m, String sep2 r2) =>
            if Ascii.eqb sep2 "-" then
              match parse_d r2 with
              | Some (d, EmptyString) => new y m d
              | _ => Raise ValueError
              end
            else Raise ValueError
        | _ => Raise ValueError
        end
      else Raise ValueError
  | _ => Raise ValueError
  end.

End Datetime.

(* ================================================================== *)
(** ** Python lists: [list.sort(key=...)] *)

Module PyList.

Section Sort.
Context {A K : Type} (lt : K -> K -> bool) (key : A -> K).

(** [x] goes in front of the first element whose key is not smaller
    than its own. *)
Fixpoint insert (x : A) (l : list A) : list A :=
  match l with
  | [] => [x]
  | y :: l' => if lt (key y) (key x) then y :: insert x l' else x :: l
  end.

(** [l.sort(key=key)]: a stable sort that compares keys with [<]. *)
Fixpoint sort (l : list A) : list A :=
  match l with
  | [] => []
  | x :: l' => insert x (sort l')
  end.
End Sort.

End PyList.

(* ================================================================== *)
(** ** The data of the generator *)

Import PyDict.

(** A task template of [base_templates]. *)
Module Task.
Record t : Type := mk {
  工作条线 : string;
  任务 : string;
  牵头方 : string;
  周偏移 : Z
}.
End Task.

(** A dictionary of the returned timeline. *)
Module Entry.
Record t : Type := mk {
  日期 : string;
  工作条线 : string;
  主要任务 : string;
  牵头方 : string
}.
End Entry.

(** A dictionary of the timeline while it still holds its [sort_date]:
    [item.pop("sort_date")] leaves [entry]. *)
Record Keyed : Type := mkKeyed { entry : Entry.t; sort_date : datetime }.

(** The records of [variation_rules], one table per categorical field. *)
Module Rules.
Record structure : Type :=
  { add_modules : list string; complexity_modifier : float }.
Record pace : Type := { time_compression : float; risk_level : string }.
Record board : Type := { description : string }.
Record financials : Type := { audit_complexity : float }.
Record readiness : Type := { preparation_factor : float }.
Record t : Type := mk {
  company_structure : dict structure;
  project_pace : dict pace;
  listing_board_hk : dict board;
  a1_filing_financials : dict financials;
  ipo_readiness : dict readiness
}.
End Rules.

(** [case_params]: a key that is absent is [None]. *)
Module Params.
Record t : Type := mk {
  case_name : option string;
  project_start_date : option string;
  sponsor_agreement_date : option string;
  equity_reform_base_date : option string;
  equity_reform_completion_date : option string;
  a1_submission_date : option string;
  performance_period : option string;
  current_structure : option string;
  project_pace : option string;
  listing_board_hk : option string;
  a1_filing_financials : option string;
  ipo_readiness : option (list string);
  optional_modules : option (list string)
}.

(** [case_params[k]] *)
Definition item {V : Type} (k : string) (field : option V) : result V :=
  match field with
  | Some v => Ok v
  | None => Raise (KeyError k)
  end.

(** [case_params.get(k, default)] *)
Definition get {V : Type} (field : option V) (default : V) : V :=
  match field with
  | Some v => v
  | None => default
  end.
End Params.

(** Values decoded from JSON, and the review dictionaries. *)
Inductive Json : Type :=
| JNull
| JBool (b : bool)
| JInt (n : Z)
| JFloat (f : float)
| JStr (s : string)
| JList (l : list Json)
| JObj (d : list (string * Json)).

(** The [try] block of [_call_llm_for_review] (lines 282-292) as seen from
    outside: it
    serialises the timeline, sends one request and decodes the answer with
    [json.loads].  Either some step raises an [Exception] with text [e], or
    the block returns the decoded value.  The parameters are not sent. *)
Inductive Reply : Type :=
| Failed (e : string)
| Replied (j : Json).

Record LLMClient : Type := { review_request : list Entry.t -> Reply }.

(** [self] *)
Record Generator : Type := mkGenerator {
  base_templates : dict (list Task.t);
  variation_rules : Rules.t;
  llm_client : option LLMClient
}.

(** ["案例特征"] of the report. *)
Record Characteristics : Type := mkCharacteristics {
  总任务数 : Z;
  公司架构 : string;
  项目节奏 : string;
  上市板块 : string;
  财务报表期数 : string;
  IPO准备度 : string;
  复杂度系数 : float;
  时间调整系数 : float
}.

Record Report : Type := mkReport {
  案例名称 : option string;
  项目参数 : Params.t;
  案例特征 : Characteristics;
  LLM审核结果 : Json
}.

(* ================================================================== *)
(** ** Effects: exceptions and the log of requests sent to the client *)

Definition CallLog : Type := list (list Entry.t).

Definition M (A : Type) : Type := CallLog -> result A * CallLog.

Definition ret {A : Type} (a : A) : M A := fun log => (Ok a, log).

Definition lift {A : Type} (r : result A) : M A := fun log => (r, log).

Definition bind {A B : Type} (m : M A) (k : A -> M B) : M B :=
  fun log =>
    match m log with
    | (Ok a, log') => k a log'
    | (Raise e, log') => (Raise e, log')
    end.

Declare Scope M_scope.
Delimit Scope M_scope with M.
Notation "x <~ m ;; k" := (bind m (fun x => k))
  (at level 61, m at next level, right associativity) : M_scope.

(* ================================================================== *)
(** ** Configuration *)

(** Lines 144-156. *)
Definition _load_base_templates : dict (list Task.t) :=
  [ ("core_tasks",
     [ Task.mk "项目管理" "召开项目启动会" "全体" 0;
       Task.mk "境内外监管审批" "定稿保荐人及整体协调人委任函并呈交联交所" "保荐人" 2;
       Task.mk "境内外监管审批" "向联交所递交A1申请" "各方" 23 ]);
    ("equity_reform_tasks",
     [ Task.mk "股改" "作出确定股改基准日、股权激励等决议" "公司、公司境内律师" 2;
       Task.mk "股改" "完成股改工作（召开创立大会）" "公司、公司境内律师" 10 ]) ].

(** Lines 158-185. *)
Definition _load_variation_rules : Rules.t :=
  Rules.mk
    [ ("境内有限责任公司 (需股改)",
       {| Rules.add_modules := ["equity_reform_tasks"];
          Rules.complexity_modifier := 1.1 |});
      ("已是境内股份有限公司",
       {| Rules.add_modules := []; Rules.complexity_modifier := 0.8 |});
      ("红筹/VIE架构 (已搭建)",
       {| Rules.add_modules := []; Rules.complexity_modifier := 0.9 |});
      ("红筹/VIE架构 (需搭建)",
       {| Rules.add_modules := []; Rules.complexity_modifier := 1.3 |}) ]
    [ ("急速推进 (Aggressive)",
       {| Rules.time_compression := 0.85; Rules.risk_level := "高" |});
      ("标准节奏 (Standard)",
       {| Rules.time_compression := 1.0; Rules.risk_level := "中" |});
      ("稳健保守 (Cautious)",
       {| Rules.time_compression := 1.15; Rules.risk_level := "低" |}) ]
    [ ("主板", {| Rules.description := "主板" |});
      ("GEM", {| Rules.description := "GEM" |}) ]
    [ ("最近两个完整财年 + 最近一期中期", {| Rules.audit_complexity := 0.8 |});
      ("最近三个完整财年", {| Rules.audit_complexity := 1.0 |});
      ("最近三个完整财年 + 最近一期中期", {| Rules.audit_complexity := 1.2 |}) ]
    [ ("高准备度", {| Rules.preparation_factor := 0.9 |});
      ("中等准备度", {| Rules.preparation_factor := 1.0 |});
      ("低准备度", {| Rules.preparation_factor := 1.2 |}) ].

(** [__init__]; [client] is what [_init_llm_client] finds: a client when the
    [openai] package and the API key are there, [None] otherwise. *)
Definition init (client : option LLMClient) : Generator :=
  mkGenerator _load_base_templates _load_variation_rules client.

(* ================================================================== *)
(** ** Tools *)

(** Lines 190-194. *)
Definition _parse_date (date_str : string) : result datetime :=
  if PyStr.contains "当周" date_str then
    let date_part :=
      PyStr.replace "日" ""
        (PyStr.replace "月" "-"
           (PyStr.replace "年" "-"
              (PyStr.replace "当周" "" date_str))) in
    Datetime.strptime_Ymd date_part
  else Datetime.strptime_Ymd date_str.

(** Lines 196-197. *)
Definition _format_date (date : datetime) : string :=
  PyStr.str (year date) ++ "年" ++ PyStr.str (month date) ++ "月"
  ++ PyStr.str (day date) ++ "日当周".

(** Lines 199-204. *)
Definition _determine_ipo_readiness_level (readiness_list : list string)
  : string :=
  if existsb (String.eqb "几乎未开始") readiness_list then "低准备度"
  else if 3 <=? Z.of_nat
            (List.length
               (filter (fun r => negb (String.eqb r "几乎未开始"))
                  readiness_list))
  then "高准备度"
  else "中等准备度".

(* ================================================================== *)
(** ** The review *)

(** Lines 279-294.  The request is logged when it is sent. *)
Definition _call_llm_for_review (self : Generator) (timeline : list Entry.t)
  (params : Params.t) : M Json :=
  match llm_client self with
  | None =>
      ret (JObj [("review_passed", JBool true); ("summary", JStr "LLM未启用")])
  | Some client =>
      fun log =>
        let log := (log ++ [timeline])%list in
        match review_request client timeline with
        | Replied j => (Ok j, log)
        | Failed e =>
            (Ok (JObj [("review_passed", JBool true);
                       ("summary", JStr ("LLM调用失败: " ++ e))]), log)
        end
  end.

(* ================================================================== *)
(** ** Timeline generation *)

(** [self._parse_date(case_params[k])] (lines 211-215). *)
Definition param_date (k : string) (field : option string) : result datetime :=
  (s <- Params.item k field ;; _parse_date s)%result.

(** The working task list (lines 231-234): the core tasks, then the groups
    named by the structure rule. *)
Definition collect_tasks (self : Generator) (structure_rules : Rules.structure)
  : result (list Task.t) :=
  (core <- getitem (base_templates self) "core_tasks" ;;
   Ok (core ++ flat_map (fun mod_ => get (base_templates self) mod_ [])
                (Rules.add_modules structure_rules))%list)%result.

(** The body of the loop over [tasks] (lines 237-253): the dictionary
    appended for [t].  A later override wins over an earlier one. *)
Definition timeline_entry
  (project_start_date sponsor_agreement_date equity_base_date
     equity_completion_date a1_date : datetime)
  (time_factor : float) (t : Task.t) : result Keyed :=
  (scaled <- PyFloat.int_mul (Task.周偏移 t) time_factor ;;
   weeks <- PyFloat.to_int scaled ;;
   let week_offset := Z.max 0 weeks in
   date <- Datetime.add_weeks project_start_date week_offset ;;
   let date :=
     if PyStr.startswith (Task.任务 t) "定稿保荐人"
     then sponsor_agreement_date else date in
   let date :=
     if PyStr.startswith (Task.任务 t) "作出确定股改基准日"
     then equity_base_date else date in
   let date :=
     if PyStr.startswith (Task.任务 t) "完成股改工作"
     then equity_completion_date else date in
   let date :=
     if PyStr.startswith (Task.任务 t) "向联交所递交A1申请"
     then a1_date else date in
   Ok (mkKeyed
         (Entry.mk (_format_date date) (Task.工作条线 t) (Task.任务 t)
            (Task.牵头方 t))
         date))%result.

(** The local variables of [generate_case_timeline] when its loop over
    [tasks] has ended; [timeline] still holds the [sort_date] keys and is in
    the order of [tasks]. *)
Module Locals.
Record t : Type := mk {
  project_start_date : datetime;
  sponsor_agreement_date : datetime;
  equity_base_date : datetime;
  equity_completion_date : datetime;
  a1_date : datetime;
  company_structure : string;
  project_pace : string;
  listing_board : string;
  optional_modules : list string;
  ipo_readiness : list string;
  a1_financials : string;
  structure_rules : Rules.structure;
  pace_rules : Rules.pace;
  financial_rules : Rules.financials;
  readiness_level : string;
  readiness_rules : Rules.readiness;
  time_factor : float;
  complexity_factor : float;
  tasks : list Task.t;
  timeline : list Keyed
}.
End Locals.

(** [generate_case_timeline] up to the end of its loop over [tasks]
    (lines 211-253).  [optional_modules] is computed and not used. *)
Definition project_timeline (self : Generator) (case_params : Params.t)
  : result Locals.t :=
  (project_start_date <-
     param_date "project_start_date" (Params.project_start_date case_params) ;;
   sponsor_agreement_date <-
     param_date "sponsor_agreement_date"
       (Params.sponsor_agreement_date case_params) ;;
   equity_base_date <-
     param_date "equity_reform_base_date"
       (Params.equity_reform_base_date case_params) ;;
   equity_completion_date <-
     param_date "equity_reform_completion_date"
       (Params.equity_reform_completion_date case_params) ;;
   a1_date <-
     param_date "a1_submission_date" (Params.a1_submission_date case_params) ;;
   let company_structure :=
     Params.get (Params.current_structure case_params)
       "境内有限责任公司 (需股改)" in
   let project_pace :=
     Params.get (Params.project_pace case_params) "标准节奏 (Standard)" in
   let listing_board := Params.get (Params.listing_board_hk case_params) "主板" in
   let optional_modules := Params.get (Params.optional_modules case_params) [] in
   let optional_modules :=
     if existsb (String.eqb "无") optional_modules then [] else optional_modules in
   let ipo_readiness := Params.get (Params.ipo_readiness case_params) [] in
   let a1_financials :=
     Params.get (Params.a1_filing_financials case_params) "最近三个完整财年" in
   structure_rules <-
     getitem (Rules.company_structure (variation_rules self)) company_structure ;;
   pace_rules <-
     getitem (Rules.project_pace (variation_rules self)) project_pace ;;
   financial_rules <-
     getitem (Rules.a1_filing_financials (variation_rules self)) a1_financials ;;
   let readiness_level := _determine_ipo_readiness_level ipo_readiness in
   readiness_rules <-
     getitem (Rules.ipo_readiness (variation_rules self)) readiness_level ;;
   let time_factor :=
     (Rules.time_compression pace_rules
      * Rules.preparation_factor readiness_rules)%float in
   let complexity_factor :=
     (Rules.complexity_modifier structure_rules
      * Rules.audit_complexity financial_rules)%float in
   tasks <- collect_tasks self structure_rules ;;
   timeline <-
     for_each
       (timeline_entry project_start_date sponsor_agreement_date
          equity_base_date equity_completion_date a1_date time_factor)
       tasks ;;
   Ok (Locals.mk project_start_date sponsor_agreement_date equity_base_date
         equity_completion_date a1_date company_structure project_pace
         listing_board optional_modules ipo_readiness a1_financials
         structure_rules pace_rules financial_rules readiness_level
         readiness_rules time_factor complexity_factor tasks timeline))%result.

(** ["案例特征"] as computed from the locals and the sorted timeline. *)
Definition characteristics (l : Locals.t) (timeline : list Entry.t)
  : Characteristics :=
  mkCharacteristics (Z.of_nat (List.length timeline))
    (Locals.company_structure l) (Locals.project_pace l)
    (Locals.listing_board l) (Locals.a1_financials l)
    (Locals.readiness_level l) (Locals.complexity_factor l)
    (Locals.time_factor l).

(** Lines 209-274: the projection, then the sort, the removal of the sort
    keys, the review and the report. *)
Definition generate_case_timeline (self : Generator) (case_params : Params.t)
  : M (list Entry.t * Report * Json) :=
  (l <~ lift (project_timeline self case_params) ;;
   let timeline := PyList.sort Datetime.lt sort_date (Locals.timeline l) in
   let timeline := map entry timeline in
   review <~ _call_llm_for_review self timeline case_params ;;
   let report :=
     mkReport (Params.case_name case_params) case_params
       (characteristics l timeline) review in
   ret (timeline, report, review))%M.

(* ================================================================== *)
(** ** Predefined cases *)

(** The parameters of ["Case1"]. *)
Definition case1 : Params.t :=
  Params.mk
    (Some "Case1 - 标准股改项目")
    (Some "2025年8月4日当周")
    (Some "2025年8月18日当周")
    (Some "2025年8月18日当周")
    (Some "2025年10月13日当周")
    (Some "2026年1月12日当周")
    (Some "2023-2025年")
    (Some "境内有限责任公司 (需股改)")
    (Some "标准节奏 (Standard)")
    (Some "主板")
    (Some "最近三个完整财年")
    (Some ["初步的财务梳理/预审"])
    (Some []).

Definition predefined_cases : dict Params.t := [("Case1", case1)].

(** The loop [for k, cfg in cases.items(): result[k] = ...] (lines
    317-320), for any mapping [cases]. *)
Fixpoint generate_cases (self : Generator) (cases : dict Params.t)
  (result : dict (list Entry.t * Report * Json))
  : M (dict (list Entry.t * Report * Json)) :=
  match cases with
  | [] => ret result
  | (k, cfg) :: cases' =>
      (r <~ generate_case_timeline self cfg ;;
       generate_cases self cases' (setitem result k r))%M
  end.

(** Lines 299-320. *)
Definition generate_predefined_cases (self : Generator)
  : M (dict (list Entry.t * Report * Json)) :=
  generate_cases self predefined_cases [].

(* ================================================================== *)
(** ** The parameter schema, the client and the entry point *)

(** A field of the schema: the keys ["format"], ["options"] and
    ["default"] are not always there. *)
Module Schema.
Inductive value : Type :=
| VStr (s : string)
| VList (l : list string).
Record field : Type := mk {
  question : string;
  type : string;
  format : option string;
  options : option (list string);
  default : option value
}.
Definition date_field (question default : string) : field :=
  mk question "date" (Some "YYYY年M月D日当周") None (Some (VStr default)).
End Schema.

(** Lines 37-142: ["required_params"], its four groups and their fields. *)
Definition _load_parameter_schema : dict (dict (dict Schema.field)) :=
  [ ("required_params",
     [ ("project_profile",
        [ ("project_start_date",
           Schema.date_field "项目启动日期" "2025年8月4日当周");
          ("sponsor_agreement_date",
           Schema.date_field "递交保荐人协议时间" "2025年8月18日当周");
          ("equity_reform_base_date",
           Schema.date_field "股改基准日" "2025年8月18日当周");
          ("equity_reform_completion_date",
           Schema.date_field "股改完成时间" "2025年10月13日当周");
          ("a1_submission_date",
           Schema.date_field "递交A1时间" "2026年1月12日当周");
          ("performance_period",
           Schema.mk "业绩期时间范围" "string" None None
             (Some (Schema.VStr "2023-2025年")));
          ("project_pace",
           Schema.mk "项目节奏" "radio" None
             (Some ["急速推进 (Aggressive)"; "标准节奏 (Standard)";
                    "稳健保守 (Cautious)"])
             (Some (Schema.VStr "标准节奏 (Standard)")));
          ("listing_board_hk",
           Schema.mk "上市板块" "radio" None (Some ["主板"; "GEM"])
             (Some (Schema.VStr "主板"))) ]);
       ("corporate_profile",
        [ ("current_structure",
           Schema.mk "公司当前的法律架构" "select" None
             (Some ["境内有限责任公司 (需股改)"; "已是境内股份有限公司";
                    "红筹/VIE架构 (已搭建)"; "红筹/VIE架构 (需搭建)"])
             (Some (Schema.VStr "境内有限责任公司 (需股改)")));
          ("ipo_readiness",
           Schema.mk "IPO准备程度" "multiselect" None
             (Some ["核心中介机构已选聘"; "初步的财务梳理/预审";
                    "公司治理结构初步规范"; "募投项目已有初步规划";
                    "几乎未开始"])
             None) ]);
       ("financial_profile",
        [ ("a1_filing_financials",
           Schema.mk "A1包含财务报表期数" "select" None
             (Some ["最近两个完整财年 + 最近一期中期"; "最近三个完整财年";
                    "最近三个完整财年 + 最近一期中期"])
             (Some (Schema.VStr "最近三个完整财年"))) ]);
       ("operational_flags",
        [ ("optional_modules",
           Schema.mk "专项工作" "multiselect" None
             (Some ["物业/资产评估"; "与联交所的上市前沟通";
                    "数据安全与网络安全专项尽调"; "员工期权(ESOP)梳理";
                    "IT系统核查"; "无"])
             (Some (Schema.VList []))) ]) ]) ].

(** Lines 31-35.  [openai] is the client the [openai] package would build,
    [None] when the package could not be imported; [environ] is
    [os.environ]. *)
Definition _init_llm_client (openai : option LLMClient) (environ : dict string)
  : option LLMClient :=
  match openai with
  | Some client =>
      match lookup environ "OPENAI_API_KEY" with
      | Some _ => Some client
      | None => None
      end
  | None => None
  end.

(** Lines 22-26; the schema is stored and never read. *)
Definition __init__ (openai : option LLMClient) (environ : dict string)
  : Generator :=
  init (_init_llm_client openai environ).

(** Lines 323-332: [main] builds the generator, runs the predefined cases,
    prints the head of each timeline and returns the generator. *)
Definition main (openai : option LLMClient) (environ : dict string)
  : M Generator :=
  let gen := __init__ openai environ in
  (cases <~ generate_predefined_cases gen ;;
   ret gen)%M.

(* ================================================================== *)
(** ** Vocabulary of the properties *)

(** The four task-name prefixes that bind a task to an anchor date, alone
    and with the anchor date each one selects. *)
Definition milestone_prefixes : list string :=
  ["定稿保荐人"; "作出确定股改基准日"; "完成股改工作"; "向联交所递交A1申请"].

Definition milestones (l : Locals.t) : list (string * datetime) :=
  [ ("定稿保荐人", Locals.sponsor_agreement_date l);
    ("作出确定股改基准日", Locals.equity_base_date l);
    ("完成股改工作", Locals.equity_completion_date l);
    ("向联交所递交A1申请", Locals.a1_date l) ].

Definition is_milestone (task : string) : bool :=
  existsb (PyStr.startswith task) milestone_prefixes.


(** The categorical values of [p], defaults filled in, are keys of the
    rule tables of [self]. *)
Definition legal_params (self : Generator) (p : Params.t) : Prop :=
  In (Params.get (Params.current_structure p) "境内有限责任公司 (需股改)")
     (keys (Rules.company_structure (variation_rules self))) /\
  In (Params.get (Params.project_pace p) "标准节奏 (Standard)")
     (keys (Rules.project_pace (variation_rules self))) /\
  In (Params.get (Params.a1_filing_financials p) "最近三个完整财年")
     (keys (Rules.a1_filing_financials (variation_rules self))).

(** [self] with another client, [p] with another ["optional_modules"], and
    the locals with another [optional_modules]. *)
Definition with_client (self : Generator) (client : option LLMClient)
  : Generator :=
  mkGenerator (base_templates self) (variation_rules self) client.

Definition with_optional_modules (p : Params.t) (mods : option (list string))
  : Params.t :=
  Params.mk (Params.case_name p) (Params.project_start_date p)
    (Params.sponsor_agreement_date p) (Params.equity_reform_base_date p)
    (Params.equity_reform_completion_date p) (Params.a1_submission_date p)
    (Params.performance_period p) (Params.current_structure p)
    (Params.project_pace p) (Params.listing_board_hk p)
    (Params.a1_filing_financials p) (Params.ipo_readiness p) mods.

Definition set_optional_modules (l : Locals.t) (mods : list string)
  : Locals.t :=
  Locals.mk (Locals.project_start_date l) (Locals.sponsor_agreement_date l)
    (Locals.equity_base_date l) (Locals.equity_completion_date l)
    (Locals.a1_date l) (Locals.company_structure l) (Locals.project_pace l)
    (Locals.listing_board l) mods (Locals.ipo_readiness l)
    (Locals.a1_financials l) (Locals.structure_rules l) (Locals.pace_rules l)
    (Locals.financial_rules l) (Locals.readiness_level l)
    (Locals.readiness_rules l) (Locals.time_factor l)
    (Locals.complexity_factor l) (Locals.tasks l) (Locals.timeline l).

(** The two review dictionaries the source writes out. *)
Definition review_disabled : Json :=
  JObj [("review_passed", JBool true); ("summary", JStr "LLM未启用")].

Definition review_failed (e : string) : Json :=
  JObj [("review_passed", JBool true); ("summary", JStr ("LLM调用失败: " ++ e))].

(** What [project_timeline] establishes about the locals [l] it returns. *)
Record Projected (self : Generator) (p : Params.t) (l : Locals.t) : Prop := {
  proj_start :
    param_date "project_start_date" (Params.project_start_date p)
    = Ok (Locals.project_start_date l);
  proj_sponsor :
    param_date "sponsor_agreement_date" (Params.sponsor_agreement_date p)
    = Ok (Locals.sponsor_agreement_date l);
  proj_base :
    param_date "equity_reform_base_date" (Params.equity_reform_base_date p)
    = Ok (Locals.equity_base_date l);
  proj_completion :
    param_date "equity_reform_completion_date"
      (Params.equity_reform_completion_date p)
    = Ok (Locals.equity_completion_date l);
  proj_a1 :
    param_date "a1_submission_date" (Params.a1_submission_date p)
    = Ok (Locals.a1_date l);
  proj_company_structure :
    Locals.company_structure l
    = Params.get (Params.current_structure p) "境内有限责任公司 (需股改)";
  proj_project_pace :
    Locals.project_pace l
    = Params.get (Params.project_pace p) "标准节奏 (Standard)";
  proj_listing_board :
    Locals.listing_board l = Params.get (Params.listing_board_hk p) "主板";
  proj_ipo_readiness :
    Locals.ipo_readiness l = Params.get (Params.ipo_readiness p) [];
  proj_a1_financials :
    Locals.a1_financials l
    = Params.get (Params.a1_filing_financials p) "最近三个完整财年";
  proj_structure_rules :
    getitem (Rules.company_structure (variation_rules self))
      (Locals.company_structure l)
    = Ok (Locals.structure_rules l);
  proj_pace_rules :
    getitem (Rules.project_pace (variation_rules self)) (Locals.project_pace l)
    = Ok (Locals.pace_rules l);
  proj_financial_rules :
    getitem (Rules.a1_filing_financials (variation_rules self))
      (Locals.a1_financials l)
    = Ok (Locals.financial_rules l);
  proj_readiness_level :
    Locals.readiness_level l
    = _determine_ipo_readiness_level (Locals.ipo_readiness l);
  proj_readiness_rules :
    getitem (Rules.ipo_readiness (variation_rules self))
      (Locals.readiness_level l)
    = Ok (Locals.readiness_rules l);
  proj_time_factor :
    Locals.time_factor l
    = (Rules.time_compression (Locals.pace_rules l)
       * Rules.preparation_factor (Locals.readiness_rules l))%float;
  proj_complexity_factor :
    Locals.complexity_factor l
    = (Rules.complexity_modifier (Locals.structure_rules l)
       * Rules.audit_complexity (Locals.financial_rules l))%float;
  proj_tasks :
    collect_tasks self (Locals.structure_rules l) = Ok (Locals.tasks l);
  proj_timeline :
    for_each
      (timeline_entry (Locals.project_start_date l)
         (Locals.sponsor_agreement_date l) (Locals.equity_base_date l)
         (Locals.equity_completion_date l) (Locals.a1_date l)
         (Locals.time_factor l))
      (Locals.tasks l)
    = Ok (Locals.timeline l)
}.

(** The working task list of the source's catalog, and the dated entries
    its tasks give: the kick-off at the start date, every other task at its
    anchor date. *)
Definition needs_equity_reform (p : Params.t) : bool :=
  String.eqb
    (Params.get (Params.current_structure p) "境内有限责任公司 (需股改)")
    "境内有限责任公司 (需股改)".

Definition shipped_tasks (equity : bool) : list Task.t :=
  ([ Task.mk "项目管理" "召开项目启动会" "全体" 0;
     Task.mk "境内外监管审批" "定稿保荐人及整体协调人委任函并呈交联交所" "保荐人" 2;
     Task.mk "境内外监管审批" "向联交所递交A1申请" "各方" 23 ]
   ++ (if equity
       then [ Task.mk "股改" "作出确定股改基准日、股权激励等决议"
                "公司、公司境内律师" 2;
              Task.mk "股改" "完成股改工作（召开创立大会）" "公司、公司境内律师" 10 ]
       else []))%list.

Definition dated (date : datetime) (workstream task lead : string) : Keyed :=
  mkKeyed (Entry.mk (_format_date date) workstream task lead) date.

Definition shipped_entries
  (start sponsor base completion a1 : datetime) (equity : bool) : list Keyed :=
  ([ dated start "项目管理" "召开项目启动会" "全体";
     dated sponsor "境内外监管审批" "定稿保荐人及整体协调人委任函并呈交联交所"
       "保荐人";
     dated a1 "境内外监管审批" "向联交所递交A1申请" "各方" ]
   ++ (if equity
       then [ dated base "股改" "作出确定股改基准日、股权激励等决议"
                "公司、公司境内律师";
              dated completion "股改" "完成股改工作（召开创立大会）"
                "公司、公司境内律师" ]
       else []))%list.

(** The five date parameters of [p], in the order they are read. *)
Definition date_params (p : Params.t) : list (result datetime) :=
  [ param_date "project_start_date" (Params.project_start_date p);
    param_date "sponsor_agreement_date" (Params.sponsor_agreement_date p);
    param_date "equity_reform_base_date" (Params.equity_reform_base_date p);
    param_date "equity_reform_completion_date"
      (Params.equity_reform_completion_date p);
    param_date "a1_submission_date" (Params.a1_submission_date p) ].

(** [p] and [p'] give the same dates and, defaults filled in, the same
    structure, pace, disclosure scope and readiness indicators. *)
Definition same_inputs (p p' : Params.t) : Prop :=
  Params.project_start_date p = Params.project_start_date p' /\
  Params.sponsor_agreement_date p = Params.sponsor_agreement_date p' /\
  Params.equity_reform_base_date p = Params.equity_reform_base_date p' /\
  Params.equity_reform_completion_date p
  = Params.equity_reform_completion_date p' /\
  Params.a1_submission_date p = Params.a1_submission_date p' /\
  Params.get (Params.current_structure p) "境内有限责任公司 (需股改)"
  = Params.get (Params.current_structure p') "境内有限责任公司 (需股改)" /\
  Params.get (Params.project_pace p) "标准节奏 (Standard)"
  = Params.get (Params.project_pace p') "标准节奏 (Standard)" /\
  Params.get (Params.a1_filing_financials p) "最近三个完整财年"
  = Params.get (Params.a1_filing_financials p') "最近三个完整财年" /\
  Params.get (Params.ipo_readiness p) []
  = Params.get (Params.ipo_readiness p') [].

(** The options the schema lists for a field of a group. *)
Definition schema_options (group name : string) : list string :=
  match
    lookup (get (get _load_parameter_schema "required_params" []) group [])
      name
  with
  | Some f =>
      match Schema.options f with
      | Some l => l
      | None => []
      end
  | None => []
  end.

(** A categorical field of [p] is absent or one of the schema's options. *)
Definition schema_option (group name : string) (field : option string) : Prop :=
  match field with
  | Some v => In v (schema_options group name)
  | None => True
  end.

Definition schema_legal (p : Params.t) : Prop :=
  schema_option "corporate_profile" "current_structure"
    (Params.current_structure p) /\
  schema_option "project_profile" "project_pace" (Params.project_pace p) /\
  schema_option "project_profile" "listing_board_hk"
    (Params.listing_board_hk p) /\
  schema_option "financial_profile" "a1_filing_financials"
    (Params.a1_filing_financials p).

(** The candidate date of the loop body (lines 237-238): the project start
    date moved by the scaled week offset, before any override. *)
Definition candidate_date (project_start_date : datetime)
  (time_factor : float) (t : Task.t) : result datetime :=
  (scaled <- PyFloat.int_mul (Task.周偏移 t) time_factor ;;
   weeks <- PyFloat.to_int scaled ;;
   Datetime.add_weeks project_start_date (Z.max 0 weeks))%result.

(** The text of a formatted date without its week qualifier. *)
Definition format_without_qualifier (date : datetime) : string :=
  PyStr.str (year date) ++ "年" ++ PyStr.str (month date) ++ "月"
  ++ PyStr.str (day date) ++ "日".

(* ------------------------------------------------------------------ *)
(** *** Checks decided by computation *)

(** The month and day [_ord2ymd] computes from [n], the days elapsed in a
    year, and what they must satisfy. *)
Definition month_day_of (leapyear : bool) (n : Z) : Z * Z :=
  let m := Z.shiftr (n + 50) 5 in
  let preceding :=
    Datetime._DAYS_BEFORE_MONTH m + (if (2 <? m) && leapyear then 1 else 0) in
  if n <? preceding then
    let m := m - 1 in
    let preceding :=
      preceding
      - (Datetime._DAYS_IN_MONTH m + (if (m =? 2) && leapyear then 1 else 0)) in
    (m, n - preceding + 1)
  else (m, n - preceding + 1).

Definition month_day_ok (leapyear : bool) (n : Z) : bool :=
  let '(m, d) := month_day_of leapyear n in
  (1 <=? m) && (m <=? 12) && (1 <=? d) &&
  (d <=? (if (m =? 2) && leapyear then 29 else Datetime._DAYS_IN_MONTH m)) &&
  (Datetime._DAYS_BEFORE_MONTH m + (if (2 <? m) && leapyear then 1 else 0) + d
   =? n + 1).

(** [PyStr.str] of a four-digit year is four digits with that value. *)
Definition year_str_ok (y : Z) : bool :=
  match PyStr.str y with
  | String c1 (String c2 (String c3 (String c4 EmptyString))) =>
      PyStr.is_digit c1 && PyStr.is_digit c2 && PyStr.is_digit c3
      && PyStr.is_digit c4
      && (1000 * PyStr.digit_val c1 + 100 * PyStr.digit_val c2
          + 10 * PyStr.digit_val c3 + PyStr.digit_val c4 =? y)
  | _ => false
  end.

(** What follows the year in a formatted date, what [_parse_date] makes of
    it before calling [strptime], and the check that it reads back as the
    month and the day. *)
Definition format_tail (m d : Z) : string :=
  "年" ++ PyStr.str m ++ "月" ++ PyStr.str d ++ "日当周".

Definition strip_tail (tail : string) : string :=
  PyStr.replace "日" ""
    (PyStr.replace "月" "-"
       (PyStr.replace "年" "-" (PyStr.replace "当周" "" tail))).

Definition tail_roundtrip_ok (m d : Z) : bool :=
  PyStr.contains "当周" (format_tail m d) &&
  match strip_tail (format_tail m d) with
  | String sep r =>
      Ascii.eqb sep "-" &&
      match Datetime.parse_m r with
      | Some (m', String sep2 r2) =>
          (m' =? m) && Ascii.eqb sep2 "-" &&
          match Datetime.parse_d r2 with
          | Some (d', EmptyString) => d' =? d
          | _ => false
          end
      | _ => false
      end
  | EmptyString => false
  end.

(** The week offset of the loop body exists and is between 0 and 31. *)
Definition weeks_ok (time_factor : float) (offset : Z) : bool :=
  match PyFloat.int_mul offset time_factor with
  | Ok scaled =>
      match PyFloat.to_int scaled with
      | Ok weeks => (0 <=? weeks) && (weeks <=? 31)
      | Raise _ => false
      end
  | Raise _ => false
  end.

(** The scaled offset of the first-filing task (23 weeks) is at least 17
    weeks. *)
Definition filing_weeks_ok (time_factor : float) : bool :=
  match PyFloat.int_mul 23 time_factor with
  | Ok scaled =>
      match PyFloat.to_int scaled with
      | Ok weeks => 17 <=? weeks
      | Raise _ => false
      end
  | Raise _ => false
  end.

(** The kick-off task (offset 0) is scaled to zero weeks. *)
Definition kickoff_weeks_ok (time_factor : float) : bool :=
  match PyFloat.int_mul 0 time_factor with
  | Ok scaled =>
      match PyFloat.to_int scaled with
      | Ok weeks => weeks =? 0
      | Raise _ => false
      end
  | Raise _ => false
  end.

(** A byte other than E5, the first byte of ["当周"]: the characters
    [strptime] can accept (decimal digits of any script, the hyphen and the
    space) are encoded without it.  E5 leads the code points U+5000 to
    U+5FFF, and no decimal digit lies there. *)
Definition date_char (c : ascii) : bool := negb (PyStr.byte c =? 229).

Definition no_decimal_in_E5_block : bool :=
  forallb (fun zero => (zero + 9 <? 20480) || (24575 <? zero))
    PyStr.decimal_zeros.

Fixpoint date_chars (s : string) : bool :=
  match s with
  | EmptyString => true
  | String c s' => date_char c && date_chars s'
  end.

(** What follows the year in a formatted date without the qualifier holds
    no qualifier. *)
Definition bare_tail_ok (m d : Z) : bool :=
  negb (PyStr.contains "当周"
          ("年" ++ PyStr.str m ++ "月" ++ PyStr.str d ++ "日")).

(* ------------------------------------------------------------------ *)
(** *** Concrete cases *)

(** What [generate_case_timeline] returns for [case1] without a client. *)
Definition case1_timeline : list Entry.t :=
  [ Entry.mk "2025年8月4日当周" "项目管理" "召开项目启动会" "全体";
    Entry.mk "2025年8月18日当周" "境内外监管审批"
      "定稿保荐人及整体协调人委任函并呈交联交所" "保荐人";
    Entry.mk "2025年8月18日当周" "股改" "作出确定股改基准日、股权激励等决议"
      "公司、公司境内律师";
    Entry.mk "2025年10月13日当周" "股改" "完成股改工作（召开创立大会）"
      "公司、公司境内律师";
    Entry.mk "2026年1月12日当周" "境内外监管审批" "向联交所递交A1申请" "各方" ].

Definition case1_report : Report :=
  mkReport (Some "Case1 - 标准股改项目") case1
    (mkCharacteristics 5 "境内有限责任公司 (需股改)" "标准节奏 (Standard)" "主板"
       "最近三个完整财年" "中等准备度" (1.1 * 1.0)%float (1.0 * 1.0)%float)
    review_disabled.

Definition case1_result : list Entry.t * Report * Json :=
  (case1_timeline, case1_report, review_disabled).

(** A client whose request fails. *)
Definition failing_client : LLMClient :=
  {| review_request := fun _ => Failed "Connection error." |}.

(** [case1] with a project start date in a format [_parse_date] does not
    read. *)
Definition bad_date_case : Params.t :=
  Params.mk (Some "Case2") (Some "2025/08/04")
    (Params.sponsor_agreement_date case1)
    (Params.equity_reform_base_date case1)
    (Params.equity_reform_completion_date case1)
    (Params.a1_submission_date case1) (Params.performance_period case1)
    (Params.current_structure case1) (Params.project_pace case1)
    (Params.listing_board_hk case1) (Params.a1_filing_financials case1)
    (Params.ipo_readiness case1) (Params.optional_modules case1).

(** [case1] with a corporate structure that is no key of the rules. *)
Definition unknown_structure_case : Params.t :=
  Params.mk (Params.case_name case1) (Params.project_start_date case1)
    (Params.sponsor_agreement_date case1)
    (Params.equity_reform_base_date case1)
    (Params.equity_reform_completion_date case1)
    (Params.a1_submission_date case1) (Params.performance_period case1)
    (Some "合伙企业") (Params.project_pace case1)
    (Params.listing_board_hk case1) (Params.a1_filing_financials case1)
    (Params.ipo_readiness case1) (Params.optional_modules case1).

(** [case1] started in the last weeks of the year 9999. *)
Definition late_start_case : Params.t :=
  Params.mk (Some "Case4") (Some "9999年12月1日当周")
    (Params.sponsor_agreement_date case1)
    (Params.equity_reform_base_date case1)
    (Params.equity_reform_completion_date case1)
    (Params.a1_submission_date case1) (Params.performance_period case1)
    (Params.current_structure case1) (Params.project_pace case1)
    (Params.listing_board_hk case1) (Params.a1_filing_financials case1)
    (Params.ipo_readiness case1) (Params.optional_modules case1).

(** A generator whose first structure rule names a task group that
    [base_templates] does not have. *)
Definition generator_with_unknown_group : Generator :=
  mkGenerator _load_base_templates
    (Rules.mk
       [ ("境内有限责任公司 (需股改)",
          {| Rules.add_modules := ["restructuring_tasks"];
             Rules.complexity_modifier := 1.1 |}) ]
       (Rules.project_pace _load_variation_rules)
       (Rules.listing_board_hk _load_variation_rules)
       (Rules.a1_filing_financials _load_variation_rules)
       (Rules.ipo_readiness _load_variation_rules))
    None.

(** The generator of the source whose first structure rule names a group
    that [base_templates] lacks before one that it has. *)
Definition generator_with_mixed_groups : Generator :=
  mkGenerator _load_base_templates
    (Rules.mk
       [ ("境内有限责任公司 (需股改)",
          {| Rules.add_modules := ["restructuring_tasks"; "equity_reform_tasks"];
             Rules.complexity_modifier := 1.1 |}) ]
       (Rules.project_pace _load_variation_rules)
       (Rules.listing_board_hk _load_variation_rules)
       (Rules.a1_filing_financials _load_variation_rules)
       (Rules.ipo_readiness _load_variation_rules))
    None.

(** The generator of the source after
    [del gen.variation_rules["project_pace"]["标准节奏 (Standard)"]]. *)
Definition generator_without_standard_pace : Generator :=
  mkGenerator _load_base_templates
    (Rules.mk
       (Rules.company_structure _load_variation_rules)
       [ ("急速推进 (Aggressive)",
          {| Rules.time_compression := 0.85; Rules.risk_level := "高" |});
         ("稳健保守 (Cautious)",
          {| Rules.time_compression := 1.15; Rules.risk_level := "低" |}) ]
       (Rules.listing_board_hk _load_variation_rules)
       (Rules.a1_filing_financials _load_variation_rules)
       (Rules.ipo_readiness _load_variation_rules))
    None.

(** [case1] with anchor dates away from what the week offsets give, one of
    them before the project start, at the fastest pace and the highest
    readiness: the time factor is 0.85 x 0.9. *)
Definition off_schedule_case : Params.t :=
  Params.mk (Some "Case5") (Some "2025年8月4日当周") (Some "2025年9月1日当周")
    (Some "2025年7月7日当周") (Some "2025年12月22日当周")
    (Some "2026年6月29日当周") (Params.performance_period case1)
    (Params.current_structure case1) (Some "急速推进 (Aggressive)")
    (Params.listing_board_hk case1) (Params.a1_filing_financials case1)
    (Some ["核心中介机构已选聘"; "初步的财务梳理/预审"; "公司治理结构初步规范"])
    (Params.optional_modules case1).

Definition off_schedule_timeline : list Entry.t :=
  [ Entry.mk "2025年7月7日当周" "股改" "作出确定股改基准日、股权激励等决议"
      "公司、公司境内律师";
    Entry.mk "2025年8月4日当周" "项目管理" "召开项目启动会" "全体";
    Entry.mk "2025年9月1日当周" "境内外监管审批"
      "定稿保荐人及整体协调人委任函并呈交联交所" "保荐人";
    Entry.mk "2025年12月22日当周" "股改" "完成股改工作（召开创立大会）"
      "公司、公司境内律师";
    Entry.mk "2026年6月29日当周" "境内外监管审批" "向联交所递交A1申请" "各方" ].

(** A case started 17 weeks before the last day of the year 9999, at the
    standard pace and medium readiness (time factor 1.0 x 1.0), and the same
    case at the fastest pace and the highest readiness (0.85 x 0.9). *)
Definition last_weeks_case : Params.t :=
  Params.mk (Some "Case6") (Some "9999年9月3日当周") (Some "9999年9月17日当周")
    (Some "9999年9月17日当周") (Some "9999年11月12日当周")
    (Some "9999年12月29日当周") (Params.performance_period case1)
    (Params.current_structure case1) (Some "标准节奏 (Standard)")
    (Params.listing_board_hk case1) (Params.a1_filing_financials case1)
    (Some ["初步的财务梳理/预审"]) (Params.optional_modules case1).

Definition last_weeks_fast_case : Params.t :=
  Params.mk (Some "Case6") (Some "9999年9月3日当周") (Some "9999年9月17日当周")
    (Some "9999年9月17日当周") (Some "9999年11月12日当周")
    (Some "9999年12月29日当周") (Params.performance_period case1)
    (Params.current_structure case1) (Some "急速推进 (Aggressive)")
    (Params.listing_board_hk case1) (Params.a1_filing_financials case1)
    (Some ["核心中介机构已选聘"; "初步的财务梳理/预审"; "公司治理结构初步规范"])
    (Params.optional_modules case1).

Definition last_weeks_timeline : list Entry.t :=
  [ Entry.mk "9999年9月3日当周" "项目管理" "召开项目启动会" "全体";
    Entry.mk "9999年9月17日当周" "境内外监管审批"
      "定稿保荐人及整体协调人委任函并呈交联交所" "保荐人";
    Entry.mk "9999年9月17日当周" "股改" "作出确定股改基准日、股权激励等决议"
      "公司、公司境内律师";
    Entry.mk "9999年11月12日当周" "股改" "完成股改工作（召开创立大会）"
      "公司、公司境内律师";
    Entry.mk "9999年12月29日当周" "境内外监管审批" "向联交所递交A1申请" "各方" ].



Definition slow_case : Params.t :=
  Params.mk (Some "Case3") (Params.project_start_date case1)
    (Params.sponsor_agreement_date case1)
    (Params.equity_reform_base_date case1)
    (Params.equity_reform_completion_date case1)
    (Params.a1_submission_date case1) (Params.performance_period case1)
    (Params.current_structure case1) (Some "稳健保守 (Cautious)")
    (Params.listing_board_hk case1) (Params.a1_filing_financials case1)
    (Some ["几乎未开始"]) (Params.optional_modules case1).

(* ================================================================== *)
(** * Properties *)

(** ** Tactics for the exception monad *)

Ltac inv_ok :=
  repeat match goal with
    | H : Ok _ = Ok _ |- _ => injection H as H; try subst
    | H : Raise _ = Ok _ |- _ => discriminate H
    | H : Ok _ = Raise _ |- _ => discriminate H
    | H : (_, _) = (_, _) |- _ => injection H as ? ?; try subst
    end.

(** Splits the first [bind] of a hypothesis [m >>= k = Ok v]. *)
Ltac bind_inv H :=
  unfold rbind in H at 1;
  let E := fresh "E" in
  match type of H with
  | match ?m with _ => _ end = _ => destruct m eqn:E; [ | discriminate H ]
  end.

Lemma rbind_ok {A B : Type} (m : result A) (k : A -> result B) (b : B) :
  rbind m k = Ok b -> exists a, m = Ok a /\ k a = Ok b.
Proof. destruct m as [a | e]; simpl; [ eauto | discriminate ]. Qed.

Lemma for_each_ok {A B : Type} (body : A -> result B) (l : list A)
  (out : list B) :
  for_each body l = Ok out -> Forall2 (fun x y => body x = Ok y) l out.
Proof.
  revert out; induction l as [| x l IH]; intros out H; simpl in H.
  - inv_ok. constructor.
  - apply rbind_ok in H as (y & Hy & H).
    apply rbind_ok in H as (ys & Hys & H). inv_ok.
    constructor; auto.
Qed.

Lemma for_each_complete {A B : Type} (body : A -> result B) (l : list A)
  (out : list B) :
  Forall2 (fun x y => body x = Ok y) l out -> for_each body l = Ok out.
Proof.
  induction 1 as [| x y l out Hxy _ IH]; simpl; [ reflexivity | ].
  rewrite Hxy; simpl. rewrite IH; reflexivity.
Qed.

(* ------------------------------------------------------------------ *)
(** ** Readiness classification *)

Section Readiness.

Let sentinel : string := "几乎未开始".

Lemma existsb_eqb_In (s : string) (l : list string) :
  existsb (String.eqb s) l = true <-> In s l.
Proof.
  rewrite existsb_exists; split.
  - intros (x & Hx & E). apply String.eqb_eq in E; subst; assumption.
  - intros H; exists s; split; [ assumption | apply String.eqb_refl ].
Qed.

Lemma existsb_eqb_not_In (s : string) (l : list string) :
  existsb (String.eqb s) l = false <-> ~ In s l.
Proof.
  rewrite <- existsb_eqb_In. destruct (existsb _ l); split; congruence.
Qed.

(** C4. The readiness classifier is a total function of the indicator
    list with three possible answers: the sentinel ["几乎未开始"] gives the
    low level whatever else is listed; without it, three or more
    indicators give the high level and fewer (none included) the medium
    level. *)
Theorem readiness_level_classification (readiness_list : list string) :
  let others :=
    filter (fun r => negb (String.eqb r sentinel)) readiness_list in
  (In sentinel readiness_list ->
   _determine_ipo_readiness_level readiness_list = "低准备度") /\
  (~ In sentinel readiness_list -> (3 <= List.length others)%nat ->
   _determine_ipo_readiness_level readiness_list = "高准备度") /\
  (~ In sentinel readiness_list -> (List.length others < 3)%nat ->
   _determine_ipo_readiness_level readiness_list = "中等准备度") /\
  _determine_ipo_readiness_level [] = "中等准备度" /\
  _determine_ipo_readiness_level [sentinel] = "低准备度".
Proof.
  intros others. unfold _determine_ipo_readiness_level.
  fold sentinel. fold others.
  repeat split; try reflexivity.
  - intros H. apply existsb_eqb_In in H. rewrite H. reflexivity.
  - intros H Hn. apply existsb_eqb_not_In in H. rewrite H.
    destruct (Z.leb_spec 3 (Z.of_nat (List.length others))); [ reflexivity | lia ].
  - intros H Hn. apply existsb_eqb_not_In in H. rewrite H.
    destruct (Z.leb_spec 3 (Z.of_nat (List.length others))); [ lia | reflexivity ].
Qed.

End Readiness.

(* ------------------------------------------------------------------ *)
(** ** [list.sort(key=...)] sorts, permutes and is stable *)

Section SortFacts.
Context {A K : Type} (lt : K -> K -> bool) (key : A -> K).

Let le (a b : K) : bool := negb (lt b a).
Let le_key (x y : A) : Prop := le (key x) (key y) = true.

Hypothesis lt_asym : forall a b, lt a b = true -> lt b a = false.
Hypothesis le_trans :
  forall a b c, le a b = true -> le b c = true -> le a c = true.

Lemma insert_perm (x : A) (l : list A) :
  Permutation (PyList.insert lt key x l) (x :: l).
Proof.
  induction l as [| y l IH]; simpl; [ reflexivity | ].
  destruct (lt (key y) (key x)); [ | reflexivity ].
  rewrite IH. apply perm_swap.
Qed.

Lemma sort_perm (l : list A) : Permutation (PyList.sort lt key l) l.
Proof.
  induction l as [| x l IH]; simpl; [ reflexivity | ].
  rewrite insert_perm. constructor. exact IH.
Qed.

Lemma insert_sorted (x : A) (l : list A) :
  StronglySorted le_key l -> StronglySorted le_key (PyList.insert lt key x l).
Proof.
  induction 1 as [| y l Hs IH Hy]; simpl.
  - repeat constructor.
  - destruct (lt (key y) (key x)) eqn:E.
    + constructor; [ exact IH | ].
      rewrite (Permutation_Forall_iff (insert_perm x l) (le_key y))
        || (eapply Permutation_Forall;
            [ symmetry; apply insert_perm | ]).
      constructor; [ | exact Hy ].
      unfold le_key, le. rewrite (lt_asym _ _ E). reflexivity.
    + assert (Hxy : le_key x y) by (unfold le_key, le; rewrite E; reflexivity).
      constructor; [ constructor; assumption | ].
      constructor; [ exact Hxy | ].
      eapply Forall_impl; [ | exact Hy ].
      intros z Hz. unfold le_key in *. eapply le_trans; eassumption.
Qed.

Lemma sort_sorted (l : list A) : StronglySorted le_key (PyList.sort lt key l).
Proof.
  induction l as [| x l IH]; simpl; [ constructor | ].
  apply insert_sorted, IH.
Qed.

(** Stability: a class [P] of elements that no sort step reorders (an
    element moved in front of a member of [P] is never in [P]) keeps its
    order. *)
Lemma insert_filter (P : A -> bool) (x : A) (l : list A) :
  (forall y, lt (key y) (key x) = true -> P x = true -> P y = false) ->
  filter P (PyList.insert lt key x l) = filter P (x :: l).
Proof.
  intros HP. induction l as [| y l IH]; simpl; [ reflexivity | ].
  destruct (lt (key y) (key x)) eqn:E; [ | reflexivity ].
  simpl. rewrite IH. simpl.
  destruct (P x) eqn:Px; [ | reflexivity ].
  rewrite (HP y E eq_refl). reflexivity.
Qed.

Lemma sort_filter (P : A -> bool) (l : list A) :
  (forall x y, lt (key y) (key x) = true -> P x = true -> P y = false) ->
  filter P (PyList.sort lt key l) = filter P l.
Proof.
  intros HP. induction l as [| x l IH]; simpl; [ reflexivity | ].
  rewrite insert_filter by (intros y; apply HP). simpl.
  rewrite IH. reflexivity.
Qed.

End SortFacts.

(* ------------------------------------------------------------------ *)
(** ** The order of [datetime] values *)

Section DateOrder.

Lemma date_lt_spec (a b : datetime) :
  Datetime.lt a b = true <->
  (year a < year b \/
   (year a = year b /\
    (month a < month b \/ (month a = month b /\ day a < day b)))).
Proof.
  unfold Datetime.lt.
  rewrite orb_true_iff, andb_true_iff, orb_true_iff, andb_true_iff,
    !Z.ltb_lt, !Z.eqb_eq.
  reflexivity.
Qed.

Lemma date_lt_false (a b : datetime) :
  negb (Datetime.lt a b) = true <->
  ~ (year a < year b \/
     (year a = year b /\
      (month a < month b \/ (month a = month b /\ day a < day b)))).
Proof.
  rewrite <- date_lt_spec. destruct (Datetime.lt a b); simpl; split; congruence.
Qed.

Lemma date_eqb_eq (a b : datetime) : Datetime.eqb a b = true <-> a = b.
Proof.
  unfold Datetime.eqb. rewrite !andb_true_iff, !Z.eqb_eq.
  destruct a, b; simpl; split.
  - intros [[-> ->] ->]. reflexivity.
  - intros H; injection H as -> -> ->. auto.
Qed.

Lemma date_lt_asym (a b : datetime) :
  Datetime.lt a b = true -> Datetime.lt b a = false.
Proof.
  intros H. apply date_lt_spec in H.
  apply negb_true_iff, date_lt_false. lia.
Qed.

Lemma date_le_trans (a b c : datetime) :
  negb (Datetime.lt b a) = true -> negb (Datetime.lt c b) = true ->
  negb (Datetime.lt c a) = true.
Proof. rewrite !date_lt_false. lia. Qed.

Lemma date_le_refl (a : datetime) : Datetime.le a a = true.
Proof. unfold Datetime.le. apply date_lt_false. lia. Qed.

Lemma date_lt_neq (a b d : datetime) :
  Datetime.lt a b = true -> Datetime.eqb b d = true ->
  Datetime.eqb a d = false.
Proof.
  intros H E. apply date_eqb_eq in E; subst d.
  apply not_true_is_false. rewrite date_eqb_eq. intros ->.
  apply date_lt_spec in H. lia.
Qed.

End DateOrder.

(* ------------------------------------------------------------------ *)
(** ** The calendar: ordinals and dates *)

Ltac months :=
  cbv [Datetime._DAYS_IN_MONTH Datetime._DAYS_BEFORE_MONTH Z.eqb Pos.eqb Z.ltb Z.compare
         Pos.compare Pos.compare_cont andb].

Ltac month_cases m :=
  let H := fresh in
  assert (H : m = 1 \/ m = 2 \/ m = 3 \/ m = 4 \/ m = 5 \/ m = 6 \/ m = 7 \/
              m = 8 \/ m = 9 \/ m = 10 \/ m = 11 \/ m = 12) by lia;
  repeat (destruct H as [H | H]); subst m.

Section Calendar.
Import Datetime.

Lemma is_leap_spec y :
  _is_leap y = true <-> (y mod 4 = 0 /\ (y mod 100 <> 0 \/ y mod 400 = 0)).
Proof.
  unfold _is_leap.
  destruct (Z.eqb_spec (y mod 4) 0), (Z.eqb_spec (y mod 100) 0),
    (Z.eqb_spec (y mod 400) 0); simpl; split; intros; try discriminate; try lia; auto.
Qed.

Lemma days_before_year_succ y :
  _days_before_year (y + 1) =
  _days_before_year y + 365 + (if _is_leap y then 1 else 0).
Proof.
  unfold _days_before_year.
  destruct (_is_leap y) eqn:E.
  - apply is_leap_spec in E. cbv zeta. Z.div_mod_to_equations. lia.
  - assert (H : ~ (y mod 4 = 0 /\ (y mod 100 <> 0 \/ y mod 400 = 0))).
    { rewrite <- is_leap_spec. congruence. }
    cbv zeta. Z.div_mod_to_equations. lia.
Qed.

Lemma days_before_year_mono a b :
  a <= b -> _days_before_year a <= _days_before_year b.
Proof.
  unfold _days_before_year. cbv zeta. intros. Z.div_mod_to_equations. lia.
Qed.

Lemma forallb_range (P : Z -> bool) (n : nat) :
  forallb P (map Z.of_nat (seq 0 n)) = true ->
  forall i, 0 <= i < Z.of_nat n -> P i = true.
Proof.
  intros H i Hi. rewrite forallb_forall in H. apply H.
  apply in_map_iff. exists (Z.to_nat i). split; [ lia | ].
  apply in_seq. lia.
Qed.

Lemma month_day_of_ok (leapyear : bool) (n : Z) :
  0 <= n < 365 + (if leapyear then 1 else 0) ->
  month_day_ok leapyear n = true.
Proof.
  intros H. destruct leapyear.
  - apply (forallb_range (month_day_ok true) 366); [ vm_compute; reflexivity | lia ].
  - apply (forallb_range (month_day_ok false) 365); [ vm_compute; reflexivity | lia ].
Qed.

Lemma ord2ymd_spec (n : Z) :
  1 <= n <= _MAXORDINAL ->
  valid (_ord2ymd n) = true /\ toordinal (_ord2ymd n) = n.
Proof.
  intros Hn. unfold _ord2ymd. cbv zeta.
  set (n0 := n - 1).
  set (n400 := n0 / _DI400Y). set (r400 := n0 mod _DI400Y).
  set (n100 := r400 / _DI100Y). set (r100 := r400 mod _DI100Y).
  set (n4 := r100 / _DI4Y). set (r4 := r100 mod _DI4Y).
  set (n1 := r4 / 365). set (r := r4 mod 365).
  assert (E400 : n0 = _DI400Y * n400 + r400 /\ 0 <= r400 < _DI400Y).
  { split; [ apply Z.div_mod; discriminate | apply Z.mod_pos_bound; reflexivity ]. }
  assert (E100 : r400 = _DI100Y * n100 + r100 /\ 0 <= r100 < _DI100Y).
  { split; [ apply Z.div_mod; discriminate | apply Z.mod_pos_bound; reflexivity ]. }
  assert (E4 : r100 = _DI4Y * n4 + r4 /\ 0 <= r4 < _DI4Y).
  { split; [ apply Z.div_mod; discriminate | apply Z.mod_pos_bound; reflexivity ]. }
  assert (E1 : r4 = 365 * n1 + r /\ 0 <= r < 365).
  { split; [ apply Z.div_mod; discriminate | apply Z.mod_pos_bound; reflexivity ]. }
  unfold _DI400Y, _DI100Y, _DI4Y, _MAXORDINAL in *.
  clearbody n400 r400 n100 r100 n4 r4 n1 r. subst n0.
  destruct E400 as [E400 B400], E100 as [E100 B100], E4 as [E4 B4], E1 as [E1 B1].
  destruct ((n1 =? 4) || (n100 =? 4)) eqn:Elast.
  - (* last day of a leap year *)
    assert (Hy : (n100 = 4 /\ n4 = 0 /\ n1 = 0 /\ r = 0) \/
                 (n100 <= 3 /\ n4 <= 23 /\ n1 = 4 /\ r = 0)).
    { apply orb_true_iff in Elast as [H | H]; apply Z.eqb_eq in H; lia. }
    unfold valid, toordinal, _ymd2ord, _days_in_month, _days_before_month,
      _days_before_year, MINYEAR, MAXYEAR; simpl year; simpl month; simpl day.
    assert (L : _is_leap (n400 * 400 + 1 + (n100 * 100 + n4 * 4 + n1) - 1) = true).
    { apply is_leap_spec. Z.div_mod_to_equations. lia. }
    rewrite L. simpl.
    split.
    + repeat (apply andb_true_iff; split); try reflexivity; apply Z.leb_le; lia.
    + Z.div_mod_to_equations. lia.
  - apply orb_false_iff in Elast as [N1 N100].
    apply Z.eqb_neq in N1, N100.
    assert (R : 0 <= n100 <= 3 /\ 0 <= n4 <= 24 /\ 0 <= n1 <= 3 /\ 0 <= n400 <= 24) by lia.
    set (y := n400 * 400 + 1 + (n100 * 100 + n4 * 4 + n1)).
    set (leapyear := (n1 =? 3) && (negb (n4 =? 24) || (n100 =? 3))).
    assert (L : _is_leap y = leapyear).
    { subst leapyear y.
      destruct (Z.eqb_spec n1 3), (Z.eqb_spec n4 24), (Z.eqb_spec n100 3); simpl.
      all: try (apply is_leap_spec; Z.div_mod_to_equations; lia).
      all: apply not_true_is_false; rewrite is_leap_spec;
           Z.div_mod_to_equations; lia. }
    assert (Hr : 0 <= r < 365 + (if leapyear then 1 else 0))
      by (destruct leapyear; lia).
    pose proof (month_day_of_ok leapyear r Hr) as Hmd.
    unfold month_day_ok, month_day_of in Hmd. cbv zeta in Hmd.
    fold leapyear.
    destruct (r <? _) eqn:Epre.
    all: repeat (apply andb_true_iff in Hmd as [Hmd ?]).
    all: unfold valid, toordinal, _ymd2ord, _days_in_month, _days_before_month,
           MINYEAR, MAXYEAR; simpl year; simpl month; simpl day.
    all: fold y; rewrite L.
    all: repeat match goal with
           | H : (_ <=? _) = true |- _ => apply Z.leb_le in H
           | H : (_ =? _) = true |- _ => apply Z.eqb_eq in H
           end.
    all: assert (Dy : _days_before_year y = n - 1 - r)
           by (unfold _days_before_year; subst y; cbv zeta;
               Z.div_mod_to_equations; lia).
    all: split;
           [ repeat (apply andb_true_iff; split); apply Z.leb_le;
             try assumption; subst y; lia
           | rewrite Dy; lia ].
Qed.

Lemma valid_spec (d : datetime) :
  valid d = true <->
  (1 <= year d <= 9999 /\ 1 <= month d <= 12 /\
   1 <= day d <= _days_in_month (year d) (month d)).
Proof.
  unfold valid, MINYEAR, MAXYEAR.
  rewrite !andb_true_iff, !Z.leb_le. tauto.
Qed.

Lemma day_of_year_bounds (y m d : Z) :
  1 <= m <= 12 -> 1 <= d <= _days_in_month y m ->
  1 <= _days_before_month y m + d <= 365 + (if _is_leap y then 1 else 0).
Proof.
  intros Hm. unfold _days_in_month, _days_before_month.
  month_cases m; destruct (_is_leap y); months; lia.
Qed.

Lemma day_of_year_mono (y m1 d1 m2 d2 : Z) :
  1 <= m1 -> m1 < m2 -> m2 <= 12 ->
  d1 <= _days_in_month y m1 -> 1 <= d2 ->
  _days_before_month y m1 + d1 < _days_before_month y m2 + d2.
Proof.
  intros H1 H12 H2. unfold _days_in_month, _days_before_month.
  month_cases m1; month_cases m2; try lia; destruct (_is_leap y); months; lia.
Qed.

Lemma toordinal_bounds (d : datetime) :
  valid d = true -> 1 <= toordinal d <= _MAXORDINAL.
Proof.
  intros Hv. apply valid_spec in Hv as (Hy & Hm & Hd).
  pose proof (day_of_year_bounds _ _ _ Hm Hd) as B.
  pose proof (days_before_year_succ (year d)) as S.
  pose proof (days_before_year_mono 1 (year d) ltac:(lia)) as L.
  pose proof (days_before_year_mono (year d + 1) 10000 ltac:(lia)) as U.
  change (_days_before_year 1) with 0 in L.
  change (_days_before_year 10000) with 3652059 in U.
  unfold toordinal, _ymd2ord, _MAXORDINAL. lia.
Qed.

Lemma toordinal_lt (a b : datetime) :
  valid a = true -> valid b = true ->
  Datetime.lt a b = true -> toordinal a < toordinal b.
Proof.
  intros Ha Hb.
  apply valid_spec in Ha as (Hya & Hma & Hda).
  apply valid_spec in Hb as (Hyb & Hmb & Hdb).
  unfold Datetime.lt, toordinal, _ymd2ord.
  rewrite orb_true_iff, andb_true_iff, orb_true_iff, andb_true_iff,
    !Z.ltb_lt, !Z.eqb_eq.
  intros [Hy | (Ey & [Hm | (Em & Hd)])].
  - pose proof (day_of_year_bounds _ _ _ Hma Hda).
    pose proof (day_of_year_bounds _ _ _ Hmb Hdb).
    pose proof (days_before_year_succ (year a)).
    pose proof (days_before_year_mono (year a + 1) (year b) ltac:(lia)).
    lia.
  - rewrite Ey in *.
    pose proof (day_of_year_mono (year b) (month a) (day a) (month b) (day b)).
    lia.
  - rewrite Ey, Em. lia.
Qed.

Lemma toordinal_le (a b : datetime) :
  valid a = true -> valid b = true ->
  toordinal a <= toordinal b -> Datetime.le a b = true.
Proof.
  intros Ha Hb H. unfold Datetime.le.
  destruct (Datetime.lt b a) eqn:E; [ | reflexivity ].
  apply toordinal_lt in E; auto. lia.
Qed.

End Calendar.

(* ------------------------------------------------------------------ *)
(** ** Reading [generate_case_timeline] backwards *)

Section Inversion.

Lemma Forall2_In_r {A B : Type} (R : A -> B -> Prop) (l : list A)
  (out : list B) (y : B) :
  Forall2 R l out -> In y out -> exists x, In x l /\ R x y.
Proof.
  induction 1 as [| a b l out Hab _ IH]; simpl; [ tauto | ].
  intros [<- | H]; [ eauto | ].
  destruct (IH H) as (x & Hx & Hr). eauto.
Qed.

Lemma Forall2_In_l {A B : Type} (R : A -> B -> Prop) (l : list A)
  (out : list B) (x : A) :
  Forall2 R l out -> In x l -> exists y, In y out /\ R x y.
Proof.
  induction 1 as [| a b l out Hab _ IH]; simpl; [ tauto | ].
  intros [<- | H]; [ eauto | ].
  destruct (IH H) as (y & Hy & Hr). eauto.
Qed.

Lemma project_timeline_inv (self : Generator) (p : Params.t) (l : Locals.t) :
  project_timeline self p = Ok l -> Projected self p l.
Proof.
  unfold project_timeline. intros H.
  repeat (apply rbind_ok in H as (? & ? & H); cbv zeta in H).
  injection H as <-. constructor; simpl; auto.
Qed.

Lemma generate_ok_inv (self : Generator) (p : Params.t) (log log' : CallLog)
  (tl : list Entry.t) (rep : Report) (rv : Json) :
  generate_case_timeline self p log = (Ok (tl, rep, rv), log') ->
  exists l,
    project_timeline self p = Ok l /\
    tl = map entry (PyList.sort Datetime.lt sort_date (Locals.timeline l)) /\
    _call_llm_for_review self tl p log = (Ok rv, log') /\
    rep = mkReport (Params.case_name p) p (characteristics l tl) rv.
Proof.
  unfold generate_case_timeline, bind, lift, ret. intros H.
  destruct (project_timeline self p) as [l | e]; [ | discriminate H ].
  cbv zeta in H.
  destruct (_call_llm_for_review _ _ _ _) as [[r | e] lg] eqn:E;
    [ | discriminate H ].
  injection H as <- <- <- <-. exists l. auto.
Qed.

Lemma generate_ok_intro (self : Generator) (p : Params.t) (log log' : CallLog)
  (l : Locals.t) (rv : Json) :
  let tl := map entry (PyList.sort Datetime.lt sort_date (Locals.timeline l)) in
  project_timeline self p = Ok l ->
  _call_llm_for_review self tl p log = (Ok rv, log') ->
  generate_case_timeline self p log
  = (Ok (tl, mkReport (Params.case_name p) p (characteristics l tl) rv, rv),
     log').
Proof.
  intros tl Hl Hr. unfold generate_case_timeline, bind, lift, ret.
  rewrite Hl. cbv zeta. fold tl. rewrite Hr. reflexivity.
Qed.

(** Every dictionary of the returned timeline comes from the loop body run
    on a task of the working list, and every task gives one. *)
Lemma timeline_entries (self : Generator) (p : Params.t) (l : Locals.t)
  (tl : list Entry.t) :
  project_timeline self p = Ok l ->
  tl = map entry (PyList.sort Datetime.lt sort_date (Locals.timeline l)) ->
  let body :=
    timeline_entry (Locals.project_start_date l)
      (Locals.sponsor_agreement_date l) (Locals.equity_base_date l)
      (Locals.equity_completion_date l) (Locals.a1_date l)
      (Locals.time_factor l) in
  (forall e, In e tl ->
     exists t k, In t (Locals.tasks l) /\ body t = Ok k /\ e = entry k) /\
  (forall t, In t (Locals.tasks l) ->
     exists k, body t = Ok k /\ In (entry k) tl).
Proof.
  intros Hl -> body. apply project_timeline_inv in Hl.
  pose proof (for_each_ok _ _ _ (proj_timeline _ _ _ Hl)) as F. fold body in F.
  split.
  - intros e He. apply in_map_iff in He as (k & <- & Hk).
    apply (Permutation_in _ (sort_perm Datetime.lt sort_date _)) in Hk.
    destruct (Forall2_In_r _ _ _ _ F Hk) as (t & Ht & Hb). eauto.
  - intros t Ht. destruct (Forall2_In_l _ _ _ _ F Ht) as (k & Hk & Hb).
    exists k; split; [ assumption | ].
    apply in_map.
    apply (Permutation_in _ (Permutation_sym (sort_perm Datetime.lt sort_date _))).
    assumption.
Qed.

End Inversion.

(* ------------------------------------------------------------------ *)
(** ** The loop body *)

Section LoopBody.

(** A task name starts with at most one of the four prefixes. *)
Lemma milestone_prefix_exclusive (name p q : string) :
  In p milestone_prefixes -> In q milestone_prefixes -> p <> q ->
  PyStr.startswith name p = true -> PyStr.startswith name q = false.
Proof.
  unfold milestone_prefixes, PyStr.startswith.
  intros Hp Hq Hpq Hs.
  destruct Hp as [<- | [<- | [<- | [<- | []]]]];
    destruct Hq as [<- | [<- | [<- | [<- | []]]]];
    try congruence; clear Hpq;
    destruct name as [| c1 [| c2 [| c3 name]]];
    try discriminate Hs; try reflexivity;
    cbn [prefix] in Hs;
    destruct (ascii_dec _ c1); try discriminate Hs; subst c1;
    destruct (ascii_dec _ c2); try discriminate Hs; subst c2;
    destruct (ascii_dec _ c3); try discriminate Hs; subst c3;
    reflexivity.
Qed.

Lemma timeline_entry_inv (s sp b c a : datetime) (tf : float) (t : Task.t)
  (k : Keyed) :
  timeline_entry s sp b c a tf t = Ok k ->
  exists scaled weeks date,
    PyFloat.int_mul (Task.周偏移 t) tf = Ok scaled /\
    PyFloat.to_int scaled = Ok weeks /\
    Datetime.add_weeks s (Z.max 0 weeks) = Ok date /\
    sort_date k =
      (if PyStr.startswith (Task.任务 t) "向联交所递交A1申请" then a
       else if PyStr.startswith (Task.任务 t) "完成股改工作" then c
       else if PyStr.startswith (Task.任务 t) "作出确定股改基准日" then b
       else if PyStr.startswith (Task.任务 t) "定稿保荐人" then sp
       else date) /\
    entry k =
      Entry.mk (_format_date (sort_date k)) (Task.工作条线 t) (Task.任务 t)
        (Task.牵头方 t).
Proof.
  unfold timeline_entry. intros H.
  apply rbind_ok in H as (scaled & Hs & H).
  apply rbind_ok in H as (weeks & Hw & H). cbv zeta in H.
  apply rbind_ok in H as (date & Hd & H).
  injection H as <-. exists scaled, weeks, date. simpl.
  repeat split; assumption.
Qed.

Lemma timeline_entry_milestone (l : Locals.t) (tf : float) (t : Task.t)
  (k : Keyed) (prefix : string) (anchor : datetime) :
  timeline_entry (Locals.project_start_date l)
    (Locals.sponsor_agreement_date l) (Locals.equity_base_date l)
    (Locals.equity_completion_date l) (Locals.a1_date l) tf t = Ok k ->
  In (prefix, anchor) (milestones l) ->
  PyStr.startswith (Task.任务 t) prefix = true ->
  sort_date k = anchor.
Proof.
  intros H Hin Hp.
  apply timeline_entry_inv in H as (_ & _ & date & _ & _ & _ & -> & _).
  assert (X : forall q, In q milestone_prefixes -> prefix <> q ->
                        PyStr.startswith (Task.任务 t) q = false).
  { intros q Hq Hne. apply (milestone_prefix_exclusive _ prefix q); auto.
    apply (in_map fst) in Hin. exact Hin. }
  unfold milestones in Hin. simpl in Hin.
  destruct Hin as [E | [E | [E | [E | []]]]]; injection E as <- <-.
  - rewrite Hp.
    rewrite !X by (simpl; auto 6 || discriminate). reflexivity.
  - rewrite Hp.
    rewrite !X by (simpl; auto 6 || discriminate). reflexivity.
  - rewrite Hp.
    rewrite !X by (simpl; auto 6 || discriminate). reflexivity.
  - rewrite Hp. reflexivity.
Qed.

Lemma is_milestone_false (name : string) :
  is_milestone name = false ->
  forall q, In q milestone_prefixes -> PyStr.startswith name q = false.
Proof.
  unfold is_milestone. intros H q Hq.
  destruct (PyStr.startswith name q) eqn:E; [ | reflexivity ].
  assert (X : existsb (PyStr.startswith name) milestone_prefixes = true)
    by (apply existsb_exists; eauto).
  congruence.
Qed.

Lemma timeline_entry_ordinary (s sp b c a : datetime) (tf : float)
  (t : Task.t) (k : Keyed) :
  timeline_entry s sp b c a tf t = Ok k ->
  is_milestone (Task.任务 t) = false ->
  exists scaled weeks,
    PyFloat.int_mul (Task.周偏移 t) tf = Ok scaled /\
    PyFloat.to_int scaled = Ok weeks /\
    Datetime.add_weeks s (Z.max 0 weeks) = Ok (sort_date k).
Proof.
  intros H Hm.
  apply timeline_entry_inv in H as (scaled & weeks & date & Hs & Hw & Hd & E & _).
  pose proof (is_milestone_false _ Hm) as X.
  rewrite !X in E by (simpl; auto 6). subst date. eauto.
Qed.

End LoopBody.

(* ------------------------------------------------------------------ *)
(** ** Parsed dates are dates of the calendar *)

Section ParsedDates.

Lemma new_ok (y m d : Z) (dt : datetime) :
  Datetime.new y m d = Ok dt ->
  dt = mkdate y m d /\ Datetime.valid dt = true.
Proof.
  unfold Datetime.new. destruct (Datetime.valid (mkdate y m d)) eqn:V;
    [ | discriminate ].
  intros H; injection H as <-. auto.
Qed.

Lemma strptime_valid (s : string) (dt : datetime) :
  Datetime.strptime_Ymd s = Ok dt -> Datetime.valid dt = true.
Proof.
  unfold Datetime.strptime_Ymd. intros H.
  repeat match type of H with
    | match ?x with _ => _ end = _ => destruct x; try discriminate H
    | (if ?x then _ else _) = _ => destruct x; try discriminate H
    end.
  apply new_ok in H. tauto.
Qed.

Lemma parse_date_valid (s : string) (dt : datetime) :
  _parse_date s = Ok dt -> Datetime.valid dt = true.
Proof.
  unfold _parse_date. destruct (PyStr.contains _ _); apply strptime_valid.
Qed.

Lemma param_date_valid (k : string) (field : option string) (dt : datetime) :
  param_date k field = Ok dt -> Datetime.valid dt = true.
Proof.
  unfold param_date. intros H. apply rbind_ok in H as (s & _ & H).
  eapply parse_date_valid; eassumption.
Qed.

Lemma add_weeks_ok (d : datetime) (w : Z) (r : datetime) :
  Datetime.valid d = true -> 0 <= w ->
  Datetime.add_weeks d w = Ok r ->
  Datetime.valid r = true /\
  Datetime.toordinal r = Datetime.toordinal d + 7 * w /\
  Datetime.le d r = true.
Proof.
  intros Hv Hw. unfold Datetime.add_weeks. cbv zeta.
  destruct (999999999 <? Z.abs (7 * w)); [ discriminate | ].
  destruct ((0 <? _) && (_ <=? _)) eqn:E; [ | discriminate ].
  apply andb_true_iff in E as [E1 E2].
  apply Z.ltb_lt in E1. apply Z.leb_le in E2.
  intros H.
  assert (R : r = Datetime._ord2ymd (Datetime.toordinal d + 7 * w))
    by congruence.
  clear H. subst r.
  destruct (ord2ymd_spec (Datetime.toordinal d + 7 * w)) as [V T]; [ lia | ].
  repeat split; try assumption.
  apply toordinal_le; try assumption. rewrite T. lia.
Qed.


End ParsedDates.

(* ------------------------------------------------------------------ *)
(** ** Ordinary tasks *)

Section OrdinaryTasks.


End OrdinaryTasks.

(* ------------------------------------------------------------------ *)
(** ** The order of the returned timeline *)

Section TimelineOrder.

(** C2. Whenever [generate_case_timeline] returns, the returned entries are
    the entries of a list [keyed] that still holds the calendar dates
    ([sort_date]) and from which the key is dropped entry by entry.  Each
    entry shows its own calendar date, formatted; [keyed] is ordered by
    non-decreasing calendar date; it is a rearrangement of the entries made
    in the order of the working task list; and the entries of any one date
    keep the order of that list. *)
Theorem timeline_sorted_by_date_stable
  (self : Generator) (p : Params.t) (log log' : CallLog)
  (tl : list Entry.t) (rep : Report) (rv : Json) :
  generate_case_timeline self p log = (Ok (tl, rep, rv), log') ->
  exists l keyed,
    project_timeline self p = Ok l /\
    tl = map entry keyed /\
    Forall (fun k => Entry.日期 (entry k) = _format_date (sort_date k)) keyed /\
    StronglySorted
      (fun a b => Datetime.le (sort_date a) (sort_date b) = true) keyed /\
    Permutation keyed (Locals.timeline l) /\
    map (fun k => Entry.主要任务 (entry k)) (Locals.timeline l)
    = map Task.任务 (Locals.tasks l) /\
    forall d,
      filter (fun k => Datetime.eqb (sort_date k) d) keyed
      = filter (fun k => Datetime.eqb (sort_date k) d) (Locals.timeline l).
Proof.
  intros H. apply generate_ok_inv in H as (l & Hl & Htl & _ & _).
  exists l, (PyList.sort Datetime.lt sort_date (Locals.timeline l)).
  pose proof (project_timeline_inv _ _ _ Hl) as P.
  pose proof (for_each_ok _ _ _ (proj_timeline _ _ _ P)) as F.
  split; [ exact Hl | ].
  split; [ exact Htl | ].
  split.
  { eapply Permutation_Forall;
      [ symmetry; apply (sort_perm Datetime.lt sort_date) | ].
    clear - F. induction F as [| t k ts ks Hk _ IH]; constructor; auto.
    apply timeline_entry_inv in Hk as (_ & _ & _ & _ & _ & _ & _ & ->).
    reflexivity. }
  split.
  { apply (sort_sorted Datetime.lt sort_date date_lt_asym date_le_trans). }
  split; [ apply sort_perm | ].
  split.
  { clear - F. induction F as [| t k ts ks Hk _ IH]; simpl; [ reflexivity | ].
    apply timeline_entry_inv in Hk as (_ & _ & _ & _ & _ & _ & _ & ->).
    simpl. rewrite IH. reflexivity. }
  intros d. apply sort_filter.
  intros x y Hlt Hx. eapply date_lt_neq; eassumption.
Qed.

End TimelineOrder.

(* ------------------------------------------------------------------ *)
(** ** The composite factors *)

Section Factors.

Let rules : Rules.t := _load_variation_rules.

Lemma structure_rule_of (key : string) :
  In key (keys (Rules.company_structure rules)) ->
  exists r,
    getitem (Rules.company_structure rules) key = Ok r /\
    In (Rules.complexity_modifier r) [1.1; 0.8; 0.9; 1.3]%float.
Proof.
  simpl. intros [<- | [<- | [<- | [<- | []]]]];
    (eexists; split; [ reflexivity | simpl; auto ]).
Qed.

Lemma pace_rule_of (key : string) :
  In key (keys (Rules.project_pace rules)) ->
  exists r,
    getitem (Rules.project_pace rules) key = Ok r /\
    In (Rules.time_compression r) [0.85; 1.0; 1.15]%float.
Proof.
  simpl. intros [<- | [<- | [<- | []]]];
    (eexists; split; [ reflexivity | simpl; auto ]).
Qed.

Lemma financial_rule_of (key : string) :
  In key (keys (Rules.a1_filing_financials rules)) ->
  exists r,
    getitem (Rules.a1_filing_financials rules) key = Ok r /\
    In (Rules.audit_complexity r) [0.8; 1.0; 1.2]%float.
Proof.
  simpl. intros [<- | [<- | [<- | []]]];
    (eexists; split; [ reflexivity | simpl; auto ]).
Qed.

Lemma readiness_rule_of (readiness_list : list string) :
  exists r,
    getitem (Rules.ipo_readiness rules)
      (_determine_ipo_readiness_level readiness_list) = Ok r /\
    In (Rules.preparation_factor r) [0.9; 1.0; 1.2]%float.
Proof.
  unfold _determine_ipo_readiness_level.
  destruct (existsb _ _); [ | destruct (3 <=? _) ];
    (eexists; split; [ reflexivity | simpl; auto ]).
Qed.

Lemma time_factor_positive (a b : float) :
  In a [0.85; 1.0; 1.15]%float -> In b [0.9; 1.0; 1.2]%float ->
  PyFloat.pos (a * b) = true.
Proof.
  simpl. intros [<- | [<- | [<- | []]]] [<- | [<- | [<- | []]]];
    vm_compute; reflexivity.
Qed.

Lemma complexity_factor_positive (a b : float) :
  In a [1.1; 0.8; 0.9; 1.3]%float -> In b [0.8; 1.0; 1.2]%float ->
  PyFloat.pos (a * b) = true.
Proof.
  simpl. intros [<- | [<- | [<- | [<- | []]]]] [<- | [<- | [<- | []]]];
    vm_compute; reflexivity.
Qed.

End Factors.

(* ------------------------------------------------------------------ *)
(** ** The review boundary *)

Section Review.

Lemma project_timeline_client (self : Generator) (client : option LLMClient)
  (p : Params.t) :
  project_timeline (with_client self client) p = project_timeline self p.
Proof. reflexivity. Qed.

Lemma review_returns (self : Generator) (tl : list Entry.t) (p : Params.t)
  (log : CallLog) :
  exists rv calls,
    _call_llm_for_review self tl p log = (Ok rv, (log ++ calls)%list) /\
    (llm_client self = None -> calls = []).
Proof.
  unfold _call_llm_for_review, ret.
  destruct (llm_client self) as [c |].
  - destruct (review_request c tl);
      (do 2 eexists; split; [ reflexivity | discriminate ]).
  - exists review_disabled, []. rewrite app_nil_r. auto.
Qed.

(** C6. The review never raises.  Without a client it returns the fixed
    dictionary [review_passed = True], [summary = "LLM未启用"], and the log
    of requests is unchanged: nothing was sent.  With a client, one request
    is sent; when the attempt fails with an exception of text [e], the
    exception is caught and the result is [review_passed = True] with the
    summary ["LLM调用失败: "] followed by [e].  As a result
    [generate_case_timeline] returns whenever its own steps (parsing,
    lookups, the projection of the tasks) go through, whatever the client
    is or does, and with the timeline of those steps. *)
Theorem review_never_fatal (self : Generator) (tl : list Entry.t)
  (p : Params.t) (log : CallLog) :
  (llm_client self = None ->
   _call_llm_for_review self tl p log = (Ok review_disabled, log)) /\
  (forall c e, llm_client self = Some c -> review_request c tl = Failed e ->
   _call_llm_for_review self tl p log
   = (Ok (review_failed e), (log ++ [tl])%list)) /\
  (forall c j, llm_client self = Some c -> review_request c tl = Replied j ->
   _call_llm_for_review self tl p log = (Ok j, (log ++ [tl])%list)) /\
  (exists rv log', _call_llm_for_review self tl p log = (Ok rv, log')) /\
  (forall client l,
     project_timeline self p = Ok l ->
     let timeline :=
       map entry (PyList.sort Datetime.lt sort_date (Locals.timeline l)) in
     exists rv log',
       generate_case_timeline (with_client self client) p log
       = (Ok (timeline,
              mkReport (Params.case_name p) p (characteristics l timeline) rv,
              rv), log')) /\
  (forall client e,
     project_timeline self p = Raise e ->
     generate_case_timeline (with_client self client) p log = (Raise e, log)).
Proof.
  repeat split.
  - intros H. unfold _call_llm_for_review. rewrite H. reflexivity.
  - intros c e H R. unfold _call_llm_for_review. rewrite H, R. reflexivity.
  - intros c j H R. unfold _call_llm_for_review. rewrite H, R. reflexivity.
  - destruct (review_returns self tl p log) as (rv & calls & H & _). eauto.
  - intros client l Hl timeline.
    destruct (review_returns (with_client self client) timeline p log)
      as (rv & calls & H & _).
    exists rv, (log ++ calls)%list.
    apply (generate_ok_intro (with_client self client) p log _ l rv);
      [ rewrite project_timeline_client; exact Hl | exact H ].
  - intros client e He. unfold generate_case_timeline, bind, lift.
    rewrite project_timeline_client, He. reflexivity.
Qed.

End Review.

(* ------------------------------------------------------------------ *)
(** ** Optional modules *)

Section OptionalModules.

Lemma project_timeline_optional_modules (self : Generator) (p : Params.t)
  (mods : option (list string)) :
  exists chosen,
    project_timeline self (with_optional_modules p mods)
    = rbind (project_timeline self p)
        (fun l => Ok (set_optional_modules l chosen)).
Proof.
  eexists. unfold project_timeline, with_optional_modules. simpl.
  repeat match goal with
    | |- rbind ?m _ = rbind (rbind ?m _) _ =>
        destruct m; simpl; [ | reflexivity ]
    end.
  reflexivity.
Qed.

(** C10. Changing only [optional_modules] changes neither the outcome nor
    the requests sent: both runs raise the same exception, or both return,
    with the same timeline, the same characteristics and the same review.
    The working task list is the same too. *)
Theorem optional_modules_have_no_effect (self : Generator) (p : Params.t)
  (mods : option (list string)) (log : CallLog) :
  let p' := with_optional_modules p mods in
  snd (generate_case_timeline self p' log)
  = snd (generate_case_timeline self p log) /\
  match fst (generate_case_timeline self p log),
        fst (generate_case_timeline self p' log) with
  | Ok (tl, rep, rv), Ok (tl', rep', rv') =>
      tl' = tl /\ 案例特征 rep' = 案例特征 rep /\ rv' = rv /\
      项目参数 rep' = p' /\ 项目参数 rep = p
  | Raise e, Raise e' => e' = e
  | _, _ => False
  end /\
  (forall l l',
     project_timeline self p = Ok l -> project_timeline self p' = Ok l' ->
     Locals.tasks l' = Locals.tasks l /\
     Locals.timeline l' = Locals.timeline l).
Proof.
  intros p'.
  destruct (project_timeline_optional_modules self p mods) as (chosen & E).
  fold p' in E.
  unfold generate_case_timeline, bind, lift, ret. rewrite E.
  destruct (project_timeline self p) as [l | e]; simpl.
  - destruct (_call_llm_for_review self _ p log) as [[rv | e] lg] eqn:R.
    + assert (R' : _call_llm_for_review self
                     (map entry
                        (PyList.sort Datetime.lt sort_date (Locals.timeline l)))
                     p' log = (Ok rv, lg)) by exact R.
      rewrite R'. simpl.
      split; [ reflexivity | ]. split; [ repeat split | ].
      intros l0 l1 H0 H1; injection H0 as <-; injection H1 as <-.
      split; reflexivity.
    + destruct (review_returns self
                  (map entry
                     (PyList.sort Datetime.lt sort_date (Locals.timeline l)))
                  p log) as (? & ? & X & _).
      congruence.
  - repeat split; discriminate.
Qed.

End OptionalModules.

(* ------------------------------------------------------------------ *)
(** ** The batch of cases *)

Section Batch.

Lemma review_log (self : Generator) (tl : list Entry.t) (p : Params.t)
  (log : CallLog) :
  _call_llm_for_review self tl p log
  = (fst (_call_llm_for_review self tl p []),
     (log ++ snd (_call_llm_for_review self tl p []))%list).
Proof.
  unfold _call_llm_for_review, ret.
  destruct (llm_client self) as [c |]; simpl.
  - destruct (review_request c tl); reflexivity.
  - rewrite app_nil_r. reflexivity.
Qed.

(** The outcome of a case does not depend on the requests sent before. *)
Lemma generate_log (self : Generator) (p : Params.t) (log : CallLog) :
  generate_case_timeline self p log
  = (fst (generate_case_timeline self p []),
     (log ++ snd (generate_case_timeline self p []))%list).
Proof.
  unfold generate_case_timeline, bind, lift, ret.
  destruct (project_timeline self p) as [l | e]; simpl;
    [ | rewrite app_nil_r; reflexivity ].
  rewrite (review_log self _ p log).
  destruct (_call_llm_for_review self _ p []) as [[rv | e] calls];
    reflexivity.
Qed.

Lemma setitem_fresh {V : Type} (d : dict V) (k : string) (v : V) :
  ~ In k (keys d) -> setitem d k v = (d ++ [(k, v)])%list.
Proof.
  induction d as [| [k' v'] d IH]; simpl; [ reflexivity | ].
  intros H. destruct (String.eqb_spec k' k) as [-> | _]; [ tauto | ].
  rewrite IH by tauto. reflexivity.
Qed.

Lemma generate_cases_all (self : Generator) (cases : dict Params.t)
  (results acc : dict (list Entry.t * Report * Json)) (log : CallLog) :
  Forall2
    (fun kc kr =>
       fst kr = fst kc /\
       fst (generate_case_timeline self (snd kc) []) = Ok (snd kr))
    cases results ->
  NoDup (keys acc ++ keys cases)%list ->
  fst (generate_cases self cases acc log) = Ok (acc ++ results)%list.
Proof.
  intros F. revert acc log.
  induction F as [| [k cfg] [k' r] cases results [Hk Hr] _ IH];
    intros acc log ND; simpl.
  - rewrite app_nil_r. reflexivity.
  - simpl in Hk, Hr. subst k'. unfold bind.
    rewrite generate_log, Hr.
    apply NoDup_remove in ND as ND'. destruct ND' as [ND1 ND2].
    rewrite setitem_fresh
      by (intros X; apply ND2; apply in_or_app; left; exact X).
    rewrite IH.
    + rewrite <- app_assoc. reflexivity.
    + unfold keys in *. rewrite map_app. simpl.
      rewrite <- app_assoc. exact ND.
Qed.

Lemma generate_cases_first_failure (self : Generator)
  (pre post : dict Params.t) (k : string) (cfg : Params.t) (e : exn)
  (acc : dict (list Entry.t * Report * Json)) (log : CallLog) :
  Forall (fun kc => is_ok (fst (generate_case_timeline self (snd kc) [])) = true)
    pre ->
  fst (generate_case_timeline self cfg []) = Raise e ->
  fst (generate_cases self (pre ++ (k, cfg) :: post)%list acc log) = Raise e.
Proof.
  intros F He. revert acc log.
  induction F as [| [k0 c0] pre H0 _ IH]; intros acc log; simpl.
  - unfold bind. rewrite generate_log, He. reflexivity.
  - unfold bind. rewrite generate_log. simpl in H0.
    destruct (fst (generate_case_timeline self c0 [])); [ | discriminate ].
    apply IH.
Qed.

(** C7, as the code has it.  [generate_predefined_cases] takes no mapping:
    it runs [generate_case_timeline] on its one predefined case with no
    handler around it.  When the case generates, the mapping returned holds
    ["Case1"] alone, with the result of that case; when the case fails, the
    batch raises the same exception and returns no mapping.  The loop does
    so for any mapping: it returns only when every case generates, each
    identifier then mapped to the result of its own case, and the first
    failing case ends it with that case's exception. *)
Theorem batch_is_all_or_nothing (self : Generator) (log : CallLog) :
  (forall r log',
     generate_case_timeline self case1 log = (Ok r, log') ->
     generate_predefined_cases self log = (Ok [("Case1", r)], log')) /\
  (forall e log',
     generate_case_timeline self case1 log = (Raise e, log') ->
     generate_predefined_cases self log = (Raise e, log)) /\
  (forall cases,
     NoDup (keys cases) ->
     (forall results,
        Forall2
          (fun kc kr =>
             fst kr = fst kc /\
             fst (generate_case_timeline self (snd kc) []) = Ok (snd kr))
          cases results ->
        fst (generate_cases self cases [] log) = Ok results) /\
     (forall pre k cfg post e,
        cases = (pre ++ (k, cfg) :: post)%list ->
        Forall
          (fun kc =>
             is_ok (fst (generate_case_timeline self (snd kc) [])) = true) pre ->
        fst (generate_case_timeline self cfg []) = Raise e ->
        fst (generate_cases self cases [] log) = Raise e)).
Proof.
  split; [ | split ].
  - intros r log' H.
    unfold generate_predefined_cases, predefined_cases.
    cbn [generate_cases]. unfold bind. rewrite H. reflexivity.
  - intros e log' H.
    unfold generate_predefined_cases, predefined_cases.
    cbn [generate_cases]. unfold bind. rewrite H.
    rewrite generate_log in H.
    destruct (generate_case_timeline self case1 []) as [[r0 | e0] calls] eqn:G;
      simpl in H; [ discriminate H | ].
    unfold generate_case_timeline, bind, lift in G.
    destruct (project_timeline self case1) as [l | e1].
    + cbv zeta in G.
      destruct (_call_llm_for_review self _ case1 []) as [[rv | e2] lg] eqn:Rv;
        [ discriminate G | ].
      pose proof (review_returns self
                    (map entry
                       (PyList.sort Datetime.lt sort_date (Locals.timeline l)))
                    case1 []) as (rv & calls' & Rv' & _).
      congruence.
    + injection G as _ <-. rewrite app_nil_r in H.
      injection H as _ <-. reflexivity.
  - intros cases ND. split.
    + intros results F.
      apply (generate_cases_all self cases results [] log F). exact ND.
    + intros pre k cfg post e -> F He.
      apply generate_cases_first_failure; assumption.
Qed.

End Batch.

(** A generator that lacks the pace rule of the predefined case: the case
    fails with [KeyError], and so does the batch; no mapping is returned,
    not even an empty one. *)
Lemma batch_failure_returns_no_mapping :
  generate_case_timeline generator_without_standard_pace case1 []
  = (Raise (KeyError "标准节奏 (Standard)"), []) /\
  generate_predefined_cases generator_without_standard_pace []
  = (Raise (KeyError "标准节奏 (Standard)"), []) /\
  forall results log',
    generate_predefined_cases generator_without_standard_pace []
    <> (Ok results, log').
Proof.
  split; [ vm_compute; reflexivity | ].
  split; [ vm_compute; reflexivity | ].
  intros results log' H. vm_compute in H. discriminate H.
Qed.

(** The batch loop on a case that completes followed by one that fails:
    nothing is returned, the completed case included. *)
Lemma batch_failure_discards_completed_case :
  fst (generate_case_timeline (init None) case1 []) = Ok case1_result /\
  generate_cases (init None) [("Case1", case1); ("Case2", bad_date_case)] [] []
  = (Raise ValueError, []).
Proof. split; vm_compute; reflexivity. Qed.

Lemma batch_is_all_or_nothing_witness :
  generate_predefined_cases (init None) [] = (Ok [("Case1", case1_result)], []) /\
  generate_predefined_cases generator_without_standard_pace []
  = (Raise (KeyError "标准节奏 (Standard)"), []).
Proof.
  split.
  - apply (proj1 (batch_is_all_or_nothing (init None) [])).
    vm_compute; reflexivity.
  - apply (proj1 (proj2 (batch_is_all_or_nothing
                           generator_without_standard_pace []))
             (KeyError "标准节奏 (Standard)") []).
    vm_compute; reflexivity.
Defined.

(* ------------------------------------------------------------------ *)
(** ** Unknown keys *)

Section UnknownKeys.

Lemma getitem_absent {V : Type} (d : dict V) (k : string) :
  lookup d k = None -> getitem d k = Raise (KeyError k).
Proof. unfold getitem. intros ->. reflexivity. Qed.

Lemma getitem_present {V : Type} (d : dict V) (k : string) (v : V) :
  lookup d k = Some v -> getitem d k = Ok v.
Proof. unfold getitem. intros ->. reflexivity. Qed.

Lemma absent_group_adds_nothing {V : Type} (d : dict (list V))
  (before after : list string) (absent : string) :
  lookup d absent = None ->
  flat_map (fun m => get d m []) (before ++ absent :: after)%list
  = flat_map (fun m => get d m []) (before ++ after)%list.
Proof.
  intros H. rewrite !flat_map_app. cbn [flat_map].
  unfold get at 2. rewrite H. reflexivity.
Qed.

(** C8, as the code has it.  A structure, pace or disclosure-scope value
    that is no key of its rule table, a readiness level that is no key of
    the readiness table, or a task catalog without the core group makes
    [generate_case_timeline] raise, with nothing sent to the client; when
    the five dates parse the exception is a [KeyError].  A task group named
    by a structure rule is looked up with a default instead: with the core
    group there, collecting the tasks never raises; each listed name gives
    its tasks when it is a key of the task catalog and none when it is
    not, so a name that is no key can be struck from the list, wherever it
    stands in it, without changing the tasks collected. *)
Theorem unknown_rule_key_is_fatal (self : Generator) (p : Params.t)
  (log : CallLog) :
  let rules := variation_rules self in
  (lookup (Rules.company_structure rules)
     (Params.get (Params.current_structure p) "境内有限责任公司 (需股改)") = None \/
   lookup (Rules.project_pace rules)
     (Params.get (Params.project_pace p) "标准节奏 (Standard)") = None \/
   lookup (Rules.a1_filing_financials rules)
     (Params.get (Params.a1_filing_financials p) "最近三个完整财年") = None \/
   lookup (Rules.ipo_readiness rules)
     (_determine_ipo_readiness_level (Params.get (Params.ipo_readiness p) []))
   = None \/
   lookup (base_templates self) "core_tasks" = None ->
   (exists e, generate_case_timeline self p log = (Raise e, log)) /\
   (is_ok (param_date "project_start_date" (Params.project_start_date p))
    = true ->
    is_ok (param_date "sponsor_agreement_date"
             (Params.sponsor_agreement_date p)) = true ->
    is_ok (param_date "equity_reform_base_date"
             (Params.equity_reform_base_date p)) = true ->
    is_ok (param_date "equity_reform_completion_date"
             (Params.equity_reform_completion_date p)) = true ->
    is_ok (param_date "a1_submission_date" (Params.a1_submission_date p))
    = true ->
    exists key,
      generate_case_timeline self p log = (Raise (KeyError key), log))) /\
  (forall structure_rules core,
     lookup (base_templates self) "core_tasks" = Some core ->
     collect_tasks self structure_rules
     = Ok (core
           ++ flat_map
                (fun m =>
                   match lookup (base_templates self) m with
                   | Some group => group
                   | None => []
                   end)
                (Rules.add_modules structure_rules))%list) /\
  (forall before absent after complexity,
     lookup (base_templates self) absent = None ->
     collect_tasks self
       {| Rules.add_modules := (before ++ absent :: after)%list;
          Rules.complexity_modifier := complexity |}
     = collect_tasks self
         {| Rules.add_modules := (before ++ after)%list;
            Rules.complexity_modifier := complexity |}).
Proof.
  intros rules. split; [ | split ].
  - intros H.
    assert (X : exists e,
               project_timeline self p = Raise e /\
               (is_ok (param_date "project_start_date"
                         (Params.project_start_date p)) = true ->
                is_ok (param_date "sponsor_agreement_date"
                         (Params.sponsor_agreement_date p)) = true ->
                is_ok (param_date "equity_reform_base_date"
                         (Params.equity_reform_base_date p)) = true ->
                is_ok (param_date "equity_reform_completion_date"
                         (Params.equity_reform_completion_date p)) = true ->
                is_ok (param_date "a1_submission_date"
                         (Params.a1_submission_date p)) = true ->
                exists key, e = KeyError key)).
    { unfold project_timeline. fold rules.
      do 5 (match goal with
            | |- context [rbind (param_date ?k ?f) _] =>
                destruct (param_date k f);
                [ cbn [rbind]
                | eexists; split; [ reflexivity | simpl; intros; discriminate ] ]
            end).
      cbv zeta.
      repeat match goal with
        | |- context [rbind (getitem ?d ?k) _] =>
            destruct (lookup d k) eqn:?;
            [ erewrite getitem_present by eassumption; cbn [rbind]
            | rewrite getitem_absent by assumption;
              eexists; split; [ reflexivity | intros; eexists; reflexivity ] ]
        end.
      unfold collect_tasks.
      destruct (lookup (base_templates self) "core_tasks") eqn:?;
        [ | rewrite getitem_absent by assumption;
            eexists; split; [ reflexivity | intros; eexists; reflexivity ] ].
      exfalso. intuition congruence. }
    destruct X as (e & He & Hk).
    split.
    + exists e. unfold generate_case_timeline, bind, lift. rewrite He.
      reflexivity.
    + intros D1 D2 D3 D4 D5. destruct (Hk D1 D2 D3 D4 D5) as (key & ->).
      exists key. unfold generate_case_timeline, bind, lift. rewrite He.
      reflexivity.
  - intros sr core Hc. unfold collect_tasks.
    rewrite (getitem_present _ _ _ Hc). cbn [rbind]. reflexivity.
  - intros before absent after complexity Ha. unfold collect_tasks.
    cbn [Rules.add_modules].
    rewrite (absent_group_adds_nothing _ before after absent Ha). reflexivity.
Qed.

End UnknownKeys.

(** A structure rule that names a group the task catalog lacks: the case
    generates, with the core tasks alone and no error. *)
Lemma unknown_task_group_is_silently_empty :
  lookup (base_templates generator_with_unknown_group) "restructuring_tasks"
  = None /\
  (exists rules,
     getitem
       (Rules.company_structure (variation_rules generator_with_unknown_group))
       "境内有限责任公司 (需股改)" = Ok rules /\
     In "restructuring_tasks" (Rules.add_modules rules)) /\
  exists tl rep rv,
    generate_case_timeline generator_with_unknown_group case1 []
    = (Ok (tl, rep, rv), []) /\
    map Entry.主要任务 tl
    = ["召开项目启动会"; "定稿保荐人及整体协调人委任函并呈交联交所";
       "向联交所递交A1申请"].
Proof.
  split; [ reflexivity | ]. split.
  - eexists; split; [ reflexivity | simpl; auto ].
  - do 3 eexists. split; vm_compute; reflexivity.
Qed.

Lemma unknown_rule_key_is_fatal_witness :
  lookup (Rules.company_structure _load_variation_rules) "合伙企业" = None /\
  generate_case_timeline (init None) unknown_structure_case []
  = (Raise (KeyError "合伙企业"), []) /\
  lookup (base_templates generator_with_mixed_groups) "restructuring_tasks"
  = None /\
  collect_tasks generator_with_mixed_groups
    {| Rules.add_modules := ["restructuring_tasks"; "equity_reform_tasks"];
       Rules.complexity_modifier := 1.1 |}
  = Ok (shipped_tasks true).
Proof.
  split; [ reflexivity | ].
  destruct (unknown_rule_key_is_fatal (init None) unknown_structure_case [])
    as (Fatal & _ & _).
  destruct (Fatal (or_introl eq_refl)) as (_ & H).
  destruct (H eq_refl eq_refl eq_refl eq_refl eq_refl) as (key & E).
  split; [ rewrite E; vm_compute in E; injection E as <-; reflexivity | ].
  split; [ reflexivity | ].
  destruct (unknown_rule_key_is_fatal generator_with_mixed_groups case1 [])
    as (_ & _ & Strike).
  pose proof (Strike [] "restructuring_tasks" ["equity_reform_tasks"]
                1.1%float eq_refl) as S.
  cbn [app] in S. rewrite S. reflexivity.
Defined.

(* ------------------------------------------------------------------ *)
(** ** The date codec *)

Section DateCodec.

Lemma year_str (y : Z) : 1000 <= y <= 9999 -> year_str_ok y = true.
Proof.
  intros H.
  replace y with (y - 1000 + 1000) by lia.
  apply (forallb_range (fun i => year_str_ok (i + 1000)) (Z.to_nat 9000));
    [ vm_compute; reflexivity | lia ].
Qed.

Lemma tail_roundtrip (m d : Z) :
  1 <= m <= 12 -> 1 <= d <= 31 -> tail_roundtrip_ok m d = true.
Proof.
  intros Hm Hd.
  assert (X : forallb
                (fun i => forallb (fun j => tail_roundtrip_ok (i + 1) (j + 1))
                            (map Z.of_nat (seq 0 31)))
                (map Z.of_nat (seq 0 12)) = true)
    by (vm_compute; reflexivity).
  pose proof (forallb_range _ 12 X (m - 1) ltac:(lia)) as Y.
  cbv beta in Y.
  pose proof (forallb_range _ 31 Y (d - 1) ltac:(lia)) as Z0.
  cbv beta in Z0.
  replace (m - 1 + 1) with m in Z0 by lia.
  replace (d - 1 + 1) with d in Z0 by lia.
  exact Z0.
Qed.

Lemma digit_not (c h : ascii) :
  PyStr.is_digit c = true -> PyStr.is_digit h = false -> h <> c.
Proof. intros Hc Hh ->. congruence. Qed.

Lemma prefix_head_differs (h c : ascii) (p s : string) :
  h <> c -> prefix (String h p) (String c s) = false.
Proof. intros H. simpl. destruct (ascii_dec h c); [ contradiction | reflexivity ]. Qed.

Lemma contains_skip (h c : ascii) (p s : string) :
  h <> c ->
  PyStr.contains (String h p) (String c s) = PyStr.contains (String h p) s.
Proof.
  intros H. cbn [PyStr.contains]. rewrite prefix_head_differs by exact H.
  reflexivity.
Qed.

Lemma replace_skip (h c : ascii) (p new s : string) :
  h <> c ->
  PyStr.replace (String h p) new (String c s)
  = String c (PyStr.replace (String h p) new s).
Proof.
  intros H. unfold PyStr.replace. cbn [PyStr.replace_from].
  rewrite prefix_head_differs by exact H. reflexivity.
Qed.

Lemma valid_day_range (d : datetime) :
  Datetime.valid d = true -> 1 <= month d <= 12 /\ 1 <= day d <= 31.
Proof.
  destruct d as [y m dd]. intros H.
  apply valid_spec in H as (_ & Hm & Hd). simpl in *. split; [ exact Hm | ].
  revert Hd. unfold Datetime._days_in_month.
  month_cases m; destruct (Datetime._is_leap y); months; lia.
Qed.

(** An ASCII digit is a decimal digit, with its value. *)
Lemma decimal_ascii_digit (c : ascii) (r : string) :
  PyStr.is_digit c = true ->
  PyStr.decimal (String c r) = Some (PyStr.digit_val c, r).
Proof.
  destruct c as [[] [] [] [] [] [] [] []]; intros H;
    try discriminate H; reflexivity.
Qed.

Lemma parse_Y_ascii (c1 c2 c3 c4 : ascii) (r : string) :
  PyStr.is_digit c1 = true -> PyStr.is_digit c2 = true ->
  PyStr.is_digit c3 = true -> PyStr.is_digit c4 = true ->
  Datetime.parse_Y (String c1 (String c2 (String c3 (String c4 r))))
  = Some (1000 * PyStr.digit_val c1 + 100 * PyStr.digit_val c2
          + 10 * PyStr.digit_val c3 + PyStr.digit_val c4, r).
Proof.
  intros D1 D2 D3 D4. unfold Datetime.parse_Y.
  rewrite (decimal_ascii_digit c1 _ D1), (decimal_ascii_digit c2 _ D2),
    (decimal_ascii_digit c3 _ D3), (decimal_ascii_digit c4 _ D4).
  reflexivity.
Qed.

Lemma format_date_tail (d : datetime) :
  _format_date d = PyStr.str (year d) ++ format_tail (month d) (day d).
Proof. reflexivity. Qed.

(** Formatting a date of a four-digit year and parsing the text gives the
    date back. *)
Lemma parse_format (d : datetime) :
  Datetime.valid d = true -> 1000 <= year d ->
  _parse_date (_format_date d) = Ok d.
Proof.
  intros V Hy.
  pose proof V as V'. apply valid_spec in V' as (Hyr & _ & _).
  pose proof (year_str (year d) ltac:(lia)) as Y.
  destruct (valid_day_range d V) as [Hm Hd].
  pose proof (tail_roundtrip _ _ Hm Hd) as T.
  rewrite format_date_tail.
  unfold year_str_ok in Y. unfold tail_roundtrip_ok in T.
  set (tail := format_tail (month d) (day d)) in *.
  destruct (PyStr.str (year d)) as [| c1 [| c2 [| c3 [| c4 [| c5 rest]]]]];
    try discriminate Y.
  apply andb_true_iff in Y as [Y Yv].
  apply andb_true_iff in Y as [Y D4].
  apply andb_true_iff in Y as [Y D3].
  apply andb_true_iff in Y as [D1 D2].
  apply Z.eqb_eq in Yv.
  apply andb_true_iff in T as [Tc T].
  cbn [append].
  unfold _parse_date.
  rewrite !contains_skip by (apply digit_not; [ assumption | reflexivity ]).
  rewrite Tc.
  rewrite !replace_skip by (apply digit_not; [ assumption | reflexivity ]).
  change (PyStr.replace "日" ""
            (PyStr.replace "月" "-"
               (PyStr.replace "年" "-" (PyStr.replace "当周" "" tail))))
    with (strip_tail tail).
  destruct (strip_tail tail) as [| sep r]; [ discriminate T | ].
  apply andb_true_iff in T as [Ts T].
  unfold Datetime.strptime_Ymd.
  rewrite (parse_Y_ascii c1 c2 c3 c4 _ D1 D2 D3 D4), Ts.
  destruct (Datetime.parse_m r) as [[m' [| sep2 r2]] |]; try discriminate T.
  apply andb_true_iff in T as [T Td].
  apply andb_true_iff in T as [Tm Ts2].
  rewrite Ts2.
  destruct (Datetime.parse_d r2) as [[d' [| ? ?]] |]; try discriminate Td.
  apply Z.eqb_eq in Tm, Td. subst m' d'. rewrite Yv.
  unfold Datetime.new.
  destruct d as [y m dd]. simpl in *. rewrite V. reflexivity.
Qed.

(** C9, as the code has it.  For every text [_parse_date] accepts whose
    year is at least 1000, formatting the parsed date and parsing the
    result gives the same date.  (A year below 1000 is written without
    leading zeros, and [strptime] wants four digits.) *)
Theorem parse_format_roundtrip (date_str : string) (d : datetime) :
  _parse_date date_str = Ok d -> 1000 <= year d ->
  _parse_date (_format_date d) = Ok d.
Proof.
  intros H Hy. apply parse_format; [ | exact Hy ].
  eapply parse_date_valid; eassumption.
Qed.

End DateCodec.

(** A date of the year 999 is accepted, formatted without a leading zero,
    and the formatted text is rejected. *)
Lemma parse_format_fails_before_year_1000 :
  _parse_date "0999年1月1日当周" = Ok (mkdate 999 1 1) /\
  _format_date (mkdate 999 1 1) = "999年1月1日当周" /\
  _parse_date (_format_date (mkdate 999 1 1)) = Raise ValueError.
Proof. repeat split; vm_compute; reflexivity. Qed.

Lemma parse_format_roundtrip_witness :
  _parse_date "2025-08-04" = Ok (mkdate 2025 8 4) /\
  _format_date (mkdate 2025 8 4) = "2025年8月4日当周" /\
  _parse_date (_format_date (mkdate 2025 8 4)) = Ok (mkdate 2025 8 4).
Proof.
  split; [ vm_compute; reflexivity | ].
  split; [ vm_compute; reflexivity | ].
  apply (parse_format_roundtrip "2025-08-04" (mkdate 2025 8 4));
    [ vm_compute; reflexivity | vm_compute; discriminate ].
Defined.


(* ------------------------------------------------------------------ *)
(** ** The theorems at concrete cases *)


Lemma timeline_sorted_by_date_stable_witness :
  generate_case_timeline (init None) case1 []
  = (Ok (case1_timeline, case1_report, review_disabled), []) /\
  exists keyed,
    case1_timeline = map entry keyed /\
    Forall (fun k => Entry.日期 (entry k) = _format_date (sort_date k)) keyed /\
    StronglySorted
      (fun a b => Datetime.le (sort_date a) (sort_date b) = true) keyed.
Proof.
  split; [ vm_compute; reflexivity | ].
  destruct (timeline_sorted_by_date_stable (init None) case1 [] []
              case1_timeline case1_report review_disabled
              ltac:(vm_compute; reflexivity))
    as (l & keyed & _ & Htl & Hfmt & Hsorted & _).
  exists keyed. auto.
Defined.

Lemma review_never_fatal_witness :
  _call_llm_for_review (init (Some failing_client)) case1_timeline case1 []
  = (Ok (review_failed "Connection error."), [case1_timeline]) /\
  fst (generate_case_timeline (init (Some failing_client)) case1 [])
  = Ok (case1_timeline,
        mkReport (Some "Case1 - 标准股改项目") case1 (案例特征 case1_report)
          (review_failed "Connection error."),
        review_failed "Connection error.").
Proof.
  destruct (review_never_fatal (init (Some failing_client)) case1_timeline
              case1 []) as (_ & H2 & _ & _ & H5 & _).
  split.
  - exact (H2 failing_client "Connection error." eq_refl eq_refl).
  - edestruct (H5 (Some failing_client)) as (rv & log' & E);
      [ vm_compute; reflexivity | ].
    change (with_client (init (Some failing_client)) (Some failing_client))
      with (init (Some failing_client)) in E.
    rewrite E. vm_compute in E. injection E as <- _. reflexivity.
Defined.

Lemma readiness_level_classification_witness :
  _determine_ipo_readiness_level
    ["核心中介机构已选聘"; "初步的财务梳理/预审"; "公司治理结构初步规范"]
  = "高准备度".
Proof.
  apply (proj1 (proj2 (readiness_level_classification
                         ["核心中介机构已选聘"; "初步的财务梳理/预审";
                          "公司治理结构初步规范"]))).
  - simpl. intros [H | [H | [H | []]]]; discriminate H.
  - simpl. lia.
Defined.

(* ------------------------------------------------------------------ *)
(** ** When generation returns *)

Section Totality.

Lemma weeks_in_range (a b : float) (offset : Z) :
  In a [0.85; 1.0; 1.15]%float -> In b [0.9; 1.0; 1.2]%float ->
  In offset [0; 2; 23; 10] ->
  weeks_ok (a * b) offset = true.
Proof.
  simpl.
  intros [<- | [<- | [<- | []]]] [<- | [<- | [<- | []]]]
    [<- | [<- | [<- | [<- | []]]]];
    vm_compute; reflexivity.
Qed.

Lemma getitem_In_keys {V : Type} (d : dict V) (k : string) (v : V) :
  getitem d k = Ok v -> In k (keys d).
Proof.
  unfold getitem. induction d as [| [k' v'] d IH]; simpl; [ discriminate | ].
  destruct (String.eqb_spec k' k) as [-> | _]; [ auto | ].
  intros H. right. apply IH. exact H.
Qed.

Lemma collect_tasks_default (client : option LLMClient) (key : string)
  (sr : Rules.structure) :
  getitem (Rules.company_structure _load_variation_rules) key = Ok sr ->
  exists tasks,
    collect_tasks (init client) sr = Ok tasks /\
    Forall (fun t => In (Task.周偏移 t) [0; 2; 23; 10]) tasks.
Proof.
  intros H. pose proof (getitem_In_keys _ _ _ H) as K.
  simpl in K. destruct K as [<- | [<- | [<- | [<- | []]]]];
    vm_compute in H; injection H as <-;
    (eexists; split;
     [ reflexivity
     | repeat (apply Forall_cons; [ simpl; auto 6 | ]); apply Forall_nil ]).
Qed.

Lemma timeline_entry_total (start sp b c a : datetime) (tf : float)
  (t : Task.t) :
  Datetime.valid start = true ->
  Datetime.toordinal start + 7 * 31 <= Datetime._MAXORDINAL ->
  weeks_ok tf (Task.周偏移 t) = true ->
  exists k, timeline_entry start sp b c a tf t = Ok k.
Proof.
  intros V R W. unfold timeline_entry. unfold weeks_ok in W.
  destruct (PyFloat.int_mul _ tf) as [scaled |]; [ | discriminate W ].
  cbn [rbind].
  destruct (PyFloat.to_int scaled) as [weeks |]; [ | discriminate W ].
  cbn [rbind]. cbv zeta.
  apply andb_true_iff in W as [W0 W1].
  apply Z.leb_le in W0, W1.
  pose proof (toordinal_bounds _ V) as B.
  unfold Datetime.add_weeks. cbv zeta.
  destruct (Z.ltb_spec 999999999 (Z.abs (7 * Z.max 0 weeks))); [ lia | ].
  destruct (Z.ltb_spec 0 (Datetime.toordinal start + 7 * Z.max 0 weeks));
    [ | lia ].
  destruct (Z.leb_spec (Datetime.toordinal start + 7 * Z.max 0 weeks)
              Datetime._MAXORDINAL); [ | lia ].
  cbn [andb rbind]. eauto.
Qed.

Lemma for_each_total {A B : Type} (body : A -> result B) (l : list A) :
  Forall (fun x => exists y, body x = Ok y) l ->
  exists out, for_each body l = Ok out.
Proof.
  induction 1 as [| x l (y & Hy) _ (ys & IH)]; simpl.
  - eauto.
  - rewrite Hy, IH. simpl. eauto.
Qed.

(** X1. With the tables of the source, generation returns whenever the five
    dates parse, the categorical values are keys of the rules, and the
    project start date leaves 31 weeks before the end of the year 9999. *)
Theorem generation_succeeds (client : option LLMClient) (p : Params.t)
  (log : CallLog) (start sponsor base completion a1 : datetime) :
  param_date "project_start_date" (Params.project_start_date p) = Ok start ->
  param_date "sponsor_agreement_date" (Params.sponsor_agreement_date p)
  = Ok sponsor ->
  param_date "equity_reform_base_date" (Params.equity_reform_base_date p)
  = Ok base ->
  param_date "equity_reform_completion_date"
    (Params.equity_reform_completion_date p) = Ok completion ->
  param_date "a1_submission_date" (Params.a1_submission_date p) = Ok a1 ->
  legal_params (init client) p ->
  Datetime.toordinal start + 7 * 31 <= Datetime._MAXORDINAL ->
  exists tl rep rv log',
    generate_case_timeline (init client) p log = (Ok (tl, rep, rv), log').
Proof.
  intros D1 D2 D3 D4 D5 (Ls & Lp & Lf) R.
  destruct (structure_rule_of _ Ls) as (sr & Gs & _).
  destruct (pace_rule_of _ Lp) as (pr & Gp & Ip).
  destruct (financial_rule_of _ Lf) as (fr & Gf & _).
  destruct (readiness_rule_of (Params.get (Params.ipo_readiness p) []))
    as (rr & Gr & Ir).
  destruct (collect_tasks_default client _ _ Gs) as (tasks & Ht & Hoff).
  pose proof (param_date_valid _ _ _ D1) as V.
  destruct (for_each_total
              (timeline_entry start sponsor base completion a1
                 (Rules.time_compression pr * Rules.preparation_factor rr))
              tasks) as (keyed & Hk).
  { eapply Forall_impl; [ | exact Hoff ].
    intros t Hin. apply timeline_entry_total; try assumption.
    apply weeks_in_range; assumption. }
  assert (P : exists l, project_timeline (init client) p = Ok l).
  { unfold project_timeline. rewrite D1, D2, D3, D4, D5. cbn [rbind]. cbv zeta.
    simpl variation_rules. rewrite Gs, Gp, Gf. cbn [rbind].
    rewrite Gr. cbn [rbind]. rewrite Ht. cbn [rbind]. rewrite Hk.
    cbn [rbind]. eauto. }
  destruct P as (l & Hl).
  destruct (review_returns (init client)
              (map entry
                 (PyList.sort Datetime.lt sort_date (Locals.timeline l)))
              p log) as (rv & calls & E & _).
  do 4 eexists.
  apply (generate_ok_intro (init client) p log _ l rv Hl E).
Qed.

End Totality.

(** Past the end of the calendar the date arithmetic raises: a start date
    in December 9999 parses, and the case fails with [OverflowError]. *)
Lemma generation_overflows_at_calendar_end :
  param_date "project_start_date" (Params.project_start_date late_start_case)
  = Ok (mkdate 9999 12 1) /\
  generate_case_timeline (init None) late_start_case []
  = (Raise OverflowError, []).
Proof. split; vm_compute; reflexivity. Qed.

Lemma generation_succeeds_witness :
  exists tl rep rv log',
    generate_case_timeline (init None) case1 [] = (Ok (tl, rep, rv), log').
Proof.
  apply (generation_succeeds None case1 [] (mkdate 2025 8 4) (mkdate 2025 8 18)
           (mkdate 2025 8 18) (mkdate 2025 10 13) (mkdate 2026 1 12));
    try (vm_compute; reflexivity).
  - unfold legal_params; simpl; auto 10.
  - vm_compute. discriminate.
Defined.

(* ================================================================== *)
(** * Further properties of the generator *)

(* ------------------------------------------------------------------ *)
(** ** More on the calendar *)

Section CalendarMore.

Lemma date_lt_total (a b : datetime) :
  Datetime.lt a b = false -> Datetime.lt b a = false -> a = b.
Proof.
  intros H1 H2.
  assert (N1 : negb (Datetime.lt a b) = true) by (rewrite H1; reflexivity).
  assert (N2 : negb (Datetime.lt b a) = true) by (rewrite H2; reflexivity).
  apply date_lt_false in N1, N2.
  destruct a as [ya ma da], b as [yb mb db]. simpl in *.
  f_equal; lia.
Qed.

Lemma toordinal_inj (a b : datetime) :
  Datetime.valid a = true -> Datetime.valid b = true ->
  Datetime.toordinal a = Datetime.toordinal b -> a = b.
Proof.
  intros Va Vb E. apply date_lt_total.
  - destruct (Datetime.lt a b) eqn:L; [ | reflexivity ].
    apply toordinal_lt in L; auto. lia.
  - destruct (Datetime.lt b a) eqn:L; [ | reflexivity ].
    apply toordinal_lt in L; auto. lia.
Qed.

Lemma ord2ymd_toordinal (d : datetime) :
  Datetime.valid d = true -> Datetime._ord2ymd (Datetime.toordinal d) = d.
Proof.
  intros V. pose proof (toordinal_bounds d V) as B.
  destruct (ord2ymd_spec _ B) as [V' T].
  apply toordinal_inj; assumption.
Qed.

Lemma add_weeks_in_range (d : datetime) (w : Z) :
  Datetime.valid d = true -> 0 <= w ->
  Datetime.toordinal d + 7 * w <= Datetime._MAXORDINAL ->
  Datetime.add_weeks d w
  = Ok (Datetime._ord2ymd (Datetime.toordinal d + 7 * w)).
Proof.
  intros V Hw R. pose proof (toordinal_bounds d V) as B.
  unfold Datetime.add_weeks. cbv zeta.
  unfold Datetime._MAXORDINAL in *.
  destruct (Z.ltb_spec 999999999 (Z.abs (7 * w))); [ lia | ].
  destruct (Z.ltb_spec 0 (Datetime.toordinal d + 7 * w)); [ | lia ].
  destruct (Z.leb_spec (Datetime.toordinal d + 7 * w) 3652059); [ | lia ].
  reflexivity.
Qed.

Lemma add_weeks_overflow (d : datetime) (w : Z) :
  Datetime._MAXORDINAL < Datetime.toordinal d + 7 * w ->
  Datetime.add_weeks d w = Raise OverflowError.
Proof.
  intros R. unfold Datetime.add_weeks. cbv zeta.
  destruct (999999999 <? Z.abs (7 * w)); [ reflexivity | ].
  destruct (Z.leb_spec (Datetime.toordinal d + 7 * w) Datetime._MAXORDINAL);
    [ lia | ].
  rewrite andb_false_r. reflexivity.
Qed.

Lemma add_weeks_zero (d : datetime) :
  Datetime.valid d = true -> Datetime.add_weeks d 0 = Ok d.
Proof.
  intros V. pose proof (toordinal_bounds d V) as B.
  rewrite add_weeks_in_range by (try assumption; lia).
  replace (Datetime.toordinal d + 7 * 0) with (Datetime.toordinal d) by lia.
  rewrite ord2ymd_toordinal by assumption. reflexivity.
Qed.

Lemma add_weeks_outcome (d : datetime) (w : Z) :
  Datetime.valid d = true -> 0 <= w ->
  (exists r, Datetime.add_weeks d w = Ok r) \/
  Datetime.add_weeks d w = Raise OverflowError.
Proof.
  intros V Hw.
  destruct (Z.le_gt_cases (Datetime.toordinal d + 7 * w) Datetime._MAXORDINAL).
  - left. rewrite add_weeks_in_range by assumption. eauto.
  - right. apply add_weeks_overflow. assumption.
Qed.

End CalendarMore.

(* ------------------------------------------------------------------ *)
(** ** The projection with the tables of the source *)

Section Shipped.

Lemma shipped_factors (a b : float) :
  In a [0.85; 1.0; 1.15]%float -> In b [0.9; 1.0; 1.2]%float ->
  kickoff_weeks_ok (a * b) = true /\ filing_weeks_ok (a * b) = true.
Proof.
  simpl. intros [<- | [<- | [<- | []]]] [<- | [<- | [<- | []]]];
    split; vm_compute; reflexivity.
Qed.

Lemma shipped_collect_tasks (client : option LLMClient) (key : string)
  (sr : Rules.structure) :
  getitem (Rules.company_structure _load_variation_rules) key = Ok sr ->
  collect_tasks (init client) sr
  = Ok (shipped_tasks (String.eqb key "境内有限责任公司 (需股改)")).
Proof.
  intros H. pose proof (getitem_In_keys _ _ _ H) as K.
  simpl in K. destruct K as [<- | [<- | [<- | [<- | []]]]];
    vm_compute in H; injection H as <-; reflexivity.
Qed.

(** With the tables of the source, legal categorical values and five dates
    that parse, the projection ends as its loop over the tasks ends. *)
Lemma shipped_projection (client : option LLMClient) (p : Params.t)
  (start sponsor base completion a1 : datetime) :
  date_params p = [Ok start; Ok sponsor; Ok base; Ok completion; Ok a1] ->
  legal_params (init client) p ->
  exists a b,
    In a [0.85; 1.0; 1.15]%float /\ In b [0.9; 1.0; 1.2]%float /\
    match project_timeline (init client) p with
    | Ok l =>
        for_each (timeline_entry start sponsor base completion a1 (a * b))
          (shipped_tasks (needs_equity_reform p))
        = Ok (Locals.timeline l)
    | Raise e =>
        for_each (timeline_entry start sponsor base completion a1 (a * b))
          (shipped_tasks (needs_equity_reform p))
        = Raise e
    end.
Proof.
  unfold date_params. intros D (Ls & Lp & Lf).
  injection D as D1 D2 D3 D4 D5.
  destruct (structure_rule_of _ Ls) as (sr & Gs & _).
  destruct (pace_rule_of _ Lp) as (pr & Gp & Ip).
  destruct (financial_rule_of _ Lf) as (fr & Gf & _).
  destruct (readiness_rule_of (Params.get (Params.ipo_readiness p) []))
    as (rr & Gr & Ir).
  pose proof (shipped_collect_tasks client _ _ Gs) as Ht.
  fold (needs_equity_reform p) in Ht.
  exists (Rules.time_compression pr), (Rules.preparation_factor rr).
  split; [ exact Ip | ]. split; [ exact Ir | ].
  unfold project_timeline. rewrite D1, D2, D3, D4, D5. cbn [rbind]. cbv zeta.
  simpl variation_rules. rewrite Gs, Gp, Gf. cbn [rbind].
  rewrite Gr. cbn [rbind]. rewrite Ht. cbn [rbind].
  destruct (for_each _ _); reflexivity.
Qed.

Lemma for_each_app {A B : Type} (body : A -> result B) (l1 l2 : list A) :
  for_each body (l1 ++ l2)%list
  = rbind (for_each body l1)
      (fun o1 => rbind (for_each body l2) (fun o2 => Ok (o1 ++ o2)%list)).
Proof.
  induction l1 as [| x l1 IH]; simpl.
  - destruct (for_each body l2); reflexivity.
  - destruct (body x); simpl; [ | reflexivity ].
    rewrite IH. destruct (for_each body l1); simpl; [ | reflexivity ].
    destruct (for_each body l2); reflexivity.
Qed.

(** The loop body on a task of the source's catalog. *)
Lemma shipped_entry_milestone (start sp b c a : datetime) (tf : float)
  (t : Task.t) (k : Keyed) (prefix : string) (anchor : datetime) :
  timeline_entry start sp b c a tf t = Ok k ->
  In (prefix, anchor)
    [ ("定稿保荐人", sp); ("作出确定股改基准日", b); ("完成股改工作", c);
      ("向联交所递交A1申请", a) ] ->
  PyStr.startswith (Task.任务 t) prefix = true ->
  k = dated anchor (Task.工作条线 t) (Task.任务 t) (Task.牵头方 t).
Proof.
  intros H Hin Hp.
  set (l := Locals.mk start sp b c a "" "" "" [] [] ""
              {| Rules.add_modules := []; Rules.complexity_modifier := 0 |}
              {| Rules.time_compression := 0; Rules.risk_level := "" |}
              {| Rules.audit_complexity := 0 |} ""
              {| Rules.preparation_factor := 0 |} 0%float 0%float [] []).
  pose proof (timeline_entry_milestone l tf t k prefix anchor H Hin Hp) as D.
  apply timeline_entry_inv in H as (_ & _ & _ & _ & _ & _ & _ & E).
  destruct k as [e d]. simpl in *. subst. reflexivity.
Qed.

Lemma shipped_entry_kickoff (start sp b c a : datetime) (tf : float)
  (t : Task.t) (k : Keyed) :
  Datetime.valid start = true ->
  kickoff_weeks_ok tf = true ->
  Task.周偏移 t = 0 -> is_milestone (Task.任务 t) = false ->
  timeline_entry start sp b c a tf t = Ok k ->
  k = dated start (Task.工作条线 t) (Task.任务 t) (Task.牵头方 t).
Proof.
  intros V W Hoff Hm H. pose proof H as H'.
  apply timeline_entry_inv in H' as (_ & _ & _ & _ & _ & _ & _ & E).
  apply timeline_entry_ordinary in H as (scaled & weeks & Hs & Hw & Hd);
    [ | exact Hm ].
  unfold kickoff_weeks_ok in W. rewrite Hoff in Hs. rewrite Hs, Hw in W.
  apply Z.eqb_eq in W. subst weeks.
  change (Z.max 0 0) with 0 in Hd. rewrite add_weeks_zero in Hd by exact V.
  injection Hd as Hd. destruct k as [e d]. simpl in *. subst. reflexivity.
Qed.

Lemma shipped_loop (start sp b c a : datetime) (tf : float) (equity : bool)
  (out : list Keyed) :
  Datetime.valid start = true ->
  kickoff_weeks_ok tf = true ->
  for_each (timeline_entry start sp b c a tf) (shipped_tasks equity) = Ok out ->
  out = shipped_entries start sp b c a equity.
Proof.
  intros V W H. apply for_each_ok in H.
  unfold shipped_tasks, shipped_entries in *.
  assert (M : forall t k prefix anchor,
             timeline_entry start sp b c a tf t = Ok k ->
             In (prefix, anchor)
               [ ("定稿保荐人", sp); ("作出确定股改基准日", b);
                 ("完成股改工作", c); ("向联交所递交A1申请", a) ] ->
             PyStr.startswith (Task.任务 t) prefix = true ->
             k = dated anchor (Task.工作条线 t) (Task.任务 t) (Task.牵头方 t))
    by (intros; eapply shipped_entry_milestone; eassumption).
  destruct equity; cbn [app] in H |- *;
    repeat match goal with
      | F : Forall2 _ (_ :: _) _ |- _ =>
          inversion F as [| ? ? ? ? ?Hk ?F']; subst; clear F
      | F : Forall2 _ [] _ |- _ => inversion F; subst; clear F
      end.
  all: repeat match goal with
         | Hk : timeline_entry _ _ _ _ _ _ _ = Ok ?k |- _ =>
             first
               [ apply shipped_entry_kickoff in Hk;
                 [ | exact V | exact W | reflexivity | reflexivity ]
               | apply (M _ _ "定稿保荐人" sp) in Hk;
                 [ | simpl; auto 6 | reflexivity ]
               | apply (M _ _ "作出确定股改基准日" b) in Hk;
                 [ | simpl; auto 6 | reflexivity ]
               | apply (M _ _ "完成股改工作" c) in Hk;
                 [ | simpl; auto 6 | reflexivity ]
               | apply (M _ _ "向联交所递交A1申请" a) in Hk;
                 [ | simpl; auto 6 | reflexivity ] ];
             subst k
         end.
  all: reflexivity.
Qed.

End Shipped.

(* ------------------------------------------------------------------ *)
(** ** The outcome of a generation *)

Section Outcome.

Lemma generate_raises (self : Generator) (p : Params.t) (log : CallLog)
  (e : exn) :
  project_timeline self p = Raise e ->
  generate_case_timeline self p log = (Raise e, log).
Proof.
  intros H. unfold generate_case_timeline, bind, lift. rewrite H. reflexivity.
Qed.

Lemma generate_returns (self : Generator) (p : Params.t) (log : CallLog)
  (l : Locals.t) :
  project_timeline self p = Ok l ->
  exists rv calls,
    generate_case_timeline self p log
    = (Ok (map entry (PyList.sort Datetime.lt sort_date (Locals.timeline l)),
           mkReport (Params.case_name p) p
             (characteristics l
                (map entry
                   (PyList.sort Datetime.lt sort_date (Locals.timeline l))))
             rv,
           rv), (log ++ calls)%list) /\
    _call_llm_for_review self
      (map entry (PyList.sort Datetime.lt sort_date (Locals.timeline l))) p log
    = (Ok rv, (log ++ calls)%list) /\
    (llm_client self = None -> calls = [] /\ rv = review_disabled) /\
    (forall c, llm_client self = Some c ->
       calls = [map entry
                  (PyList.sort Datetime.lt sort_date (Locals.timeline l))]).
Proof.
  intros Hl.
  set (tl := map entry (PyList.sort Datetime.lt sort_date (Locals.timeline l))).
  assert (R : exists rv calls,
             _call_llm_for_review self tl p log = (Ok rv, (log ++ calls)%list) /\
             (llm_client self = None -> calls = [] /\ rv = review_disabled) /\
             (forall c, llm_client self = Some c -> calls = [tl])).
  { unfold _call_llm_for_review, ret.
    destruct (llm_client self) as [c |].
    - destruct (review_request c tl);
        (do 2 eexists; split; [ reflexivity | ];
         split; [ discriminate | reflexivity ]).
    - exists review_disabled, []. rewrite app_nil_r.
      split; [ reflexivity | ]. split; [ auto | discriminate ]. }
  destruct R as (rv & calls & R & N & S).
  exists rv, calls. split; [ | auto ].
  apply (generate_ok_intro self p log _ l rv Hl R).
Qed.

Lemma for_each_outcome {A B : Type} (body : A -> result B) (l : list A)
  (e : exn) :
  Forall (fun x => (exists y, body x = Ok y) \/ body x = Raise e) l ->
  (exists out, for_each body l = Ok out) \/ for_each body l = Raise e.
Proof.
  induction 1 as [| x l [(y & Hy) | Hx] _ [(ys & IH) | IH]]; simpl.
  - eauto.
  - rewrite Hy, IH. simpl. eauto.
  - rewrite Hy, IH. simpl. auto.
  - rewrite Hx. auto.
  - rewrite Hx. auto.
Qed.

Lemma entry_outcome (start sp b c a : datetime) (tf : float) (t : Task.t) :
  Datetime.valid start = true ->
  weeks_ok tf (Task.周偏移 t) = true ->
  (exists k, timeline_entry start sp b c a tf t = Ok k) \/
  timeline_entry start sp b c a tf t = Raise OverflowError.
Proof.
  intros V W. unfold timeline_entry. unfold weeks_ok in W.
  destruct (PyFloat.int_mul _ tf) as [scaled |]; [ | discriminate W ].
  cbn [rbind].
  destruct (PyFloat.to_int scaled) as [weeks |]; [ | discriminate W ].
  cbn [rbind]. cbv zeta.
  destruct (add_weeks_outcome start (Z.max 0 weeks) V (Z.le_max_l 0 weeks))
    as [(r & ->) | ->]; cbn [rbind]; eauto.
Qed.

Lemma filing_overflows (start sp b c a : datetime) (tf : float) (t : Task.t) :
  filing_weeks_ok tf = true -> Task.周偏移 t = 23 ->
  Datetime._MAXORDINAL < Datetime.toordinal start + 7 * 17 ->
  timeline_entry start sp b c a tf t = Raise OverflowError.
Proof.
  intros W Hoff R. unfold timeline_entry. unfold filing_weeks_ok in W.
  rewrite Hoff.
  destruct (PyFloat.int_mul 23 tf) as [scaled |]; [ | discriminate W ].
  cbn [rbind].
  destruct (PyFloat.to_int scaled) as [weeks |]; [ | discriminate W ].
  cbn [rbind]. cbv zeta. apply Z.leb_le in W.
  rewrite add_weeks_overflow by lia. reflexivity.
Qed.

Lemma shipped_loop_outcome (start sp b c a : datetime) (x y : float)
  (equity : bool) :
  Datetime.valid start = true ->
  In x [0.85; 1.0; 1.15]%float -> In y [0.9; 1.0; 1.2]%float ->
  (exists out,
     for_each (timeline_entry start sp b c a (x * y)) (shipped_tasks equity)
     = Ok out) \/
  for_each (timeline_entry start sp b c a (x * y)) (shipped_tasks equity)
  = Raise OverflowError.
Proof.
  intros V Hx Hy. apply for_each_outcome.
  assert (O : forall t, In (Task.周偏移 t) [0; 2; 23; 10] ->
                (exists k, timeline_entry start sp b c a (x * y) t = Ok k) \/
                timeline_entry start sp b c a (x * y) t = Raise OverflowError).
  { intros t Ht. apply entry_outcome; [ exact V | ].
    apply weeks_in_range; assumption. }
  unfold shipped_tasks. destruct equity; cbn [app];
    repeat (apply Forall_cons; [ apply O; simpl; auto 6 | ]);
    apply Forall_nil.
Qed.

Lemma shipped_loop_overflow (start sp b c a : datetime) (x y : float)
  (equity : bool) :
  Datetime.valid start = true ->
  In x [0.85; 1.0; 1.15]%float -> In y [0.9; 1.0; 1.2]%float ->
  Datetime._MAXORDINAL < Datetime.toordinal start + 7 * 17 ->
  for_each (timeline_entry start sp b c a (x * y)) (shipped_tasks equity)
  = Raise OverflowError.
Proof.
  intros V Hx Hy R.
  destruct (shipped_factors x y Hx Hy) as [_ F].
  assert (O : forall t, In (Task.周偏移 t) [0; 2; 23; 10] ->
                (exists k, timeline_entry start sp b c a (x * y) t = Ok k) \/
                timeline_entry start sp b c a (x * y) t = Raise OverflowError).
  { intros t Ht. apply entry_outcome; [ exact V | ].
    apply weeks_in_range; assumption. }
  unfold shipped_tasks. cbn [app for_each].
  destruct (O (Task.mk "项目管理" "召开项目启动会" "全体" 0) ltac:(simpl; auto))
    as [(k1 & ->) | ->]; [ cbn [rbind] | reflexivity ].
  destruct (O (Task.mk "境内外监管审批"
                 "定稿保荐人及整体协调人委任函并呈交联交所" "保荐人" 2)
              ltac:(simpl; auto))
    as [(k2 & ->) | ->]; [ cbn [rbind] | reflexivity ].
  rewrite (filing_overflows start sp b c a (x * y)
             (Task.mk "境内外监管审批" "向联交所递交A1申请" "各方" 23)
             F eq_refl R).
  reflexivity.
Qed.

Lemma projected_legal (client : option LLMClient) (p : Params.t)
  (l : Locals.t) :
  project_timeline (init client) p = Ok l ->
  legal_params (init client) p /\
  date_params p
  = [ Ok (Locals.project_start_date l); Ok (Locals.sponsor_agreement_date l);
      Ok (Locals.equity_base_date l); Ok (Locals.equity_completion_date l);
      Ok (Locals.a1_date l) ].
Proof.
  intros H. apply project_timeline_inv in H. split.
  - unfold legal_params.
    rewrite <- (proj_company_structure _ _ _ H),
      <- (proj_project_pace _ _ _ H), <- (proj_a1_financials _ _ _ H).
    repeat split; eapply getitem_In_keys.
    + apply (proj_structure_rules _ _ _ H).
    + apply (proj_pace_rules _ _ _ H).
    + apply (proj_financial_rules _ _ _ H).
  - unfold date_params.
    rewrite (proj_start _ _ _ H), (proj_sponsor _ _ _ H),
      (proj_base _ _ _ H), (proj_completion _ _ _ H), (proj_a1 _ _ _ H).
    reflexivity.
Qed.

End Outcome.

(* ------------------------------------------------------------------ *)
(** ** Milestone tasks *)

Section Milestones.

(** The loop body first computes the candidate date; when that is there, it
    returns an entry. *)
Lemma timeline_entry_of_candidate (s sp b c a : datetime) (tf : float)
  (t : Task.t) :
  is_ok (candidate_date s tf t) = true ->
  exists k, timeline_entry s sp b c a tf t = Ok k.
Proof.
  unfold candidate_date, timeline_entry.
  destruct (PyFloat.int_mul _ tf) as [scaled |]; [ | discriminate ].
  cbn [rbind].
  destruct (PyFloat.to_int scaled) as [weeks |]; [ | discriminate ].
  cbn [rbind]. cbv zeta.
  destruct (Datetime.add_weeks s (Z.max 0 weeks)) as [date |];
    [ | discriminate ].
  cbn [rbind]. eauto.
Qed.

(** When the dates parse, the rules are found and the loop returns, the
    projection returns locals that hold them. *)
Lemma projection_of_parts (self : Generator) (p : Params.t)
  (start sponsor base completion a1 : datetime)
  (structure_rules : Rules.structure) (pace_rules : Rules.pace)
  (financial_rules : Rules.financials) (readiness_rules : Rules.readiness)
  (tasks : list Task.t) (keyed : list Keyed) :
  date_params p = [Ok start; Ok sponsor; Ok base; Ok completion; Ok a1] ->
  getitem (Rules.company_structure (variation_rules self))
    (Params.get (Params.current_structure p) "境内有限责任公司 (需股改)")
  = Ok structure_rules ->
  getitem (Rules.project_pace (variation_rules self))
    (Params.get (Params.project_pace p) "标准节奏 (Standard)")
  = Ok pace_rules ->
  getitem (Rules.a1_filing_financials (variation_rules self))
    (Params.get (Params.a1_filing_financials p) "最近三个完整财年")
  = Ok financial_rules ->
  getitem (Rules.ipo_readiness (variation_rules self))
    (_determine_ipo_readiness_level (Params.get (Params.ipo_readiness p) []))
  = Ok readiness_rules ->
  collect_tasks self structure_rules = Ok tasks ->
  for_each
    (timeline_entry start sponsor base completion a1
       (Rules.time_compression pace_rules
        * Rules.preparation_factor readiness_rules))
    tasks = Ok keyed ->
  exists l,
    project_timeline self p = Ok l /\
    Locals.project_start_date l = start /\
    Locals.sponsor_agreement_date l = sponsor /\
    Locals.equity_base_date l = base /\
    Locals.equity_completion_date l = completion /\
    Locals.a1_date l = a1 /\
    Locals.time_factor l
    = (Rules.time_compression pace_rules
       * Rules.preparation_factor readiness_rules)%float /\
    Locals.complexity_factor l
    = (Rules.complexity_modifier structure_rules
       * Rules.audit_complexity financial_rules)%float /\
    Locals.tasks l = tasks /\
    Locals.timeline l = keyed.
Proof.
  unfold date_params. intros D Gs Gp Gf Gr Ht Hk.
  injection D as D1 D2 D3 D4 D5.
  eexists. split.
  - unfold project_timeline. rewrite D1, D2, D3, D4, D5. cbn [rbind]. cbv zeta.
    rewrite Gs, Gp, Gf. cbn [rbind]. rewrite Gr. cbn [rbind].
    rewrite Ht. cbn [rbind]. rewrite Hk. cbn [rbind]. reflexivity.
  - simpl. repeat split; reflexivity.
Qed.

(** C1, as the code has it.  When the five dates parse, the four rules are
    found, the working list is collected and the candidate date of each of
    its tasks can be computed, generation returns, and each of the four
    milestone prefixes is bound to its anchor date: every task of the
    working list whose name starts with the prefix is in the returned
    timeline with exactly that anchor date (formatted), and every returned
    entry with that prefix carries it.  For any time factor at all, the
    loop body on such a task returns the entry dated by the anchor as soon
    as the candidate date exists, whatever that candidate is. *)
Theorem milestone_tasks_take_anchor_dates
  (self : Generator) (p : Params.t) (log : CallLog)
  (start sponsor base completion a1 : datetime)
  (structure_rules : Rules.structure) (pace_rules : Rules.pace)
  (financial_rules : Rules.financials) (readiness_rules : Rules.readiness)
  (tasks : list Task.t) :
  date_params p = [Ok start; Ok sponsor; Ok base; Ok completion; Ok a1] ->
  getitem (Rules.company_structure (variation_rules self))
    (Params.get (Params.current_structure p) "境内有限责任公司 (需股改)")
  = Ok structure_rules ->
  getitem (Rules.project_pace (variation_rules self))
    (Params.get (Params.project_pace p) "标准节奏 (Standard)")
  = Ok pace_rules ->
  getitem (Rules.a1_filing_financials (variation_rules self))
    (Params.get (Params.a1_filing_financials p) "最近三个完整财年")
  = Ok financial_rules ->
  getitem (Rules.ipo_readiness (variation_rules self))
    (_determine_ipo_readiness_level (Params.get (Params.ipo_readiness p) []))
  = Ok readiness_rules ->
  collect_tasks self structure_rules = Ok tasks ->
  Forall
    (fun t =>
       is_ok
         (candidate_date start
            (Rules.time_compression pace_rules
             * Rules.preparation_factor readiness_rules) t) = true)
    tasks ->
  exists tl rep rv log',
    generate_case_timeline self p log = (Ok (tl, rep, rv), log') /\
    forall prefix anchor,
      In (prefix, anchor)
        [ ("定稿保荐人", sponsor); ("作出确定股改基准日", base);
          ("完成股改工作", completion); ("向联交所递交A1申请", a1) ] ->
      (forall t, In t tasks ->
         PyStr.startswith (Task.任务 t) prefix = true ->
         In (Entry.mk (_format_date anchor) (Task.工作条线 t) (Task.任务 t)
               (Task.牵头方 t)) tl) /\
      (forall e, In e tl ->
         PyStr.startswith (Entry.主要任务 e) prefix = true ->
         Entry.日期 e = _format_date anchor) /\
      (forall time_factor t,
         PyStr.startswith (Task.任务 t) prefix = true ->
         is_ok (candidate_date start time_factor t) = true ->
         timeline_entry start sponsor base completion a1 time_factor t
         = Ok (dated anchor (Task.工作条线 t) (Task.任务 t) (Task.牵头方 t))).
Proof.
  intros D Gs Gp Gf Gr Ht Hc.
  destruct (for_each_total
              (timeline_entry start sponsor base completion a1
                 (Rules.time_compression pace_rules
                  * Rules.preparation_factor readiness_rules))
              tasks) as (keyed & Hk).
  { eapply Forall_impl; [ | exact Hc ].
    intros t C. apply timeline_entry_of_candidate. exact C. }
  destruct (projection_of_parts self p _ _ _ _ _ _ _ _ _ _ _
              D Gs Gp Gf Gr Ht Hk)
    as (l & Hl & Es & Esp & Eb & Ec & Ea & _ & _ & Et & _).
  destruct (generate_returns self p log l Hl) as (rv & calls & E & _).
  do 4 eexists. split; [ exact E | ].
  intros prefix anchor Hin.
  assert (Hin' : In (prefix, anchor) (milestones l))
    by (unfold milestones; rewrite Esp, Eb, Ec, Ea; exact Hin).
  destruct (timeline_entries _ _ _ _ Hl eq_refl) as [Back Forth].
  rewrite Et in Back, Forth.
  repeat split.
  - intros t Hin_t Hp. destruct (Forth t Hin_t) as (k & Hk' & Hin_k).
    pose proof (timeline_entry_milestone _ _ _ _ _ _ Hk' Hin' Hp) as Dk.
    apply timeline_entry_inv in Hk' as (_ & _ & _ & _ & _ & _ & _ & Ek).
    rewrite Ek, Dk in Hin_k. exact Hin_k.
  - intros e He Hp. destruct (Back e He) as (t & k & Hin_t & Hk' & ->).
    pose proof Hk' as Hk''.
    apply timeline_entry_inv in Hk'' as (_ & _ & _ & _ & _ & _ & _ & Ek).
    rewrite Ek in Hp |- *. simpl in Hp |- *.
    rewrite (timeline_entry_milestone _ _ _ _ _ _ Hk' Hin' Hp). reflexivity.
  - intros tf t Hp C.
    destruct (timeline_entry_of_candidate start sponsor base completion a1
                tf t C) as (k & Hk').
    rewrite Hk'. f_equal.
    exact (shipped_entry_milestone _ _ _ _ _ _ _ _ _ _ Hk' Hin Hp).
Qed.

End Milestones.

(** Seventeen weeks before the last day of the year 9999 the same dates,
    structure and scope give a timeline with every anchor date at the
    fastest pace and the highest readiness, and [OverflowError] at the
    standard pace: there the candidate date of the first filing, 23 weeks
    after the start, is past the calendar, although the anchor date would
    have replaced it. *)
Lemma anchor_dates_need_a_candidate_date :
  date_params last_weeks_case
  = [ Ok (mkdate 9999 9 3); Ok (mkdate 9999 9 17); Ok (mkdate 9999 9 17);
      Ok (mkdate 9999 11 12); Ok (mkdate 9999 12 29) ] /\
  date_params last_weeks_fast_case = date_params last_weeks_case /\
  legal_params (init None) last_weeks_case /\
  legal_params (init None) last_weeks_fast_case /\
  generate_case_timeline (init None) last_weeks_case []
  = (Raise OverflowError, []) /\
  (exists rep rv,
     generate_case_timeline (init None) last_weeks_fast_case []
     = (Ok (last_weeks_timeline, rep, rv), [])) /\
  In (Entry.mk "9999年12月29日当周" "境内外监管审批" "向联交所递交A1申请" "各方")
    last_weeks_timeline.
Proof.
  split; [ vm_compute; reflexivity | ].
  split; [ vm_compute; reflexivity | ].
  split; [ unfold legal_params; simpl; auto 10 | ].
  split; [ unfold legal_params; simpl; auto 10 | ].
  split; [ vm_compute; reflexivity | ].
  split; [ do 2 eexists; vm_compute; reflexivity | simpl; auto 10 ].
Qed.

Lemma milestone_tasks_take_anchor_dates_witness :
  candidate_date (mkdate 2025 8 4) (0.85 * 0.9)
    (Task.mk "境内外监管审批" "向联交所递交A1申请" "各方" 23)
  = Ok (mkdate 2025 12 1) /\
  exists tl rep rv log',
    generate_case_timeline (init None) off_schedule_case []
    = (Ok (tl, rep, rv), log') /\
    In (Entry.mk "2026年6月29日当周" "境内外监管审批" "向联交所递交A1申请" "各方")
      tl /\
    In (Entry.mk "2025年7月7日当周" "股改" "作出确定股改基准日、股权激励等决议"
          "公司、公司境内律师") tl.
Proof.
  split; [ vm_compute; reflexivity | ].
  destruct (milestone_tasks_take_anchor_dates (init None) off_schedule_case []
              (mkdate 2025 8 4) (mkdate 2025 9 1) (mkdate 2025 7 7)
              (mkdate 2025 12 22) (mkdate 2026 6 29)
              {| Rules.add_modules := ["equity_reform_tasks"];
                 Rules.complexity_modifier := 1.1 |}
              {| Rules.time_compression := 0.85; Rules.risk_level := "高" |}
              {| Rules.audit_complexity := 1.0 |}
              {| Rules.preparation_factor := 0.9 |}
              (shipped_tasks true)
              ltac:(vm_compute; reflexivity) ltac:(reflexivity)
              ltac:(reflexivity) ltac:(reflexivity) ltac:(reflexivity)
              ltac:(reflexivity)
              ltac:(repeat (apply Forall_cons; [ vm_compute; reflexivity | ]);
                    apply Forall_nil))
    as (tl & rep & rv & log' & E & H).
  exists tl, rep, rv, log'. split; [ exact E | ]. split.
  - destruct (H "向联交所递交A1申请" (mkdate 2026 6 29) ltac:(simpl; auto 6))
      as (H1 & _ & _).
    exact (H1 (Task.mk "境内外监管审批" "向联交所递交A1申请" "各方" 23)
             ltac:(simpl; auto 6) eq_refl).
  - destruct (H "作出确定股改基准日" (mkdate 2025 7 7) ltac:(simpl; auto 6))
      as (H1 & _ & _).
    exact (H1 (Task.mk "股改" "作出确定股改基准日、股权激励等决议"
                 "公司、公司境内律师" 2)
             ltac:(simpl; auto 6) eq_refl).
Defined.

(* ------------------------------------------------------------------ *)
(** ** The composite factors of a generation *)

Section FactorsOfARun.

(** With the tables of the source, the loop over the tasks returns when the
    start date leaves 31 weeks before the end of the year 9999. *)
Lemma shipped_loop_returns (client : option LLMClient) (key : string)
  (sr : Rules.structure) (start sp b c a : datetime) (x y : float) :
  getitem (Rules.company_structure _load_variation_rules) key = Ok sr ->
  In x [0.85; 1.0; 1.15]%float -> In y [0.9; 1.0; 1.2]%float ->
  Datetime.valid start = true ->
  Datetime.toordinal start + 7 * 31 <= Datetime._MAXORDINAL ->
  exists tasks keyed,
    collect_tasks (init client) sr = Ok tasks /\
    for_each (timeline_entry start sp b c a (x * y)) tasks = Ok keyed.
Proof.
  intros Gs Hx Hy V R.
  destruct (collect_tasks_default client _ _ Gs) as (tasks & Ht & Hoff).
  destruct (for_each_total (timeline_entry start sp b c a (x * y)) tasks)
    as (keyed & Hk).
  { eapply Forall_impl; [ | exact Hoff ].
    intros t Hin. apply timeline_entry_total; try assumption.
    apply weeks_in_range; assumption. }
  eauto.
Qed.

(** C5. With the rule tables of the source, for every legal combination of
    structure, pace and disclosure scope and every list of readiness
    indicators, the four rules are found, and the product of the pace's
    [time_compression] and the readiness level's [preparation_factor] and
    the product of the structure's [complexity_modifier] and the scope's
    [audit_complexity] are strictly positive.  Generation returns for these
    parameters whenever the five dates parse and the start date leaves 31
    weeks before the end of the year 9999, and the two products are the
    time factor and the complexity factor of every report it returns. *)
Theorem composite_factors_positive (client : option LLMClient) (p : Params.t) :
  legal_params (init client) p ->
  exists structure_rules pace_rules financial_rules readiness_rules,
    getitem (Rules.company_structure _load_variation_rules)
      (Params.get (Params.current_structure p) "境内有限责任公司 (需股改)")
    = Ok structure_rules /\
    getitem (Rules.project_pace _load_variation_rules)
      (Params.get (Params.project_pace p) "标准节奏 (Standard)")
    = Ok pace_rules /\
    getitem (Rules.a1_filing_financials _load_variation_rules)
      (Params.get (Params.a1_filing_financials p) "最近三个完整财年")
    = Ok financial_rules /\
    getitem (Rules.ipo_readiness _load_variation_rules)
      (_determine_ipo_readiness_level
         (Params.get (Params.ipo_readiness p) []))
    = Ok readiness_rules /\
    let time_factor :=
      (Rules.time_compression pace_rules
       * Rules.preparation_factor readiness_rules)%float in
    let complexity_factor :=
      (Rules.complexity_modifier structure_rules
       * Rules.audit_complexity financial_rules)%float in
    (0 <? time_factor)%float = true /\
    (0 <? complexity_factor)%float = true /\
    (forall log start sponsor base completion a1,
       date_params p = [Ok start; Ok sponsor; Ok base; Ok completion; Ok a1] ->
       Datetime.toordinal start + 7 * 31 <= Datetime._MAXORDINAL ->
       exists tl rep rv log',
         generate_case_timeline (init client) p log
         = (Ok (tl, rep, rv), log') /\
         时间调整系数 (案例特征 rep) = time_factor /\
         复杂度系数 (案例特征 rep) = complexity_factor) /\
    (forall log log' tl rep rv,
       generate_case_timeline (init client) p log = (Ok (tl, rep, rv), log') ->
       时间调整系数 (案例特征 rep) = time_factor /\
       复杂度系数 (案例特征 rep) = complexity_factor).
Proof.
  intros (Hs & Hp & Hf).
  destruct (structure_rule_of _ Hs) as (sr & Gs & Is).
  destruct (pace_rule_of _ Hp) as (pr & Gp & Ip).
  destruct (financial_rule_of _ Hf) as (fr & Gf & If_).
  destruct (readiness_rule_of (Params.get (Params.ipo_readiness p) []))
    as (rr & Gr & Ir).
  exists sr, pr, fr, rr.
  repeat (split; [ assumption | ]).
  cbv zeta. split; [ apply time_factor_positive; assumption | ].
  split; [ apply complexity_factor_positive; assumption | ].
  split.
  - intros log start sponsor base completion a1 D R.
    assert (V : Datetime.valid start = true).
    { pose proof D as D'. unfold date_params in D'. injection D' as D1 _ _ _ _.
      eapply param_date_valid; eassumption. }
    destruct (shipped_loop_returns client _ sr start sponsor base completion a1
                _ _ Gs Ip Ir V R) as (tasks & keyed & Ht & Hk).
    destruct (projection_of_parts (init client) p _ _ _ _ _ _ _ _ _ _ _
                D Gs Gp Gf Gr Ht Hk)
      as (l & Hl & _ & _ & _ & _ & _ & Et & Ec & _ & _).
    destruct (generate_returns (init client) p log l Hl) as (rv & calls & E & _).
    do 4 eexists. split; [ exact E | ]. simpl. auto.
  - intros log log' tl rep rv H.
    apply generate_ok_inv in H as (l & Hl & _ & _ & ->).
    apply project_timeline_inv in Hl. simpl.
    pose proof (proj_structure_rules _ _ _ Hl) as Ps.
    pose proof (proj_pace_rules _ _ _ Hl) as Pp.
    pose proof (proj_financial_rules _ _ _ Hl) as Pf.
    pose proof (proj_readiness_rules _ _ _ Hl) as Pr.
    rewrite (proj_company_structure _ _ _ Hl) in Ps.
    rewrite (proj_project_pace _ _ _ Hl) in Pp.
    rewrite (proj_a1_financials _ _ _ Hl) in Pf.
    rewrite (proj_readiness_level _ _ _ Hl), (proj_ipo_readiness _ _ _ Hl) in Pr.
    simpl variation_rules in *.
    rewrite (proj_time_factor _ _ _ Hl), (proj_complexity_factor _ _ _ Hl).
    split; congruence.
Qed.

End FactorsOfARun.

Lemma composite_factors_positive_witness :
  legal_params (init None) slow_case /\
  exists tl rep rv log',
    generate_case_timeline (init None) slow_case [] = (Ok (tl, rep, rv), log') /\
    时间调整系数 (案例特征 rep) = (1.15 * 1.2)%float /\
    复杂度系数 (案例特征 rep) = (1.1 * 1.0)%float /\
    (0 <? 时间调整系数 (案例特征 rep))%float = true /\
    (0 <? 复杂度系数 (案例特征 rep))%float = true.
Proof.
  assert (L : legal_params (init None) slow_case)
    by (unfold legal_params; simpl; auto 10).
  split; [ exact L | ].
  destruct (composite_factors_positive None slow_case L)
    as (sr & pr & fr & rr & G1 & G2 & G3 & G4 & Ht & Hc & Run & _).
  vm_compute in G1. injection G1 as <-.
  vm_compute in G2. injection G2 as <-.
  vm_compute in G3. injection G3 as <-.
  vm_compute in G4. injection G4 as <-.
  destruct (Run [] (mkdate 2025 8 4) (mkdate 2025 8 18) (mkdate 2025 8 18)
              (mkdate 2025 10 13) (mkdate 2026 1 12)
              ltac:(vm_compute; reflexivity)
              ltac:(vm_compute; discriminate))
    as (tl & rep & rv & log' & E & Et & Ec).
  exists tl, rep, rv, log'.
  split; [ exact E | ]. rewrite Et, Ec.
  split; [ reflexivity | ]. split; [ reflexivity | ].
  split; [ exact Ht | exact Hc ].
Defined.

(* ------------------------------------------------------------------ *)
(** ** The timeline of the source's catalog *)

Section ShippedTimeline.

(** X2. With the tables of the source, a project start date less than 17
    weeks before the end of the year 9999 makes every generation raise
    [OverflowError], although the only task dated from the start date is
    the kick-off: the candidate date of the first-filing task is computed
    before its anchor date replaces it. *)
Theorem late_start_always_overflows (client : option LLMClient)
  (p : Params.t) (log : CallLog) (start sponsor base completion a1 : datetime) :
  date_params p = [Ok start; Ok sponsor; Ok base; Ok completion; Ok a1] ->
  legal_params (init client) p ->
  Datetime._MAXORDINAL < Datetime.toordinal start + 7 * 17 ->
  generate_case_timeline (init client) p log = (Raise OverflowError, log).
Proof.
  intros D L R.
  assert (V : Datetime.valid start = true).
  { unfold date_params in D. injection D as D1 _ _ _ _.
    eapply param_date_valid; eassumption. }
  destruct (shipped_projection client p _ _ _ _ _ D L) as (x & y & Hx & Hy & H).
  rewrite (shipped_loop_overflow _ _ _ _ _ _ _ _ V Hx Hy R) in H.
  apply generate_raises.
  destruct (project_timeline (init client) p); congruence.
Qed.

(** X3. With the tables of the source, the returned timeline is the
    date-sorted list of: the kick-off at the project start date, the sponsor
    task at the sponsor date, the first filing at its date and, for the
    structure that needs the equity reform, the two reform tasks at theirs.
    Pace, readiness and disclosure scope do not enter. *)
Theorem shipped_timeline_is_the_anchor_schedule (client : option LLMClient)
  (p : Params.t) (log log' : CallLog) (tl : list Entry.t) (rep : Report)
  (rv : Json) :
  generate_case_timeline (init client) p log = (Ok (tl, rep, rv), log') ->
  exists start sponsor base completion a1,
    date_params p = [Ok start; Ok sponsor; Ok base; Ok completion; Ok a1] /\
    tl = map entry
           (PyList.sort Datetime.lt sort_date
              (shipped_entries start sponsor base completion a1
                 (needs_equity_reform p))).
Proof.
  intros H. apply generate_ok_inv in H as (l & Hl & -> & _ & _).
  destruct (projected_legal client p l Hl) as (L & D).
  exists (Locals.project_start_date l), (Locals.sponsor_agreement_date l),
    (Locals.equity_base_date l), (Locals.equity_completion_date l),
    (Locals.a1_date l).
  split; [ exact D | ].
  assert (V : Datetime.valid (Locals.project_start_date l) = true).
  { pose proof D as D'. unfold date_params in D'. injection D' as D1 _ _ _ _.
    eapply param_date_valid; eassumption. }
  destruct (shipped_projection client p _ _ _ _ _ D L) as (x & y & Hx & Hy & H).
  rewrite Hl in H.
  destruct (shipped_factors x y Hx Hy) as [K _].
  rewrite (shipped_loop _ _ _ _ _ _ _ _ V K H). reflexivity.
Qed.

(** X4. Parameters whose categorical fields are absent or options of the
    schema are legal for the rules of the source: with five dates that
    parse, generation either returns or raises [OverflowError], never a
    [KeyError]. *)
Theorem schema_options_are_rule_keys (client : option LLMClient)
  (p : Params.t) (log : CallLog) :
  schema_legal p ->
  legal_params (init client) p /\
  (forall start sponsor base completion a1,
     date_params p = [Ok start; Ok sponsor; Ok base; Ok completion; Ok a1] ->
     (exists tl rep rv log',
        generate_case_timeline (init client) p log = (Ok (tl, rep, rv), log'))
     \/ generate_case_timeline (init client) p log = (Raise OverflowError, log)).
Proof.
  intros (Hs & Hp & _ & Hf).
  assert (L : legal_params (init client) p).
  { unfold legal_params, schema_option in *.
    destruct (Params.current_structure p), (Params.project_pace p),
      (Params.a1_filing_financials p); cbv in Hs, Hp, Hf; simpl; tauto. }
  split; [ exact L | ].
  intros start sponsor base completion a1 D.
  assert (V : Datetime.valid start = true).
  { pose proof D as D'. unfold date_params in D'. injection D' as D1 _ _ _ _.
    eapply param_date_valid; eassumption. }
  destruct (shipped_projection client p _ _ _ _ _ D L) as (x & y & Hx & Hy & H).
  destruct (project_timeline (init client) p) as [l | e] eqn:Hl.
  - left. destruct (generate_returns (init client) p log l Hl)
      as (rv & calls & E & _).
    do 4 eexists. exact E.
  - right. apply generate_raises.
    destruct (shipped_loop_outcome start sponsor base completion a1 x y
                (needs_equity_reform p) V Hx Hy) as [(out & O) | O];
      congruence.
Qed.

End ShippedTimeline.

Lemma late_start_always_overflows_witness :
  date_params late_start_case
  = [ Ok (mkdate 9999 12 1); Ok (mkdate 2025 8 18); Ok (mkdate 2025 8 18);
      Ok (mkdate 2025 10 13); Ok (mkdate 2026 1 12) ] /\
  generate_case_timeline (init None) late_start_case []
  = (Raise OverflowError, []).
Proof.
  split; [ vm_compute; reflexivity | ].
  apply (late_start_always_overflows None late_start_case [] (mkdate 9999 12 1)
           (mkdate 2025 8 18) (mkdate 2025 8 18) (mkdate 2025 10 13)
           (mkdate 2026 1 12)).
  - vm_compute; reflexivity.
  - unfold legal_params; simpl; auto 10.
  - vm_compute; reflexivity.
Defined.

Lemma shipped_timeline_is_the_anchor_schedule_witness :
  generate_case_timeline (init None) case1 []
  = (Ok (case1_timeline, case1_report, review_disabled), []) /\
  case1_timeline
  = map entry
      (PyList.sort Datetime.lt sort_date
         (shipped_entries (mkdate 2025 8 4) (mkdate 2025 8 18)
            (mkdate 2025 8 18) (mkdate 2025 10 13) (mkdate 2026 1 12) true)).
Proof.
  split; [ vm_compute; reflexivity | ].
  destruct (shipped_timeline_is_the_anchor_schedule None case1 [] []
              case1_timeline case1_report review_disabled
              ltac:(vm_compute; reflexivity))
    as (start & sponsor & base & completion & a1 & D & E).
  vm_compute in D. injection D as <- <- <- <- <-. exact E.
Defined.

Lemma schema_options_are_rule_keys_witness :
  schema_legal case1 /\ legal_params (init None) case1.
Proof.
  assert (S : schema_legal case1)
    by (unfold schema_legal, schema_option; cbv; tauto).
  split; [ exact S | ].
  exact (proj1 (schema_options_are_rule_keys None case1 [] S)).
Defined.

(* ------------------------------------------------------------------ *)
(** ** What the timeline and the report hold *)

Section ReportContents.

Lemma for_each_fields (start sp b c a : datetime) (tf : float)
  (tasks : list Task.t) (out : list Keyed) :
  for_each (timeline_entry start sp b c a tf) tasks = Ok out ->
  map (fun k => (Entry.工作条线 (entry k), Entry.主要任务 (entry k),
                 Entry.牵头方 (entry k))) out
  = map (fun t => (Task.工作条线 t, Task.任务 t, Task.牵头方 t)) tasks.
Proof.
  intros H. apply for_each_ok in H.
  induction H as [| t k ts ks Hk _ IH]; simpl; [ reflexivity | ].
  apply timeline_entry_inv in Hk as (_ & _ & _ & _ & _ & _ & _ & ->).
  simpl. rewrite IH. reflexivity.
Qed.

(** X5. Whenever [generate_case_timeline] returns, the timeline holds the
    tasks of the working list, each exactly once and with its work stream,
    name and lead copied; the task count of the report is the length of the
    timeline; and the report carries the parameters as given, their case
    name and the review that is returned beside it. *)
Theorem timeline_holds_each_task_once (self : Generator) (p : Params.t)
  (log log' : CallLog) (tl : list Entry.t) (rep : Report) (rv : Json) :
  generate_case_timeline self p log = (Ok (tl, rep, rv), log') ->
  exists l,
    project_timeline self p = Ok l /\
    Permutation
      (map (fun e => (Entry.工作条线 e, Entry.主要任务 e, Entry.牵头方 e)) tl)
      (map (fun t => (Task.工作条线 t, Task.任务 t, Task.牵头方 t))
         (Locals.tasks l)) /\
    总任务数 (案例特征 rep) = Z.of_nat (List.length (Locals.tasks l)) /\
    List.length tl = List.length (Locals.tasks l) /\
    项目参数 rep = p /\
    案例名称 rep = Params.case_name p /\
    LLM审核结果 rep = rv.
Proof.
  intros H. apply generate_ok_inv in H as (l & Hl & -> & _ & ->).
  exists l. split; [ exact Hl | ].
  pose proof (project_timeline_inv _ _ _ Hl) as P.
  pose proof (for_each_fields _ _ _ _ _ _ _ _ (proj_timeline _ _ _ P)) as F.
  assert (Pm : Permutation
                 (map (fun e => (Entry.工作条线 e, Entry.主要任务 e,
                                 Entry.牵头方 e))
                    (map entry
                       (PyList.sort Datetime.lt sort_date (Locals.timeline l))))
                 (map (fun t => (Task.工作条线 t, Task.任务 t, Task.牵头方 t))
                    (Locals.tasks l))).
  { rewrite map_map, <- F. apply Permutation_map.
    apply (sort_perm Datetime.lt sort_date). }
  assert (Len : List.length
                  (map entry
                     (PyList.sort Datetime.lt sort_date (Locals.timeline l)))
                = List.length (Locals.tasks l)).
  { apply Permutation_length in Pm. rewrite !length_map in Pm. 
    rewrite length_map. exact Pm. }
  split; [ exact Pm | ].
  simpl. rewrite Len. auto.
Qed.

End ReportContents.

Lemma timeline_holds_each_task_once_witness :
  generate_case_timeline (init None) case1 []
  = (Ok (case1_timeline, case1_report, review_disabled), []) /\
  总任务数 (案例特征 case1_report) = 5.
Proof.
  split; [ vm_compute; reflexivity | ].
  destruct (timeline_holds_each_task_once (init None) case1 [] []
              case1_timeline case1_report review_disabled
              ltac:(vm_compute; reflexivity))
    as (l & Hl & _ & Hc & _).
  vm_compute in Hl. injection Hl as <-. exact Hc.
Defined.

(* ------------------------------------------------------------------ *)
(** ** Reading the shown dates back *)

Section ReadBack.

Lemma date_le_year (a b : datetime) :
  Datetime.le a b = true -> year a <= year b.
Proof.
  unfold Datetime.le. intros H. apply date_lt_false in H. lia.
Qed.

(** The date of an entry is one of the anchors or a date of the calendar
    not before the start date. *)
Lemma entry_date (start sp b c a : datetime) (tf : float) (t : Task.t)
  (k : Keyed) :
  Datetime.valid start = true ->
  timeline_entry start sp b c a tf t = Ok k ->
  In (sort_date k) [sp; b; c; a] \/
  (Datetime.valid (sort_date k) = true /\
   Datetime.le start (sort_date k) = true).
Proof.
  intros V H.
  apply timeline_entry_inv in H as (scaled & weeks & date & _ & _ & Hd & E & _).
  destruct (add_weeks_ok _ _ _ V (Z.le_max_l 0 weeks) Hd) as (Vd & _ & Ld).
  rewrite E.
  repeat match goal with
    | |- context [if ?x then _ else _] => destruct x
    end; simpl; auto 10.
Qed.

Lemma parse_format_all (ks : list Keyed) :
  Forall (fun k => Entry.日期 (entry k) = _format_date (sort_date k)) ks ->
  Forall (fun k => Datetime.valid (sort_date k) = true /\
                   1000 <= year (sort_date k)) ks ->
  Forall2 (fun e d => _parse_date (Entry.日期 e) = Ok d)
    (map entry ks) (map sort_date ks).
Proof.
  induction 1 as [| k ks Hk _ IH]; intros H; simpl; [ constructor | ].
  inversion H as [| ? ? [V Y] H']; subst.
  constructor; [ | apply IH; exact H' ].
  rewrite Hk. apply parse_format; assumption.
Qed.

Lemma sorted_map_key {A : Type} (key : A -> datetime) (l : list A) :
  StronglySorted (fun a b => Datetime.le (key a) (key b) = true) l ->
  StronglySorted (fun a b => Datetime.le a b = true) (map key l).
Proof.
  induction 1 as [| x l _ IH Hx]; simpl; constructor; [ exact IH | ].
  apply Forall_map. exact Hx.
Qed.

(** X6. When the project start date and the four anchor dates have years
    of four digits, every date shown in the returned timeline parses, and
    the dates read back in the order of the timeline never decrease. *)
Theorem shown_dates_read_back_sorted (self : Generator) (p : Params.t)
  (log log' : CallLog) (tl : list Entry.t) (rep : Report) (rv : Json) :
  generate_case_timeline self p log = (Ok (tl, rep, rv), log') ->
  Forall (fun r => forall d, r = Ok d -> 1000 <= year d) (date_params p) ->
  exists dates,
    Forall2 (fun e d => _parse_date (Entry.日期 e) = Ok d) tl dates /\
    StronglySorted (fun a b => Datetime.le a b = true) dates.
Proof.
  intros H Y. apply generate_ok_inv in H as (l & Hl & -> & _ & _).
  pose proof (project_timeline_inv _ _ _ Hl) as P.
  unfold date_params in Y.
  rewrite (proj_start _ _ _ P), (proj_sponsor _ _ _ P), (proj_base _ _ _ P),
    (proj_completion _ _ _ P), (proj_a1 _ _ _ P) in Y.
  inversion Y as [| ? ? Y1 Y']; subst. inversion Y' as [| ? ? Y2 Y'']; subst.
  inversion Y'' as [| ? ? Y3 Y3']; subst. inversion Y3' as [| ? ? Y4 Y4']; subst.
  inversion Y4' as [| ? ? Y5 _]; subst.
  specialize (Y1 _ eq_refl). specialize (Y2 _ eq_refl).
  specialize (Y3 _ eq_refl). specialize (Y4 _ eq_refl).
  specialize (Y5 _ eq_refl).
  pose proof (param_date_valid _ _ _ (proj_start _ _ _ P)) as V1.
  pose proof (param_date_valid _ _ _ (proj_sponsor _ _ _ P)) as V2.
  pose proof (param_date_valid _ _ _ (proj_base _ _ _ P)) as V3.
  pose proof (param_date_valid _ _ _ (proj_completion _ _ _ P)) as V4.
  pose proof (param_date_valid _ _ _ (proj_a1 _ _ _ P)) as V5.
  pose proof (for_each_ok _ _ _ (proj_timeline _ _ _ P)) as F.
  set (sorted := PyList.sort Datetime.lt sort_date (Locals.timeline l)).
  assert (A : Forall (fun k =>
                        Entry.日期 (entry k) = _format_date (sort_date k) /\
                        Datetime.valid (sort_date k) = true /\
                        1000 <= year (sort_date k)) (Locals.timeline l)).
  { clear - F V1 V2 V3 V4 V5 Y1 Y2 Y3 Y4 Y5.
    induction F as [| t k ts ks Hk _ IH]; constructor; [ | exact IH ].
    split.
    - apply timeline_entry_inv in Hk as (_ & _ & _ & _ & _ & _ & _ & ->).
      reflexivity.
    - destruct (entry_date _ _ _ _ _ _ _ _ V1 Hk)
        as [[<- | [<- | [<- | [<- | []]]]] | [Vk Lk]]; auto.
      split; [ exact Vk | ]. apply date_le_year in Lk. lia. }
  assert (B : Forall (fun k =>
                        Entry.日期 (entry k) = _format_date (sort_date k) /\
                        Datetime.valid (sort_date k) = true /\
                        1000 <= year (sort_date k)) sorted).
  { eapply Permutation_Forall; [ | exact A ].
    symmetry. apply (sort_perm Datetime.lt sort_date). }
  exists (map sort_date sorted). split.
  - apply parse_format_all.
    + eapply Forall_impl; [ | exact B ]. intros k (H1 & H2 & H3). exact H1.
    + eapply Forall_impl; [ | exact B ]. intros k (H1 & H2 & H3). auto.
  - apply sorted_map_key.
    apply (sort_sorted Datetime.lt sort_date date_lt_asym date_le_trans).
Qed.

(** X7. Two dates of four-digit years that are shown alike are the same
    date. *)
Theorem format_date_injective (d1 d2 : datetime) :
  Datetime.valid d1 = true -> Datetime.valid d2 = true ->
  1000 <= year d1 -> 1000 <= year d2 ->
  _format_date d1 = _format_date d2 -> d1 = d2.
Proof.
  intros V1 V2 Y1 Y2 E.
  pose proof (parse_format d1 V1 Y1) as P1.
  pose proof (parse_format d2 V2 Y2) as P2.
  rewrite E in P1. congruence.
Qed.

End ReadBack.

Lemma shown_dates_read_back_sorted_witness :
  generate_case_timeline (init None) case1 []
  = (Ok (case1_timeline, case1_report, review_disabled), []) /\
  exists dates,
    Forall2 (fun e d => _parse_date (Entry.日期 e) = Ok d) case1_timeline dates /\
    StronglySorted (fun a b => Datetime.le a b = true) dates.
Proof.
  split; [ vm_compute; reflexivity | ].
  apply (shown_dates_read_back_sorted (init None) case1 [] [] case1_timeline
           case1_report review_disabled ltac:(vm_compute; reflexivity)).
  repeat (apply Forall_cons;
          [ intros d H; vm_compute in H; injection H as <-; simpl; lia | ]).
  apply Forall_nil.
Defined.

Lemma format_date_injective_witness :
  Datetime.valid (mkdate 2025 8 4) = true /\
  (_format_date (mkdate 2025 8 4) = _format_date (mkdate 2025 8 4) ->
   mkdate 2025 8 4 = mkdate 2025 8 4).
Proof.
  split; [ reflexivity | ].
  apply (format_date_injective (mkdate 2025 8 4) (mkdate 2025 8 4));
    try reflexivity; simpl; lia.
Defined.

(* ------------------------------------------------------------------ *)
(** ** What the outcome depends on *)

Section Frame.

Lemma project_timeline_same_inputs (self : Generator) (p p' : Params.t) :
  same_inputs p p' ->
  project_timeline self p'
  = rbind (project_timeline self p)
      (fun l =>
         Ok (Locals.mk (Locals.project_start_date l)
               (Locals.sponsor_agreement_date l) (Locals.equity_base_date l)
               (Locals.equity_completion_date l) (Locals.a1_date l)
               (Locals.company_structure l) (Locals.project_pace l)
               (Params.get (Params.listing_board_hk p') "主板")
               (if existsb (String.eqb "无")
                     (Params.get (Params.optional_modules p') [])
                then [] else Params.get (Params.optional_modules p') [])
               (Locals.ipo_readiness l) (Locals.a1_financials l)
               (Locals.structure_rules l) (Locals.pace_rules l)
               (Locals.financial_rules l) (Locals.readiness_level l)
               (Locals.readiness_rules l) (Locals.time_factor l)
               (Locals.complexity_factor l) (Locals.tasks l)
               (Locals.timeline l))).
Proof.
  intros (E1 & E2 & E3 & E4 & E5 & Es & Ep & Ef & Er).
  unfold project_timeline. rewrite <- E1, <- E2, <- E3, <- E4, <- E5.
  cbv zeta. rewrite <- Es, <- Ep, <- Ef, <- Er.
  repeat match goal with
    | |- rbind ?m _ = rbind (rbind ?m _) _ =>
        destruct m; cbn [rbind]; [ | reflexivity ]
    end.
  reflexivity.
Qed.

(** X8. The timeline, the review, the requests sent, the task count, the
    factors and the exception raised depend only on the five date texts
    and on the structure, pace, disclosure scope and readiness indicators
    with their defaults filled in.  An absent field acts as its default;
    the case name, the performance period, the optional modules and the
    listing board change nothing but what the report echoes, and a listing
    board that is no key of the rules is no error. *)
Theorem outcome_depends_only_on_dates_and_rule_keys (self : Generator)
  (p p' : Params.t) (log : CallLog) :
  same_inputs p p' ->
  snd (generate_case_timeline self p' log)
  = snd (generate_case_timeline self p log) /\
  match fst (generate_case_timeline self p log),
        fst (generate_case_timeline self p' log) with
  | Ok (tl, rep, rv), Ok (tl', rep', rv') =>
      tl' = tl /\ rv' = rv /\
      总任务数 (案例特征 rep') = 总任务数 (案例特征 rep) /\
      公司架构 (案例特征 rep') = 公司架构 (案例特征 rep) /\
      项目节奏 (案例特征 rep') = 项目节奏 (案例特征 rep) /\
      财务报表期数 (案例特征 rep') = 财务报表期数 (案例特征 rep) /\
      IPO准备度 (案例特征 rep') = IPO准备度 (案例特征 rep) /\
      复杂度系数 (案例特征 rep') = 复杂度系数 (案例特征 rep) /\
      时间调整系数 (案例特征 rep') = 时间调整系数 (案例特征 rep) /\
      上市板块 (案例特征 rep') = Params.get (Params.listing_board_hk p') "主板"
  | Raise e, Raise e' => e' = e
  | _, _ => False
  end.
Proof.
  intros S. pose proof (project_timeline_same_inputs self p p' S) as E.
  unfold generate_case_timeline, bind, lift, ret. rewrite E.
  destruct (project_timeline self p) as [l | e]; cbn [rbind];
    [ | simpl; auto ].
  cbv zeta. cbn [Locals.timeline].
  set (tl := map entry (PyList.sort Datetime.lt sort_date (Locals.timeline l))).
  change (_call_llm_for_review self tl p' log)
    with (_call_llm_for_review self tl p log).
  destruct (_call_llm_for_review self tl p log) as [[rv | e] lg]; simpl;
    auto 12.
Qed.

End Frame.

Lemma outcome_depends_only_on_dates_and_rule_keys_witness :
  let bare :=
    Params.mk None (Params.project_start_date case1)
      (Params.sponsor_agreement_date case1)
      (Params.equity_reform_base_date case1)
      (Params.equity_reform_completion_date case1)
      (Params.a1_submission_date case1) None None None (Some "创业板") None
      (Params.ipo_readiness case1) (Some ["IT系统核查"]) in
  same_inputs case1 bare /\
  snd (generate_case_timeline (init None) bare [])
  = snd (generate_case_timeline (init None) case1 []).
Proof.
  intros bare.
  assert (S : same_inputs case1 bare)
    by (unfold same_inputs, bare; simpl; auto 12).
  split; [ exact S | ].
  exact (proj1 (outcome_depends_only_on_dates_and_rule_keys (init None) case1
                  bare [] S)).
Defined.

(* ------------------------------------------------------------------ *)
(** ** Date parameters that are missing or unreadable *)

Section DateErrors.

Lemma param_date_missing (k : string) :
  param_date k None = Raise (KeyError k).
Proof. reflexivity. Qed.

Lemma project_timeline_date_error (self : Generator) (p : Params.t)
  (pre post : list (result datetime)) (e : exn) :
  date_params p = (pre ++ Raise e :: post)%list ->
  Forall (fun r => is_ok r = true) pre ->
  project_timeline self p = Raise e.
Proof.
  unfold date_params, project_timeline. intros D F.
  destruct pre as [| r1 [| r2 [| r3 [| r4 [| r5 pre]]]]];
    cbn [app] in D; injection D; intros; subst;
    try (destruct pre; discriminate);
    repeat match goal with
      | F : Forall _ (_ :: _) |- _ =>
          let H := fresh "H" in
          inversion F as [| ? ? H ?]; subst; clear F
      end;
    repeat match goal with
      | H : is_ok (param_date ?k ?f) = true |- _ =>
          destruct (param_date k f); [ clear H | discriminate H ]
      end;
    cbn [rbind];
    match goal with
    | H : param_date _ _ = Raise _ |- _ => rewrite H
    end;
    reflexivity.
Qed.

(** X9. The five dates are read first and in the order start, sponsor
    agreement, reform base, reform completion, first filing: the first one
    that is missing ([KeyError] with its key) or unreadable ([ValueError])
    decides the exception, nothing is sent to the client, and the later
    dates and the categorical values are not looked at. *)
Theorem first_bad_date_decides (self : Generator) (p : Params.t)
  (log : CallLog) (pre post : list (result datetime)) (e : exn) :
  date_params p = (pre ++ Raise e :: post)%list ->
  Forall (fun r => is_ok r = true) pre ->
  generate_case_timeline self p log = (Raise e, log) /\
  (forall k, param_date k None = Raise (KeyError k)) /\
  (forall k s e', param_date k (Some s) = Raise e' -> e' = ValueError).
Proof.
  intros D F. split; [ | split ].
  - apply generate_raises. eapply project_timeline_date_error; eassumption.
  - reflexivity.
  - intros k s e'. change (param_date k (Some s)) with (_parse_date s).
    unfold _parse_date, Datetime.strptime_Ymd, Datetime.new.
    repeat match goal with
      | |- context [match ?x with _ => _ end] => destruct x
      | |- context [if ?x then _ else _] => destruct x
      end; congruence.
Qed.

End DateErrors.

Lemma first_bad_date_decides_witness :
  date_params bad_date_case
  = ([] ++ Raise ValueError
        :: [ Ok (mkdate 2025 8 18); Ok (mkdate 2025 8 18);
             Ok (mkdate 2025 10 13); Ok (mkdate 2026 1 12) ])%list /\
  generate_case_timeline (init None) bad_date_case [] = (Raise ValueError, []).
Proof.
  split; [ vm_compute; reflexivity | ].
  apply (proj1 (first_bad_date_decides (init None) bad_date_case [] []
                  [ Ok (mkdate 2025 8 18); Ok (mkdate 2025 8 18);
                    Ok (mkdate 2025 10 13); Ok (mkdate 2026 1 12) ]
                  ValueError ltac:(vm_compute; reflexivity)
                  (Forall_nil _))).
Defined.

(* ------------------------------------------------------------------ *)
(** ** More on the date codec *)

Section DateCodecMore.

Lemma date_char_not_cjk (c h : ascii) :
  date_char c = true -> date_char h = false -> h <> c.
Proof. intros Hc Hh ->. congruence. Qed.

Lemma date_chars_no_qualifier (s : string) :
  date_chars s = true -> PyStr.contains "当周" s = false.
Proof.
  induction s as [| c s IH]; simpl date_chars; intros H.
  - reflexivity.
  - apply andb_true_iff in H as [Hc Hs].
    rewrite contains_skip by (apply (date_char_not_cjk c); [ exact Hc | reflexivity ]).
    apply IH. exact Hs.
Qed.

Lemma byte_is_date_char (c : ascii) :
  PyStr.byte c <> 229 -> date_char c = true.
Proof.
  intros H. unfold date_char. apply negb_true_iff. apply Z.eqb_neq. exact H.
Qed.

Lemma digit_is_date_char (c : ascii) :
  PyStr.is_digit c = true -> date_char c = true.
Proof.
  destruct c as [[] [] [] [] [] [] [] []]; intros H;
    try discriminate H; reflexivity.
Qed.

Lemma continuation_spec (c : ascii) (x : Z) :
  PyStr.continuation c = Some x ->
  128 <= PyStr.byte c <= 191 /\ x = PyStr.byte c - 128.
Proof.
  unfold PyStr.continuation.
  destruct (Z.leb_spec 128 (PyStr.byte c)) as [L | L]; [ | discriminate ].
  destruct (Z.leb_spec (PyStr.byte c) 191) as [U | U]; [ | discriminate ].
  cbn [andb]. intros E. injection E as <-. lia.
Qed.

Lemma decimal_value_not_E5 (cp v : Z) :
  PyStr.decimal_value cp = Some v -> ~ 20480 <= cp <= 24575.
Proof.
  unfold PyStr.decimal_value.
  destruct (find _ PyStr.decimal_zeros) as [zero |] eqn:F; [ | discriminate ].
  intros _. apply find_some in F as [Hin Hc].
  assert (T : no_decimal_in_E5_block = true) by (vm_compute; reflexivity).
  unfold no_decimal_in_E5_block in T.
  rewrite forallb_forall in T. specialize (T zero Hin).
  apply andb_true_iff in Hc as [H1 H2].
  apply Z.leb_le in H1, H2.
  apply orb_true_iff in T as [T | T]; apply Z.ltb_lt in T; lia.
Qed.

(** What [\d] consumes holds no byte E5. *)
Lemma decimal_chars (s r : string) (v : Z) :
  PyStr.decimal s = Some (v, r) ->
  date_chars r = true -> date_chars s = true.
Proof.
  unfold PyStr.decimal.
  destruct (PyStr.code_point s) as [[cp r'] |] eqn:C; [ | discriminate ].
  destruct (PyStr.decimal_value cp) as [v' |] eqn:D; [ | discriminate ].
  intros H Hr. injection H as _ ->.
  pose proof (decimal_value_not_E5 _ _ D) as N. clear D.
  unfold PyStr.code_point in C.
  destruct s as [| c0 r0]; [ discriminate C | ]. cbv zeta in C.
  destruct (Z.ltb_spec (PyStr.byte c0) 128).
  { injection C as _ ->. simpl.
    rewrite byte_is_date_char by lia. exact Hr. }
  destruct ((194 <=? PyStr.byte c0) && (PyStr.byte c0 <? 224)) eqn:B2.
  { apply andb_true_iff in B2 as [L U]. apply Z.leb_le in L. apply Z.ltb_lt in U.
    destruct r0 as [| c1 r1]; [ discriminate C | ].
    destruct (PyStr.continuation c1) as [x1 |] eqn:K1; [ | discriminate C ].
    apply continuation_spec in K1 as [K1 _].
    injection C as _ ->. simpl.
    rewrite !byte_is_date_char by lia. exact Hr. }
  destruct ((224 <=? PyStr.byte c0) && (PyStr.byte c0 <? 240)) eqn:B3.
  { apply andb_true_iff in B3 as [L U]. apply Z.leb_le in L. apply Z.ltb_lt in U.
    destruct r0 as [| c1 [| c2 r2]]; try discriminate C.
    destruct (PyStr.continuation c1) as [x1 |] eqn:K1; [ | discriminate C ].
    destruct (PyStr.continuation c2) as [x2 |] eqn:K2; [ | discriminate C ].
    apply continuation_spec in K1 as [K1 E1].
    apply continuation_spec in K2 as [K2 E2].
    destruct ((2048 <=? _) && _); [ | discriminate C ].
    injection C as E ->. simpl.
    assert (PyStr.byte c0 <> 229) by lia.
    rewrite !byte_is_date_char by lia. exact Hr. }
  destruct ((240 <=? PyStr.byte c0) && (PyStr.byte c0 <? 245)) eqn:B4;
    [ | discriminate C ].
  apply andb_true_iff in B4 as [L U]. apply Z.leb_le in L. apply Z.ltb_lt in U.
  destruct r0 as [| c1 [| c2 [| c3 r3]]]; try discriminate C.
  destruct (PyStr.continuation c1) as [x1 |] eqn:K1; [ | discriminate C ].
  destruct (PyStr.continuation c2) as [x2 |] eqn:K2; [ | discriminate C ].
  destruct (PyStr.continuation c3) as [x3 |] eqn:K3; [ | discriminate C ].
  apply continuation_spec in K1 as [K1 _].
  apply continuation_spec in K2 as [K2 _].
  apply continuation_spec in K3 as [K3 _].
  destruct ((65536 <=? _) && _); [ | discriminate C ].
  injection C as _ ->. simpl.
  rewrite !byte_is_date_char by lia. exact Hr.
Qed.

Ltac date_char_facts :=
  repeat match goal with
    | H : _ && _ = true |- _ => apply andb_true_iff in H as [? ?]
    | H : _ || _ = true |- _ => apply orb_true_iff in H as [? | ?]
    | H : Ascii.eqb ?c _ = true |- _ =>
        apply Ascii.eqb_eq in H; subst c
    end.

Ltac date_chars_goal :=
  simpl;
  repeat match goal with
    | D : PyStr.is_digit ?c = true |- context [date_char ?c] =>
        rewrite (digit_is_date_char c D)
    end;
  simpl; try assumption; try reflexivity.

(** What [%Y], [%m] and [%d] consume holds no byte E5. *)
Lemma parse_Y_chars (s r : string) (y : Z) :
  Datetime.parse_Y s = Some (y, r) ->
  date_chars r = true -> date_chars s = true.
Proof.
  unfold Datetime.parse_Y. intros H Hr.
  destruct (PyStr.decimal s) as [[d1 s1] |] eqn:E1; [ | discriminate H ].
  destruct (PyStr.decimal s1) as [[d2 s2] |] eqn:E2; [ | discriminate H ].
  destruct (PyStr.decimal s2) as [[d3 s3] |] eqn:E3; [ | discriminate H ].
  destruct (PyStr.decimal s3) as [[d4 s4] |] eqn:E4; [ | discriminate H ].
  injection H as _ ->.
  eapply decimal_chars; [ exact E1 | ].
  eapply decimal_chars; [ exact E2 | ].
  eapply decimal_chars; [ exact E3 | ].
  eapply decimal_chars; [ exact E4 | exact Hr ].
Qed.

Lemma parse_m_chars (r r' : string) (m : Z) :
  Datetime.parse_m r = Some (m, r') ->
  date_chars r' = true -> date_chars r = true.
Proof.
  unfold Datetime.parse_m. intros H Hr'.
  destruct r as [| a [| b r0]]; try discriminate H.
  - destruct (PyStr.is_digit a && negb (Ascii.eqb a "0")) eqn:E;
      inversion H; subst. date_char_facts. date_chars_goal.
  - repeat match type of H with
      | (if ?x then _ else _) = _ => destruct x eqn:?
      end; inversion H; subst; date_char_facts; date_chars_goal.
Qed.

Lemma parse_d_chars (r : string) (d : Z) :
  Datetime.parse_d r = Some (d, EmptyString) -> date_chars r = true.
Proof.
  unfold Datetime.parse_d. intros H.
  destruct r as [| a r]; [ discriminate H | ]. cbv zeta in H.
  destruct (Ascii.eqb a "3") eqn:A3.
  { apply Ascii.eqb_eq in A3. subst a.
    destruct r as [| b r']; cbn in H.
    - injection H as _. reflexivity.
    - destruct (Ascii.eqb b "0" || Ascii.eqb b "1") eqn:B.
      + injection H as _ ->. date_char_facts; reflexivity.
      + discriminate H. }
  destruct (Ascii.eqb a "1" || Ascii.eqb a "2") eqn:A12.
  { assert (Da : date_char a = true) by (date_char_facts; reflexivity).
    assert (Ia : PyStr.is_digit a && negb (Ascii.eqb a "0") = true)
      by (date_char_facts; reflexivity).
    destruct (PyStr.decimal r) as [[db r'] |] eqn:E.
    - injection H as _ ->. simpl. rewrite Da.
      eapply decimal_chars; [ exact E | reflexivity ].
    - rewrite Ia in H. injection H as _ ->. simpl. rewrite Da. reflexivity. }
  destruct (Ascii.eqb a "0") eqn:A0.
  { apply Ascii.eqb_eq in A0. subst a.
    destruct r as [| b r']; cbn in H; [ discriminate H | ].
    destruct (PyStr.is_digit b && negb (Ascii.eqb b "0")) eqn:B.
    - injection H as _ ->. date_char_facts. date_chars_goal.
    - discriminate H. }
  cbv beta iota in H. cbn [negb] in H. rewrite andb_true_r in H.
  destruct (PyStr.is_digit a) eqn:Ia.
  { injection H as _ ->. date_chars_goal. }
  destruct r as [| b r']; [ discriminate H | ].
  destruct (Ascii.eqb a " " && PyStr.is_digit b && negb (Ascii.eqb b "0")) eqn:S;
    [ | discriminate H ].
  injection H as _ ->. date_char_facts. date_chars_goal.
Qed.

Lemma strptime_date_chars (s : string) (d : datetime) :
  Datetime.strptime_Ymd s = Ok d -> date_chars s = true.
Proof.
  unfold Datetime.strptime_Ymd. intros H.
  destruct (Datetime.parse_Y s) as [[y [| sep r]] |] eqn:Hy;
    try discriminate H.
  destruct (Ascii.eqb sep "-") eqn:E; [ | discriminate H ].
  destruct (Datetime.parse_m r) as [[m [| sep2 r2]] |] eqn:Hm;
    try discriminate H.
  destruct (Ascii.eqb sep2 "-") eqn:E2; [ | discriminate H ].
  destruct (Datetime.parse_d r2) as [[dd [| ? ?]] |] eqn:Hd;
    try discriminate H.
  apply parse_d_chars in Hd.
  apply Ascii.eqb_eq in E, E2. subst sep sep2.
  apply parse_m_chars in Hm; [ | simpl; exact Hd ].
  apply parse_Y_chars in Hy; [ exact Hy | simpl; exact Hm ].
Qed.

(** X10. A text that [strptime] reads with the format [%Y-%m-%d] holds no
    week qualifier and is read by [_parse_date] as the same date: plain ISO
    dates, in the decimal digits of any script, are accepted beside the
    week-of texts. *)
Theorem iso_dates_pass_through (date_str : string) (d : datetime) :
  Datetime.strptime_Ymd date_str = Ok d ->
  PyStr.contains "当周" date_str = false /\ _parse_date date_str = Ok d.
Proof.
  intros H. pose proof (strptime_date_chars _ _ H) as C.
  apply date_chars_no_qualifier in C. split; [ exact C | ].
  unfold _parse_date. rewrite C. exact H.
Qed.

Lemma string_app_assoc (a b c : string) : (a ++ b) ++ c = a ++ (b ++ c).
Proof.
  induction a as [| x a IH]; simpl; [ reflexivity | ].
  rewrite IH. reflexivity.
Qed.

Lemma bare_tail (m d : Z) :
  1 <= m <= 12 -> 1 <= d <= 31 -> bare_tail_ok m d = true.
Proof.
  intros Hm Hd.
  assert (X : forallb
                (fun i => forallb (fun j => bare_tail_ok (i + 1) (j + 1))
                            (map Z.of_nat (seq 0 31)))
                (map Z.of_nat (seq 0 12)) = true)
    by (vm_compute; reflexivity).
  pose proof (forallb_range _ 12 X (m - 1) ltac:(lia)) as Y.
  cbv beta in Y.
  pose proof (forallb_range _ 31 Y (d - 1) ltac:(lia)) as Z0.
  cbv beta in Z0.
  replace (m - 1 + 1) with m in Z0 by lia.
  replace (d - 1 + 1) with d in Z0 by lia.
  exact Z0.
Qed.

(** X11. A formatted date of a four-digit year without the week qualifier
    is rejected: the year, month and day signs are only removed when the
    qualifier is there. *)
Theorem week_qualifier_is_required (d : datetime) :
  Datetime.valid d = true -> 1000 <= year d ->
  _format_date d = format_without_qualifier d ++ "当周" /\
  _parse_date (format_without_qualifier d) = Raise ValueError.
Proof.
  intros V Hy. split.
  { unfold _format_date, format_without_qualifier.
    rewrite !string_app_assoc. reflexivity. }
  pose proof V as V'. apply valid_spec in V' as (Hyr & _ & _).
  pose proof (year_str (year d) ltac:(lia)) as Y.
  destruct (valid_day_range d V) as [Hm Hd].
  pose proof (bare_tail _ _ Hm Hd) as T.
  unfold format_without_qualifier, year_str_ok, bare_tail_ok in *.
  apply negb_true_iff in T.
  set (tail := "年" ++ PyStr.str (month d) ++ "月" ++ PyStr.str (day d) ++ "日")
    in *.
  destruct (PyStr.str (year d)) as [| c1 [| c2 [| c3 [| c4 [| c5 rest]]]]];
    try discriminate Y.
  apply andb_true_iff in Y as [Y Yv].
  apply andb_true_iff in Y as [Y D4].
  apply andb_true_iff in Y as [Y D3].
  apply andb_true_iff in Y as [D1 D2].
  cbn [append].
  unfold _parse_date.
  rewrite !contains_skip by (apply digit_not; [ assumption | reflexivity ]).
  rewrite T.
  subst tail. cbn [append].
  unfold Datetime.strptime_Ymd.
  rewrite (parse_Y_ascii c1 c2 c3 c4 _ D1 D2 D3 D4). reflexivity.
Qed.

(** X12. A date that [_parse_date] returns is a date of the calendar: the
    year is between 1 and 9999, the month between 1 and 12 and the day
    within the month, leap years counted. *)
Theorem parsed_date_is_calendar_date (date_str : string) (d : datetime) :
  _parse_date date_str = Ok d ->
  1 <= year d <= 9999 /\ 1 <= month d <= 12 /\
  1 <= day d <= Datetime._days_in_month (year d) (month d) /\
  Datetime._ord2ymd (Datetime.toordinal d) = d.
Proof.
  intros H. apply parse_date_valid in H.
  pose proof (ord2ymd_toordinal d H) as R.
  apply valid_spec in H. tauto.
Qed.

End DateCodecMore.

Lemma iso_dates_pass_through_witness :
  Datetime.strptime_Ymd "２０２５-08-1٣" = Ok (mkdate 2025 8 13) /\
  _parse_date "２０２５-08-1٣" = Ok (mkdate 2025 8 13).
Proof.
  split; [ vm_compute; reflexivity | ].
  apply (proj2 (iso_dates_pass_through "２０２５-08-1٣" (mkdate 2025 8 13)
                  ltac:(vm_compute; reflexivity))).
Defined.

Lemma week_qualifier_is_required_witness :
  format_without_qualifier (mkdate 2025 8 4) = "2025年8月4日" /\
  _parse_date "2025年8月4日" = Raise ValueError.
Proof.
  split; [ vm_compute; reflexivity | ].
  apply (proj2 (week_qualifier_is_required (mkdate 2025 8 4)
                  ltac:(vm_compute; reflexivity)
                  ltac:(vm_compute; discriminate))).
Defined.

Lemma parsed_date_is_calendar_date_witness :
  _parse_date "2024年2月29日当周" = Ok (mkdate 2024 2 29) /\
  1 <= day (mkdate 2024 2 29) <= Datetime._days_in_month 2024 2.
Proof.
  split; [ vm_compute; reflexivity | ].
  apply (parsed_date_is_calendar_date "2024年2月29日当周" (mkdate 2024 2 29)
           ltac:(vm_compute; reflexivity)).
Defined.

(* ------------------------------------------------------------------ *)
(** ** More on the readiness classification *)

Section ReadinessMore.

Lemma existsb_perm {A : Type} (f : A -> bool) (l l' : list A) :
  Permutation l l' -> existsb f l = existsb f l'.
Proof.
  induction 1 as [| x l l' _ IH | x y l | l l' l'' _ IH1 _ IH2]; simpl.
  - reflexivity.
  - rewrite IH. reflexivity.
  - destruct (f x), (f y); reflexivity.
  - congruence.
Qed.

Lemma filter_length_perm {A : Type} (f : A -> bool) (l l' : list A) :
  Permutation l l' ->
  List.length (filter f l) = List.length (filter f l').
Proof.
  induction 1 as [| x l l' _ IH | x y l | l l' l'' _ IH1 _ IH2]; simpl.
  - reflexivity.
  - destruct (f x); simpl; rewrite IH; reflexivity.
  - destruct (f x), (f y); reflexivity.
  - congruence.
Qed.

Lemma determine_repeat (x : string) (n : nat) :
  x <> "几乎未开始" ->
  existsb (String.eqb "几乎未开始") (repeat x n) = false /\
  filter (fun r => negb (String.eqb r "几乎未开始")) (repeat x n) = repeat x n.
Proof.
  intros Hx.
  assert (E1 : String.eqb "几乎未开始" x = false)
    by (apply String.eqb_neq; congruence).
  assert (E2 : String.eqb x "几乎未开始" = false)
    by (apply String.eqb_neq; exact Hx).
  induction n as [| n [IH1 IH2]]; cbn [repeat existsb filter]; [ auto | ].
  rewrite E1, E2, IH1, IH2. auto.
Qed.

(** X13. The readiness level does not depend on the order of the
    indicators, and it counts occurrences, not distinct indicators: any
    text other than the sentinel listed three times or more gives the high
    level by itself, fewer times the medium level. *)
Theorem readiness_counts_occurrences (readiness_list reordered : list string) :
  Permutation readiness_list reordered ->
  _determine_ipo_readiness_level reordered
  = _determine_ipo_readiness_level readiness_list /\
  (forall x n, x <> "几乎未开始" ->
     _determine_ipo_readiness_level (repeat x n)
     = if (3 <=? n)%nat then "高准备度" else "中等准备度").
Proof.
  intros P. split.
  - unfold _determine_ipo_readiness_level.
    rewrite (existsb_perm _ _ _ P).
    rewrite (filter_length_perm _ _ _ P). reflexivity.
  - intros x n Hx. unfold _determine_ipo_readiness_level.
    destruct (determine_repeat x n Hx) as [-> ->].
    rewrite repeat_length.
    destruct (Nat.leb_spec 3 n), (Z.leb_spec 3 (Z.of_nat n));
      try reflexivity; lia.
Qed.

End ReadinessMore.

Lemma readiness_counts_occurrences_witness :
  Permutation ["几乎未开始"; "核心中介机构已选聘"]
    ["核心中介机构已选聘"; "几乎未开始"] /\
  _determine_ipo_readiness_level (repeat "核心中介机构已选聘" 3) = "高准备度".
Proof.
  assert (P : Permutation ["几乎未开始"; "核心中介机构已选聘"]
                ["核心中介机构已选聘"; "几乎未开始"]) by apply perm_swap.
  split; [ exact P | ].
  apply (proj2 (readiness_counts_occurrences _ _ P) "核心中介机构已选聘" 3%nat).
  discriminate.
Defined.

(* ------------------------------------------------------------------ *)
(** ** Requests, the constructor and the entry point *)

Section Requests.

(** X14. A generation sends at most one request: none when it raises or
    when there is no client, and with a client exactly one, whose content
    is the timeline that is returned.  Requests logged before are kept. *)
Theorem at_most_one_request (self : Generator) (p : Params.t)
  (log : CallLog) :
  exists calls,
    snd (generate_case_timeline self p log) = (log ++ calls)%list /\
    (llm_client self = None -> calls = []) /\
    match fst (generate_case_timeline self p log) with
    | Ok (tl, rep, rv) =>
        forall c, llm_client self = Some c -> calls = [tl]
    | Raise _ => calls = []
    end.
Proof.
  destruct (project_timeline self p) as [l | e] eqn:Hl.
  - destruct (generate_returns self p log l Hl) as (rv & calls & E & _ & N & S).
    exists calls. rewrite E. simpl. split; [ reflexivity | ].
    split; [ intros H; apply N; exact H | exact S ].
  - exists []. rewrite (generate_raises self p log e Hl). simpl.
    rewrite app_nil_r. auto.
Qed.

(** X15. Without the [openai] package or without [OPENAI_API_KEY] in the
    environment the generator has no client: every generation that
    returns carries the fixed "not enabled" review, and nothing is sent. *)
Theorem no_key_no_review (openai : option LLMClient) (environ : dict string)
  (p : Params.t) (log : CallLog) :
  openai = None \/ lookup environ "OPENAI_API_KEY" = None ->
  llm_client (__init__ openai environ) = None /\
  snd (generate_case_timeline (__init__ openai environ) p log) = log /\
  (forall tl rep rv,
     fst (generate_case_timeline (__init__ openai environ) p log)
     = Ok (tl, rep, rv) ->
     rv = review_disabled /\ LLM审核结果 rep = review_disabled).
Proof.
  intros H.
  assert (N : llm_client (__init__ openai environ) = None).
  { unfold __init__, _init_llm_client. simpl.
    destruct H as [-> | ->]; [ reflexivity | ].
    destruct openai; reflexivity. }
  split; [ exact N | ].
  destruct (project_timeline (__init__ openai environ) p) as [l | e] eqn:Hl.
  - destruct (generate_returns _ p log l Hl) as (rv & calls & E & _ & D & _).
    destruct (D N) as [-> ->]. rewrite E. simpl. rewrite app_nil_r.
    split; [ reflexivity | ].
    intros tl rep rv' H'. injection H' as _ <- <-. auto.
  - rewrite (generate_raises _ p log e Hl). simpl.
    split; [ reflexivity | discriminate ].
Qed.

(** With a client and the key, the client is used. *)
Lemma key_and_package_give_client (c : LLMClient) (environ : dict string)
  (key : string) :
  lookup environ "OPENAI_API_KEY" = Some key ->
  llm_client (__init__ (Some c) environ) = Some c.
Proof. intros H. unfold __init__, _init_llm_client. simpl. rewrite H. reflexivity. Qed.

Lemma case1_projection (client : option LLMClient) :
  exists l,
    project_timeline (init client) case1 = Ok l /\
    map entry (PyList.sort Datetime.lt sort_date (Locals.timeline l))
    = case1_timeline /\
    characteristics l case1_timeline = 案例特征 case1_report.
Proof.
  change (project_timeline (init client) case1)
    with (project_timeline (init None) case1).
  destruct (project_timeline (init None) case1) as [l | e] eqn:H;
    vm_compute in H; [ | discriminate H ].
  injection H as <-. eexists. split; [ reflexivity | ].
  split; vm_compute; reflexivity.
Qed.

(** X16. [generate_predefined_cases] and [main] never raise, whatever the
    client is or does: the result maps ["Case1"] alone to its five-entry
    timeline, with exactly one request sent when there is a client and none
    otherwise, and [main] returns the generator it built. *)
Theorem predefined_cases_always_generate (openai : option LLMClient)
  (environ : dict string) (log : CallLog) :
  let gen := __init__ openai environ in
  exists rv calls,
    generate_predefined_cases gen log
    = (Ok [("Case1",
            (case1_timeline,
             mkReport (Some "Case1 - 标准股改项目") case1
               (案例特征 case1_report) rv,
             rv))],
       (log ++ calls)%list) /\
    main openai environ log = (Ok gen, (log ++ calls)%list) /\
    (llm_client gen = None -> calls = [] /\ rv = review_disabled) /\
    (forall c, llm_client gen = Some c -> calls = [case1_timeline]).
Proof.
  intros gen.
  destruct (case1_projection (_init_llm_client openai environ))
    as (l & Hl & Htl & Hc).
  fold (__init__ openai environ) in Hl. fold gen in Hl.
  destruct (generate_returns gen case1 log l Hl) as (rv & calls & E & _ & N & S).
  rewrite Htl in E, S. rewrite Hc in E.
  exists rv, calls.
  assert (G : generate_predefined_cases gen log
              = (Ok [("Case1",
                      (case1_timeline,
                       mkReport (Some "Case1 - 标准股改项目") case1
                         (案例特征 case1_report) rv,
                       rv))],
                 (log ++ calls)%list)).
  { unfold generate_predefined_cases, predefined_cases. simpl generate_cases.
    unfold bind. rewrite E. reflexivity. }
  split; [ exact G | ].
  split; [ | split; [ exact N | exact S ] ].
  unfold main, bind, ret. fold gen. rewrite G. reflexivity.
Qed.

End Requests.

Lemma no_key_no_review_witness :
  lookup [("HOME", "/root")] "OPENAI_API_KEY" = None /\
  snd (generate_case_timeline
         (__init__ (Some failing_client) [("HOME", "/root")]) case1 []) = [].
Proof.
  split; [ reflexivity | ].
  apply (proj1 (proj2 (no_key_no_review (Some failing_client)
                         [("HOME", "/root")] case1 [] (or_intror eq_refl)))).
Defined.

(* ------------------------------------------------------------------ *)
(** ** Task count and factors with the tables of the source *)

Section ShippedReport.

Lemma factor_ranges (x y : float) (u v : float) :
  In x [0.85; 1.0; 1.15]%float -> In y [0.9; 1.0; 1.2]%float ->
  In u [1.1; 0.8; 0.9; 1.3]%float -> In v [0.8; 1.0; 1.2]%float ->
  ((0.76 <? x * y) && (x * y <? 1.39))%float = true /\
  ((0.63 <? u * v) && (u * v <? 1.57))%float = true.
Proof.
  simpl.
  intros [<- | [<- | [<- | []]]] [<- | [<- | [<- | []]]] Hu Hv; split;
    try (vm_compute; reflexivity);
    destruct Hu as [<- | [<- | [<- | [<- | []]]]];
    destruct Hv as [<- | [<- | [<- | []]]];
    vm_compute; reflexivity.
Qed.

(** X17. With the tables of the source, the report of every generation
    that returns counts five tasks for the structure that needs the equity
    reform (also when the structure is left out) and three for every other
    structure; its time factor lies between 0.76 and 1.39 and its
    complexity factor between 0.63 and 1.57. *)
Theorem shipped_report_counts_and_ranges (client : option LLMClient)
  (p : Params.t) (log log' : CallLog) (tl : list Entry.t) (rep : Report)
  (rv : Json) :
  generate_case_timeline (init client) p log = (Ok (tl, rep, rv), log') ->
  总任务数 (案例特征 rep) = (if needs_equity_reform p then 5 else 3) /\
  List.length tl = (if needs_equity_reform p then 5 else 3)%nat /\
  ((0.76 <? 时间调整系数 (案例特征 rep))
   && (时间调整系数 (案例特征 rep) <? 1.39))%float = true /\
  ((0.63 <? 复杂度系数 (案例特征 rep))
   && (复杂度系数 (案例特征 rep) <? 1.57))%float = true.
Proof.
  intros H. apply generate_ok_inv in H as (l & Hl & -> & _ & ->).
  destruct (projected_legal client p l Hl) as (L & D).
  assert (V : Datetime.valid (Locals.project_start_date l) = true).
  { pose proof D as D'. unfold date_params in D'. injection D' as D1 _ _ _ _.
    eapply param_date_valid; eassumption. }
  destruct (shipped_projection client p _ _ _ _ _ D L) as (x & y & Hx & Hy & H).
  rewrite Hl in H.
  destruct (shipped_factors x y Hx Hy) as [K _].
  pose proof (shipped_loop _ _ _ _ _ _ _ _ V K H) as T.
  assert (Len : List.length
                  (map entry
                     (PyList.sort Datetime.lt sort_date (Locals.timeline l)))
                = (if needs_equity_reform p then 5 else 3)%nat).
  { rewrite length_map.
    rewrite (Permutation_length (sort_perm Datetime.lt sort_date _)).
    rewrite T. destruct (needs_equity_reform p); reflexivity. }
  pose proof (project_timeline_inv _ _ _ Hl) as P.
  pose proof (proj_structure_rules _ _ _ P) as Gs.
  pose proof (proj_pace_rules _ _ _ P) as Gp.
  pose proof (proj_financial_rules _ _ _ P) as Gf.
  pose proof (proj_readiness_rules _ _ _ P) as Gr.
  rewrite (proj_readiness_level _ _ _ P) in Gr.
  simpl variation_rules in *.
  destruct (structure_rule_of _ (getitem_In_keys _ _ _ Gs)) as (sr & Gs' & Is).
  destruct (pace_rule_of _ (getitem_In_keys _ _ _ Gp)) as (pr & Gp' & Ip).
  destruct (financial_rule_of _ (getitem_In_keys _ _ _ Gf)) as (fr & Gf' & If_).
  destruct (readiness_rule_of (Locals.ipo_readiness l)) as (rr & Gr' & Ir).
  assert (sr = Locals.structure_rules l) by congruence.
  assert (pr = Locals.pace_rules l) by congruence.
  assert (fr = Locals.financial_rules l) by congruence.
  assert (rr = Locals.readiness_rules l) by congruence.
  subst sr pr fr rr.
  destruct (factor_ranges _ _ _ _ Ip Ir Is If_) as [Rt Rc].
  simpl. rewrite Len.
  rewrite (proj_time_factor _ _ _ P), (proj_complexity_factor _ _ _ P).
  split; [ destruct (needs_equity_reform p); reflexivity | ].
  split; [ reflexivity | ]. split; assumption.
Qed.

End ShippedReport.

Lemma shipped_report_counts_and_ranges_witness :
  generate_case_timeline (init None) case1 []
  = (Ok (case1_timeline, case1_report, review_disabled), []) /\
  总任务数 (案例特征 case1_report) = 5.
Proof.
  split; [ vm_compute; reflexivity | ].
  apply (proj1 (shipped_report_counts_and_ranges None case1 [] []
                  case1_timeline case1_report review_disabled
                  ltac:(vm_compute; reflexivity))).
Defined.
